(** * The GUNNS fluid distributed interface link

    A shallow embedding of [GunnsFluidDistributedIfData] and of the member
    functions of [GunnsFluidDistributedIf] that run in every pass of the
    network ([processInputs], [step], [processOutputs] and what they call),
    from GunnsFluidDistributedIf.cpp, and the properties that the design
    document states about them.

    Conventions of the embedding:
    - a C++ [double] is an exact rational ([Q]); comparisons are the
      decidable ones of [Q], and the C++ [==] on doubles is [Qeq_bool].
      Rounding, infinities and NaN are outside the model;
    - frame counters are unsigned and wrap; [int] members are 32 bits wide;
    - heap arrays are lists.  The loops of [hasValidData] are bounded by the
      sizes of the local network, not by the sizes of the arrays, and a read
      past the end of an array has no defined result there.  The other loops
      stay within the sizes that the [initialize] functions allocate;
    - a member function that can throw, or that calls [hasValidData], is a
      function into [outcome]; the others are plain functions on the link
      state;
    - the messages of [GUNNS_INFO] and [GUNNS_WARNING] are left out. *)

From Stdlib Require Import ZArith QArith Qabs Qpower List Bool Lia Lqa.
Import ListNotations.

Open Scope Q_scope.

(** ** Numbers *)

Definition Qlt_bool (x y : Q) : bool := negb (Qle_bool y x).

(** [DBL_EPSILON] and [FLT_EPSILON] of <cfloat>. *)
Definition DBL_EPSILON : Q := 1 # (2 ^ 52).
Definition FLT_EPSILON : Q := 1 # (2 ^ 23).

(** [UnitConversion::KILO_PER_UNIT] and [UnitConversion::UNIT_PER_KILO]:
    (mol/s) to (kmol/s) and (kPa) to (Pa), as the comments at their uses
    say. *)
Definition KILO_PER_UNIT : Q := 1 # 1000.
Definition UNIT_PER_KILO : Q := 1000 # 1.

(** [std::max(a, b)] is [(a < b) ? b : a]; [std::min(a, b)] is
    [(b < a) ? b : a]. *)
Definition std_max (a b : Q) : Q := if Qlt_bool a b then b else a.
Definition std_min (a b : Q) : Q := if Qlt_bool b a then b else a.

(** Modelled from the spec: [MsMath::limitRange] is not among the sources.
    Section 4.3 of the design calls it [clamp(lower, x, upper)]: [x] limited
    from above by [upper] and then from below by [lower]. *)
Definition limitRange (lower x upper : Q) : Q :=
  std_max (std_min x upper) lower.

(** The [int] overload of [MsMath::limitRange], modelled as above. *)
Definition limitRangeInt (lower x upper : Z) : Z :=
  Z.max (Z.min x upper) lower.

(** [powf(base, exponent)] at an integer exponent, without rounding. *)
Definition powf (base : Q) (exponent : Z) : Q := Qpower base exponent.

(** Modelled from the spec: the header that declares the payload is not
    among the sources.  Section 6 of the design gives [frameCount] and
    [frameLoopback] as unsigned 64-bit counters. *)
Definition counter_modulus : Z := 2 ^ 64.
Definition wrap_counter (z : Z) : Z := (z mod counter_modulus)%Z.

(** Conversion of an integer to a 32-bit [int] (two's complement). *)
Definition to_int (z : Z) : Z := ((z + 2 ^ 31) mod 2 ^ 32 - 2 ^ 31)%Z.

(** [a[i]] for an index within the array. *)
Definition read (a : list Q) (i : nat) : Q := nth i a 0.

(** Sum of the entries [a[0] .. a[n-1]], accumulated from [0.0] in index
    order as the summation loops of the link do. *)
Definition sum_first (n : nat) (a : list Q) : Q :=
  fold_left Qplus (map (read a) (seq 0 n)) 0.

(** The array [a] after [a[i] = f(a[i])] for every [i < n]. *)
Fixpoint update_first (n : nat) (f : Q -> Q) (a : list Q) : list Q :=
  match n, a with
  | S n', x :: a' => f x :: update_first n' f a'
  | _, _ => a
  end.

(** ** The interface payload: GunnsFluidDistributedIfData *)

Record GunnsFluidDistributedIfData : Type := mkIfData {
  mFrameCount      : Z;
  mFrameLoopback   : Z;
  mDemandMode      : bool;
  mCapacitance     : Q;
  mSource          : Q;
  mEnergy          : Q;
  mMoleFractions   : list Q;   (* array of mNumFluidIf doubles, [] when null *)
  mTcMoleFractions : list Q;   (* array of mNumTcIf doubles, [] when null *)
  mNumFluid        : nat;
  mNumTc           : nat;
  mNumFluidIf      : nat;
  mNumTcIf         : nat;
  mNumFluidCommon  : nat;
  mNumTcCommon     : nat
}.

(** The default constructor. *)
Definition IfData_default : GunnsFluidDistributedIfData :=
  mkIfData 0 0 false 0 0 0 [] [] 0 0 0 0 0 0.

Definition set_mFrameCount (v : Z) (d : GunnsFluidDistributedIfData) :=
  mkIfData v (mFrameLoopback d) (mDemandMode d) (mCapacitance d) (mSource d)
    (mEnergy d) (mMoleFractions d) (mTcMoleFractions d) (mNumFluid d)
    (mNumTc d) (mNumFluidIf d) (mNumTcIf d) (mNumFluidCommon d)
    (mNumTcCommon d).
Definition set_mFrameLoopback (v : Z) (d : GunnsFluidDistributedIfData) :=
  mkIfData (mFrameCount d) v (mDemandMode d) (mCapacitance d) (mSource d)
    (mEnergy d) (mMoleFractions d) (mTcMoleFractions d) (mNumFluid d)
    (mNumTc d) (mNumFluidIf d) (mNumTcIf d) (mNumFluidCommon d)
    (mNumTcCommon d).
Definition set_mDemandMode (v : bool) (d : GunnsFluidDistributedIfData) :=
  mkIfData (mFrameCount d) (mFrameLoopback d) v (mCapacitance d) (mSource d)
    (mEnergy d) (mMoleFractions d) (mTcMoleFractions d) (mNumFluid d)
    (mNumTc d) (mNumFluidIf d) (mNumTcIf d) (mNumFluidCommon d)
    (mNumTcCommon d).
Definition set_mCapacitance (v : Q) (d : GunnsFluidDistributedIfData) :=
  mkIfData (mFrameCount d) (mFrameLoopback d) (mDemandMode d) v (mSource d)
    (mEnergy d) (mMoleFractions d) (mTcMoleFractions d) (mNumFluid d)
    (mNumTc d) (mNumFluidIf d) (mNumTcIf d) (mNumFluidCommon d)
    (mNumTcCommon d).
Definition set_mSource (v : Q) (d : GunnsFluidDistributedIfData) :=
  mkIfData (mFrameCount d) (mFrameLoopback d) (mDemandMode d)
    (mCapacitance d) v (mEnergy d) (mMoleFractions d) (mTcMoleFractions d)
    (mNumFluid d) (mNumTc d) (mNumFluidIf d) (mNumTcIf d)
    (mNumFluidCommon d) (mNumTcCommon d).
Definition set_mEnergy (v : Q) (d : GunnsFluidDistributedIfData) :=
  mkIfData (mFrameCount d) (mFrameLoopback d) (mDemandMode d)
    (mCapacitance d) (mSource d) v (mMoleFractions d) (mTcMoleFractions d)
    (mNumFluid d) (mNumTc d) (mNumFluidIf d) (mNumTcIf d)
    (mNumFluidCommon d) (mNumTcCommon d).
Definition set_mMoleFractions (v : list Q) (d : GunnsFluidDistributedIfData) :=
  mkIfData (mFrameCount d) (mFrameLoopback d) (mDemandMode d)
    (mCapacitance d) (mSource d) (mEnergy d) v (mTcMoleFractions d)
    (mNumFluid d) (mNumTc d) (mNumFluidIf d) (mNumTcIf d)
    (mNumFluidCommon d) (mNumTcCommon d).
Definition set_mTcMoleFractions (v : list Q) (d : GunnsFluidDistributedIfData) :=
  mkIfData (mFrameCount d) (mFrameLoopback d) (mDemandMode d)
    (mCapacitance d) (mSource d) (mEnergy d) (mMoleFractions d) v
    (mNumFluid d) (mNumTc d) (mNumFluidIf d) (mNumTcIf d)
    (mNumFluidCommon d) (mNumTcCommon d).

(** [GunnsFluidDistributedIfData::initialize].  The arrays are (re)allocated
    and zeroed only when their interface size is positive. *)
Definition IfData_initialize (nFluids nTc : nat) (fluidSizesOverride : bool)
    (nIfFluids nIfTc : nat) (d : GunnsFluidDistributedIfData)
    : GunnsFluidDistributedIfData :=
  let numFluidIf := if fluidSizesOverride then nIfFluids else nFluids in
  let numTcIf    := if fluidSizesOverride then nIfTc else nTc in
  mkIfData (mFrameCount d) (mFrameLoopback d) (mDemandMode d)
    (mCapacitance d) (mSource d) (mEnergy d)
    (if (0 <? numFluidIf)%nat then repeat 0 numFluidIf else mMoleFractions d)
    (if (0 <? numTcIf)%nat then repeat 0 numTcIf else mTcMoleFractions d)
    nFluids nTc numFluidIf numTcIf
    (Nat.min nFluids numFluidIf) (Nat.min nTc numTcIf).

(** The loop [for (i = 0; i < n; ++i) if (a[i] < 0.0) return false;] of
    [hasValidData]: [Some true] when it returns early on a negative entry,
    [Some false] when it runs to its end, [None] when it reads [a[i]] beyond
    the end of the array. *)
Fixpoint findNegative (n : nat) (a : list Q) : option bool :=
  match n with
  | O => Some false
  | S n' =>
      match a with
      | [] => None
      | x :: a' => if Qlt_bool x 0 then Some true else findNegative n' a'
      end
  end.

(** [GunnsFluidDistributedIfData::hasValidData].  The loops run to
    [mNumFluid] and [mNumTc]. *)
Definition hasValidData (d : GunnsFluidDistributedIfData) : option bool :=
  if (mFrameCount d <? 1)%Z
     || Qle_bool (mEnergy d) 0
     || Qlt_bool (mCapacitance d) 0
     || (Qlt_bool (mSource d) 0 && negb (mDemandMode d))
  then Some false
  else
    match findNegative (mNumFluid d) (mMoleFractions d) with
    | None => None
    | Some true => Some false
    | Some false =>
        match findNegative (mNumTc d) (mTcMoleFractions d) with
        | None => None
        | Some true => Some false
        | Some false => Some true
        end
    end.

(** [setMoleFractions] and [setTcMoleFractions]: the first common entries
    are copied from the given array, the rest of the interface array is
    zeroed.  The interface array has [mNumFluidIf] ([mNumTcIf]) entries, as
    [initialize] allocated it. *)
Definition setMoleFractions (fractions : list Q)
    (d : GunnsFluidDistributedIfData) : GunnsFluidDistributedIfData :=
  set_mMoleFractions
    (map (read fractions) (seq 0 (mNumFluidCommon d))
     ++ repeat 0 (mNumFluidIf d - mNumFluidCommon d)) d.

Definition setTcMoleFractions (fractions : list Q)
    (d : GunnsFluidDistributedIfData) : GunnsFluidDistributedIfData :=
  set_mTcMoleFractions
    (map (read fractions) (seq 0 (mNumTcCommon d))
     ++ repeat 0 (mNumTcIf d - mNumTcCommon d)) d.

(** [getMoleFractions] and [getTcMoleFractions]: the contents of the given
    array of [mNumFluid] ([mNumTc]) entries after the call. *)
Definition getMoleFractions (d : GunnsFluidDistributedIfData) : list Q :=
  map (read (mMoleFractions d)) (seq 0 (mNumFluidCommon d))
  ++ repeat 0 (mNumFluid d - mNumFluidCommon d).

Definition getTcMoleFractions (d : GunnsFluidDistributedIfData) : list Q :=
  map (read (mTcMoleFractions d)) (seq 0 (mNumTcCommon d))
  ++ repeat 0 (mNumTc d - mNumTcCommon d).

(** ** The collaborators of the link

    The fluid, node and capacitor classes are not among the sources; the
    records below hold the members that the link reads and writes through
    their accessors. *)

(** [GunnsFluidTraceCompounds]: the number of compounds of its
    configuration and its mole fractions.  A trace compounds object always
    carries its configuration, so the null tests on [getConfig()] succeed. *)
Record GunnsFluidTraceCompounds : Type := mkTc {
  tcNTypes        : nat;
  tcMoleFractions : list Q
}.

(** [PolyFluid]: what [setMassAndMassFractions], [setPressure],
    [setTemperature], [getMassFraction], [getTemperature] and
    [getTraceCompounds] write and read. *)
Record PolyFluid : Type := mkFluid {
  fMass           : Q;
  fMassFractions  : list Q;
  fPressure       : Q;
  fTemperature    : Q;
  fTraceCompounds : option GunnsFluidTraceCompounds
}.

Definition setMassAndMassFractions (mass : Q) (fractions : list Q)
    (f : PolyFluid) : PolyFluid :=
  mkFluid mass fractions (fPressure f) (fTemperature f) (fTraceCompounds f).
Definition setPressure (p : Q) (f : PolyFluid) : PolyFluid :=
  mkFluid (fMass f) (fMassFractions f) p (fTemperature f) (fTraceCompounds f).
Definition setTemperature (t : Q) (f : PolyFluid) : PolyFluid :=
  mkFluid (fMass f) (fMassFractions f) (fPressure f) t (fTraceCompounds f).
Definition setTraceCompounds (tc : option GunnsFluidTraceCompounds)
    (f : PolyFluid) : PolyFluid :=
  mkFluid (fMass f) (fMassFractions f) (fPressure f) (fTemperature f) tc.

(** [GunnsFluidNode], with the outputs of the solver that the link reads and
    the network capacitance request that it writes.  [nNTypes] is
    [getFluidConfig()->mNTypes]. *)
Record GunnsFluidNode : Type := mkNode {
  nPotential                 : Q;
  nVolume                    : Q;
  nContent                   : PolyFluid;
  nInflow                    : PolyFluid;
  nNetworkCapacitance        : Q;
  nNetCapDeltaPotential      : list Q;
  nNetworkCapacitanceRequest : Q;
  nNTypes                    : nat
}.

Definition set_nContent (f : PolyFluid) (n : GunnsFluidNode) :=
  mkNode (nPotential n) (nVolume n) f (nInflow n) (nNetworkCapacitance n)
    (nNetCapDeltaPotential n) (nNetworkCapacitanceRequest n) (nNTypes n).
Definition setNetworkCapacitanceRequest (flux : Q) (n : GunnsFluidNode) :=
  mkNode (nPotential n) (nVolume n) (nContent n) (nInflow n)
    (nNetworkCapacitance n) (nNetCapDeltaPotential n) flux (nNTypes n).

(** Modelled from the spec: [GunnsFluidCapacitor] is not among the sources.
    Section 9 of the design describes it as a handle with
    [editVolume(enable, value)], which requests a new node volume. *)
Record GunnsFluidCapacitor : Type := mkCapacitor {
  mEditVolumeFlag : bool;
  mEditVolume     : Q
}.
Definition editVolume (flag : bool) (volume : Q) (c : GunnsFluidCapacitor)
    : GunnsFluidCapacitor := mkCapacitor flag volume.

(** What the link reads of another interface link in [mOtherIfs]:
    [getSuppliedCapacitance()] and [getNodeMap()[0]]. *)
Record OtherIf : Type := mkOtherIf {
  otherSuppliedCapacitance : Q;
  otherNodeMap             : nat
}.

(** The functions of the fluid model that the link calls and that depend on
    the fluid properties of the network. *)
Class FluidModel : Type := {
  convertMoleFractionToMassFraction : list Q -> list Q;
  convertMassFractionToMoleFraction : list Q -> list Q;
  computeTemperature   : PolyFluid -> Q -> Q;
  getSpecificEnthalpy  : PolyFluid -> Q;
  getMoleFraction      : PolyFluid -> nat -> Q
}.

(** ** The link: GunnsFluidDistributedIf *)

Record GunnsFluidDistributedIf : Type := mkLink {
  mInData                 : GunnsFluidDistributedIfData;  (* written by the transport *)
  mOutData                : GunnsFluidDistributedIfData;  (* outgoing payload *)
  mIsPairMaster           : bool;
  mUseEnthalpy            : bool;
  mDemandOption           : bool;
  mCapacitorLink          : GunnsFluidCapacitor;  (* the node's capacitor link *)
  mModingCapacitanceRatio : Q;
  mDemandFilterConstA     : Q;
  mDemandFilterConstB     : Q;
  mForceDemandMode        : bool;
  mForceSupplyMode        : bool;
  mInDataLastDemandMode   : bool;
  mFramesSinceFlip        : Z;
  mSupplyVolume           : Q;
  mEffectiveConductivity  : Q;
  mSourcePressure         : Q;
  mDemandFlux             : Q;
  mLoopLatency            : Z;
  mDemandFluxGain         : Q;
  mSuppliedCapacitance    : Q;
  mTempMassFractions      : list Q;
  mTempMoleFractions      : list Q;
  mTempTcMoleFractions    : list Q;
  mOtherIfs               : list OtherIf;
  mFluidState             : PolyFluid;
  mMalfBlockageFlag       : bool;  (* GunnsBasicLink *)
  mMalfBlockageValue      : Q;  (* GunnsBasicLink *)
  mAdmittanceMatrix       : Q;  (* mAdmittanceMatrix[0] *)
  mAdmittanceUpdate       : bool;
  mSourceVector           : Q;  (* mSourceVector[0] *)
  mFlux                   : Q;  (* set by the base class from the solution *)
  mConductanceLimit       : Q;  (* GunnsBasicLink::mConductanceLimit *)
  mInternalFluid          : PolyFluid;
  mNode                   : GunnsFluidNode;  (* mNodes[0] *)
  mNodeMap                : nat  (* mNodeMap[0] *)
}.

Definition set_mInData (v : GunnsFluidDistributedIfData) (s : GunnsFluidDistributedIf) :=
  mkLink v (mOutData s) (mIsPairMaster s) (mUseEnthalpy s) (mDemandOption s)
    (mCapacitorLink s) (mModingCapacitanceRatio s) (mDemandFilterConstA s)
    (mDemandFilterConstB s) (mForceDemandMode s) (mForceSupplyMode s)
    (mInDataLastDemandMode s) (mFramesSinceFlip s) (mSupplyVolume s)
    (mEffectiveConductivity s) (mSourcePressure s) (mDemandFlux s)
    (mLoopLatency s) (mDemandFluxGain s) (mSuppliedCapacitance s)
    (mTempMassFractions s) (mTempMoleFractions s) (mTempTcMoleFractions s)
    (mOtherIfs s) (mFluidState s) (mMalfBlockageFlag s) (mMalfBlockageValue
    s) (mAdmittanceMatrix s) (mAdmittanceUpdate s) (mSourceVector s) (mFlux
    s) (mConductanceLimit s) (mInternalFluid s) (mNode s) (mNodeMap s).
Definition set_mOutData (v : GunnsFluidDistributedIfData) (s : GunnsFluidDistributedIf) :=
  mkLink (mInData s) v (mIsPairMaster s) (mUseEnthalpy s) (mDemandOption s)
    (mCapacitorLink s) (mModingCapacitanceRatio s) (mDemandFilterConstA s)
    (mDemandFilterConstB s) (mForceDemandMode s) (mForceSupplyMode s)
    (mInDataLastDemandMode s) (mFramesSinceFlip s) (mSupplyVolume s)
    (mEffectiveConductivity s) (mSourcePressure s) (mDemandFlux s)
    (mLoopLatency s) (mDemandFluxGain s) (mSuppliedCapacitance s)
    (mTempMassFractions s) (mTempMoleFractions s) (mTempTcMoleFractions s)
    (mOtherIfs s) (mFluidState s) (mMalfBlockageFlag s) (mMalfBlockageValue
    s) (mAdmittanceMatrix s) (mAdmittanceUpdate s) (mSourceVector s) (mFlux
    s) (mConductanceLimit s) (mInternalFluid s) (mNode s) (mNodeMap s).
Definition set_mCapacitorLink (v : GunnsFluidCapacitor) (s : GunnsFluidDistributedIf) :=
  mkLink (mInData s) (mOutData s) (mIsPairMaster s) (mUseEnthalpy s)
    (mDemandOption s) v (mModingCapacitanceRatio s) (mDemandFilterConstA s)
    (mDemandFilterConstB s) (mForceDemandMode s) (mForceSupplyMode s)
    (mInDataLastDemandMode s) (mFramesSinceFlip s) (mSupplyVolume s)
    (mEffectiveConductivity s) (mSourcePressure s) (mDemandFlux s)
    (mLoopLatency s) (mDemandFluxGain s) (mSuppliedCapacitance s)
    (mTempMassFractions s) (mTempMoleFractions s) (mTempTcMoleFractions s)
    (mOtherIfs s) (mFluidState s) (mMalfBlockageFlag s) (mMalfBlockageValue
    s) (mAdmittanceMatrix s) (mAdmittanceUpdate s) (mSourceVector s) (mFlux
    s) (mConductanceLimit s) (mInternalFluid s) (mNode s) (mNodeMap s).
Definition set_mInDataLastDemandMode (v : bool) (s : GunnsFluidDistributedIf) :=
  mkLink (mInData s) (mOutData s) (mIsPairMaster s) (mUseEnthalpy s)
    (mDemandOption s) (mCapacitorLink s) (mModingCapacitanceRatio s)
    (mDemandFilterConstA s) (mDemandFilterConstB s) (mForceDemandMode s)
    (mForceSupplyMode s) v (mFramesSinceFlip s) (mSupplyVolume s)
    (mEffectiveConductivity s) (mSourcePressure s) (mDemandFlux s)
    (mLoopLatency s) (mDemandFluxGain s) (mSuppliedCapacitance s)
    (mTempMassFractions s) (mTempMoleFractions s) (mTempTcMoleFractions s)
    (mOtherIfs s) (mFluidState s) (mMalfBlockageFlag s) (mMalfBlockageValue
    s) (mAdmittanceMatrix s) (mAdmittanceUpdate s) (mSourceVector s) (mFlux
    s) (mConductanceLimit s) (mInternalFluid s) (mNode s) (mNodeMap s).
Definition set_mFramesSinceFlip (v : Z) (s : GunnsFluidDistributedIf) :=
  mkLink (mInData s) (mOutData s) (mIsPairMaster s) (mUseEnthalpy s)
    (mDemandOption s) (mCapacitorLink s) (mModingCapacitanceRatio s)
    (mDemandFilterConstA s) (mDemandFilterConstB s) (mForceDemandMode s)
    (mForceSupplyMode s) (mInDataLastDemandMode s) v (mSupplyVolume s)
    (mEffectiveConductivity s) (mSourcePressure s) (mDemandFlux s)
    (mLoopLatency s) (mDemandFluxGain s) (mSuppliedCapacitance s)
    (mTempMassFractions s) (mTempMoleFractions s) (mTempTcMoleFractions s)
    (mOtherIfs s) (mFluidState s) (mMalfBlockageFlag s) (mMalfBlockageValue
    s) (mAdmittanceMatrix s) (mAdmittanceUpdate s) (mSourceVector s) (mFlux
    s) (mConductanceLimit s) (mInternalFluid s) (mNode s) (mNodeMap s).
Definition set_mSupplyVolume (v : Q) (s : GunnsFluidDistributedIf) :=
  mkLink (mInData s) (mOutData s) (mIsPairMaster s) (mUseEnthalpy s)
    (mDemandOption s) (mCapacitorLink s) (mModingCapacitanceRatio s)
    (mDemandFilterConstA s) (mDemandFilterConstB s) (mForceDemandMode s)
    (mForceSupplyMode s) (mInDataLastDemandMode s) (mFramesSinceFlip s) v
    (mEffectiveConductivity s) (mSourcePressure s) (mDemandFlux s)
    (mLoopLatency s) (mDemandFluxGain s) (mSuppliedCapacitance s)
    (mTempMassFractions s) (mTempMoleFractions s) (mTempTcMoleFractions s)
    (mOtherIfs s) (mFluidState s) (mMalfBlockageFlag s) (mMalfBlockageValue
    s) (mAdmittanceMatrix s) (mAdmittanceUpdate s) (mSourceVector s) (mFlux
    s) (mConductanceLimit s) (mInternalFluid s) (mNode s) (mNodeMap s).
Definition set_mEffectiveConductivity (v : Q) (s : GunnsFluidDistributedIf) :=
  mkLink (mInData s) (mOutData s) (mIsPairMaster s) (mUseEnthalpy s)
    (mDemandOption s) (mCapacitorLink s) (mModingCapacitanceRatio s)
    (mDemandFilterConstA s) (mDemandFilterConstB s) (mForceDemandMode s)
    (mForceSupplyMode s) (mInDataLastDemandMode s) (mFramesSinceFlip s)
    (mSupplyVolume s) v (mSourcePressure s) (mDemandFlux s) (mLoopLatency s)
    (mDemandFluxGain s) (mSuppliedCapacitance s) (mTempMassFractions s)
    (mTempMoleFractions s) (mTempTcMoleFractions s) (mOtherIfs s)
    (mFluidState s) (mMalfBlockageFlag s) (mMalfBlockageValue s)
    (mAdmittanceMatrix s) (mAdmittanceUpdate s) (mSourceVector s) (mFlux s)
    (mConductanceLimit s) (mInternalFluid s) (mNode s) (mNodeMap s).
Definition set_mSourcePressure (v : Q) (s : GunnsFluidDistributedIf) :=
  mkLink (mInData s) (mOutData s) (mIsPairMaster s) (mUseEnthalpy s)
    (mDemandOption s) (mCapacitorLink s) (mModingCapacitanceRatio s)
    (mDemandFilterConstA s) (mDemandFilterConstB s) (mForceDemandMode s)
    (mForceSupplyMode s) (mInDataLastDemandMode s) (mFramesSinceFlip s)
    (mSupplyVolume s) (mEffectiveConductivity s) v (mDemandFlux s)
    (mLoopLatency s) (mDemandFluxGain s) (mSuppliedCapacitance s)
    (mTempMassFractions s) (mTempMoleFractions s) (mTempTcMoleFractions s)
    (mOtherIfs s) (mFluidState s) (mMalfBlockageFlag s) (mMalfBlockageValue
    s) (mAdmittanceMatrix s) (mAdmittanceUpdate s) (mSourceVector s) (mFlux
    s) (mConductanceLimit s) (mInternalFluid s) (mNode s) (mNodeMap s).
Definition set_mDemandFlux (v : Q) (s : GunnsFluidDistributedIf) :=
  mkLink (mInData s) (mOutData s) (mIsPairMaster s) (mUseEnthalpy s)
    (mDemandOption s) (mCapacitorLink s) (mModingCapacitanceRatio s)
    (mDemandFilterConstA s) (mDemandFilterConstB s) (mForceDemandMode s)
    (mForceSupplyMode s) (mInDataLastDemandMode s) (mFramesSinceFlip s)
    (mSupplyVolume s) (mEffectiveConductivity s) (mSourcePressure s) v
    (mLoopLatency s) (mDemandFluxGain s) (mSuppliedCapacitance s)
    (mTempMassFractions s) (mTempMoleFractions s) (mTempTcMoleFractions s)
    (mOtherIfs s) (mFluidState s) (mMalfBlockageFlag s) (mMalfBlockageValue
    s) (mAdmittanceMatrix s) (mAdmittanceUpdate s) (mSourceVector s) (mFlux
    s) (mConductanceLimit s) (mInternalFluid s) (mNode s) (mNodeMap s).
Definition set_mLoopLatency (v : Z) (s : GunnsFluidDistributedIf) :=
  mkLink (mInData s) (mOutData s) (mIsPairMaster s) (mUseEnthalpy s)
    (mDemandOption s) (mCapacitorLink s) (mModingCapacitanceRatio s)
    (mDemandFilterConstA s) (mDemandFilterConstB s) (mForceDemandMode s)
    (mForceSupplyMode s) (mInDataLastDemandMode s) (mFramesSinceFlip s)
    (mSupplyVolume s) (mEffectiveConductivity s) (mSourcePressure s)
    (mDemandFlux s) v (mDemandFluxGain s) (mSuppliedCapacitance s)
    (mTempMassFractions s) (mTempMoleFractions s) (mTempTcMoleFractions s)
    (mOtherIfs s) (mFluidState s) (mMalfBlockageFlag s) (mMalfBlockageValue
    s) (mAdmittanceMatrix s) (mAdmittanceUpdate s) (mSourceVector s) (mFlux
    s) (mConductanceLimit s) (mInternalFluid s) (mNode s) (mNodeMap s).
Definition set_mDemandFluxGain (v : Q) (s : GunnsFluidDistributedIf) :=
  mkLink (mInData s) (mOutData s) (mIsPairMaster s) (mUseEnthalpy s)
    (mDemandOption s) (mCapacitorLink s) (mModingCapacitanceRatio s)
    (mDemandFilterConstA s) (mDemandFilterConstB s) (mForceDemandMode s)
    (mForceSupplyMode s) (mInDataLastDemandMode s) (mFramesSinceFlip s)
    (mSupplyVolume s) (mEffectiveConductivity s) (mSourcePressure s)
    (mDemandFlux s) (mLoopLatency s) v (mSuppliedCapacitance s)
    (mTempMassFractions s) (mTempMoleFractions s) (mTempTcMoleFractions s)
    (mOtherIfs s) (mFluidState s) (mMalfBlockageFlag s) (mMalfBlockageValue
    s) (mAdmittanceMatrix s) (mAdmittanceUpdate s) (mSourceVector s) (mFlux
    s) (mConductanceLimit s) (mInternalFluid s) (mNode s) (mNodeMap s).
Definition set_mSuppliedCapacitance (v : Q) (s : GunnsFluidDistributedIf) :=
  mkLink (mInData s) (mOutData s) (mIsPairMaster s) (mUseEnthalpy s)
    (mDemandOption s) (mCapacitorLink s) (mModingCapacitanceRatio s)
    (mDemandFilterConstA s) (mDemandFilterConstB s) (mForceDemandMode s)
    (mForceSupplyMode s) (mInDataLastDemandMode s) (mFramesSinceFlip s)
    (mSupplyVolume s) (mEffectiveConductivity s) (mSourcePressure s)
    (mDemandFlux s) (mLoopLatency s) (mDemandFluxGain s) v
    (mTempMassFractions s) (mTempMoleFractions s) (mTempTcMoleFractions s)
    (mOtherIfs s) (mFluidState s) (mMalfBlockageFlag s) (mMalfBlockageValue
    s) (mAdmittanceMatrix s) (mAdmittanceUpdate s) (mSourceVector s) (mFlux
    s) (mConductanceLimit s) (mInternalFluid s) (mNode s) (mNodeMap s).
Definition set_mTempMassFractions (v : list Q) (s : GunnsFluidDistributedIf) :=
  mkLink (mInData s) (mOutData s) (mIsPairMaster s) (mUseEnthalpy s)
    (mDemandOption s) (mCapacitorLink s) (mModingCapacitanceRatio s)
    (mDemandFilterConstA s) (mDemandFilterConstB s) (mForceDemandMode s)
    (mForceSupplyMode s) (mInDataLastDemandMode s) (mFramesSinceFlip s)
    (mSupplyVolume s) (mEffectiveConductivity s) (mSourcePressure s)
    (mDemandFlux s) (mLoopLatency s) (mDemandFluxGain s)
    (mSuppliedCapacitance s) v (mTempMoleFractions s) (mTempTcMoleFractions
    s) (mOtherIfs s) (mFluidState s) (mMalfBlockageFlag s)
    (mMalfBlockageValue s) (mAdmittanceMatrix s) (mAdmittanceUpdate s)
    (mSourceVector s) (mFlux s) (mConductanceLimit s) (mInternalFluid s)
    (mNode s) (mNodeMap s).
Definition set_mTempMoleFractions (v : list Q) (s : GunnsFluidDistributedIf) :=
  mkLink (mInData s) (mOutData s) (mIsPairMaster s) (mUseEnthalpy s)
    (mDemandOption s) (mCapacitorLink s) (mModingCapacitanceRatio s)
    (mDemandFilterConstA s) (mDemandFilterConstB s) (mForceDemandMode s)
    (mForceSupplyMode s) (mInDataLastDemandMode s) (mFramesSinceFlip s)
    (mSupplyVolume s) (mEffectiveConductivity s) (mSourcePressure s)
    (mDemandFlux s) (mLoopLatency s) (mDemandFluxGain s)
    (mSuppliedCapacitance s) (mTempMassFractions s) v (mTempTcMoleFractions
    s) (mOtherIfs s) (mFluidState s) (mMalfBlockageFlag s)
    (mMalfBlockageValue s) (mAdmittanceMatrix s) (mAdmittanceUpdate s)
    (mSourceVector s) (mFlux s) (mConductanceLimit s) (mInternalFluid s)
    (mNode s) (mNodeMap s).
Definition set_mTempTcMoleFractions (v : list Q) (s : GunnsFluidDistributedIf) :=
  mkLink (mInData s) (mOutData s) (mIsPairMaster s) (mUseEnthalpy s)
    (mDemandOption s) (mCapacitorLink s) (mModingCapacitanceRatio s)
    (mDemandFilterConstA s) (mDemandFilterConstB s) (mForceDemandMode s)
    (mForceSupplyMode s) (mInDataLastDemandMode s) (mFramesSinceFlip s)
    (mSupplyVolume s) (mEffectiveConductivity s) (mSourcePressure s)
    (mDemandFlux s) (mLoopLatency s) (mDemandFluxGain s)
    (mSuppliedCapacitance s) (mTempMassFractions s) (mTempMoleFractions s) v
    (mOtherIfs s) (mFluidState s) (mMalfBlockageFlag s) (mMalfBlockageValue
    s) (mAdmittanceMatrix s) (mAdmittanceUpdate s) (mSourceVector s) (mFlux
    s) (mConductanceLimit s) (mInternalFluid s) (mNode s) (mNodeMap s).
Definition set_mFluidState (v : PolyFluid) (s : GunnsFluidDistributedIf) :=
  mkLink (mInData s) (mOutData s) (mIsPairMaster s) (mUseEnthalpy s)
    (mDemandOption s) (mCapacitorLink s) (mModingCapacitanceRatio s)
    (mDemandFilterConstA s) (mDemandFilterConstB s) (mForceDemandMode s)
    (mForceSupplyMode s) (mInDataLastDemandMode s) (mFramesSinceFlip s)
    (mSupplyVolume s) (mEffectiveConductivity s) (mSourcePressure s)
    (mDemandFlux s) (mLoopLatency s) (mDemandFluxGain s)
    (mSuppliedCapacitance s) (mTempMassFractions s) (mTempMoleFractions s)
    (mTempTcMoleFractions s) (mOtherIfs s) v (mMalfBlockageFlag s)
    (mMalfBlockageValue s) (mAdmittanceMatrix s) (mAdmittanceUpdate s)
    (mSourceVector s) (mFlux s) (mConductanceLimit s) (mInternalFluid s)
    (mNode s) (mNodeMap s).
Definition set_mAdmittanceMatrix (v : Q) (s : GunnsFluidDistributedIf) :=
  mkLink (mInData s) (mOutData s) (mIsPairMaster s) (mUseEnthalpy s)
    (mDemandOption s) (mCapacitorLink s) (mModingCapacitanceRatio s)
    (mDemandFilterConstA s) (mDemandFilterConstB s) (mForceDemandMode s)
    (mForceSupplyMode s) (mInDataLastDemandMode s) (mFramesSinceFlip s)
    (mSupplyVolume s) (mEffectiveConductivity s) (mSourcePressure s)
    (mDemandFlux s) (mLoopLatency s) (mDemandFluxGain s)
    (mSuppliedCapacitance s) (mTempMassFractions s) (mTempMoleFractions s)
    (mTempTcMoleFractions s) (mOtherIfs s) (mFluidState s)
    (mMalfBlockageFlag s) (mMalfBlockageValue s) v (mAdmittanceUpdate s)
    (mSourceVector s) (mFlux s) (mConductanceLimit s) (mInternalFluid s)
    (mNode s) (mNodeMap s).
Definition set_mAdmittanceUpdate (v : bool) (s : GunnsFluidDistributedIf) :=
  mkLink (mInData s) (mOutData s) (mIsPairMaster s) (mUseEnthalpy s)
    (mDemandOption s) (mCapacitorLink s) (mModingCapacitanceRatio s)
    (mDemandFilterConstA s) (mDemandFilterConstB s) (mForceDemandMode s)
    (mForceSupplyMode s) (mInDataLastDemandMode s) (mFramesSinceFlip s)
    (mSupplyVolume s) (mEffectiveConductivity s) (mSourcePressure s)
    (mDemandFlux s) (mLoopLatency s) (mDemandFluxGain s)
    (mSuppliedCapacitance s) (mTempMassFractions s) (mTempMoleFractions s)
    (mTempTcMoleFractions s) (mOtherIfs s) (mFluidState s)
    (mMalfBlockageFlag s) (mMalfBlockageValue s) (mAdmittanceMatrix s) v
    (mSourceVector s) (mFlux s) (mConductanceLimit s) (mInternalFluid s)
    (mNode s) (mNodeMap s).
Definition set_mSourceVector (v : Q) (s : GunnsFluidDistributedIf) :=
  mkLink (mInData s) (mOutData s) (mIsPairMaster s) (mUseEnthalpy s)
    (mDemandOption s) (mCapacitorLink s) (mModingCapacitanceRatio s)
    (mDemandFilterConstA s) (mDemandFilterConstB s) (mForceDemandMode s)
    (mForceSupplyMode s) (mInDataLastDemandMode s) (mFramesSinceFlip s)
    (mSupplyVolume s) (mEffectiveConductivity s) (mSourcePressure s)
    (mDemandFlux s) (mLoopLatency s) (mDemandFluxGain s)
    (mSuppliedCapacitance s) (mTempMassFractions s) (mTempMoleFractions s)
    (mTempTcMoleFractions s) (mOtherIfs s) (mFluidState s)
    (mMalfBlockageFlag s) (mMalfBlockageValue s) (mAdmittanceMatrix s)
    (mAdmittanceUpdate s) v (mFlux s) (mConductanceLimit s) (mInternalFluid
    s) (mNode s) (mNodeMap s).
Definition set_mInternalFluid (v : PolyFluid) (s : GunnsFluidDistributedIf) :=
  mkLink (mInData s) (mOutData s) (mIsPairMaster s) (mUseEnthalpy s)
    (mDemandOption s) (mCapacitorLink s) (mModingCapacitanceRatio s)
    (mDemandFilterConstA s) (mDemandFilterConstB s) (mForceDemandMode s)
    (mForceSupplyMode s) (mInDataLastDemandMode s) (mFramesSinceFlip s)
    (mSupplyVolume s) (mEffectiveConductivity s) (mSourcePressure s)
    (mDemandFlux s) (mLoopLatency s) (mDemandFluxGain s)
    (mSuppliedCapacitance s) (mTempMassFractions s) (mTempMoleFractions s)
    (mTempTcMoleFractions s) (mOtherIfs s) (mFluidState s)
    (mMalfBlockageFlag s) (mMalfBlockageValue s) (mAdmittanceMatrix s)
    (mAdmittanceUpdate s) (mSourceVector s) (mFlux s) (mConductanceLimit s)
    v (mNode s) (mNodeMap s).
Definition set_mNode (v : GunnsFluidNode) (s : GunnsFluidDistributedIf) :=
  mkLink (mInData s) (mOutData s) (mIsPairMaster s) (mUseEnthalpy s)
    (mDemandOption s) (mCapacitorLink s) (mModingCapacitanceRatio s)
    (mDemandFilterConstA s) (mDemandFilterConstB s) (mForceDemandMode s)
    (mForceSupplyMode s) (mInDataLastDemandMode s) (mFramesSinceFlip s)
    (mSupplyVolume s) (mEffectiveConductivity s) (mSourcePressure s)
    (mDemandFlux s) (mLoopLatency s) (mDemandFluxGain s)
    (mSuppliedCapacitance s) (mTempMassFractions s) (mTempMoleFractions s)
    (mTempTcMoleFractions s) (mOtherIfs s) (mFluidState s)
    (mMalfBlockageFlag s) (mMalfBlockageValue s) (mAdmittanceMatrix s)
    (mAdmittanceUpdate s) (mSourceVector s) (mFlux s) (mConductanceLimit s)
    (mInternalFluid s) v (mNodeMap s).

(** ** Exceptions and undefined reads

    [GUNNS_ERROR] throws; the state it leaves behind is kept with the
    exception.  [Undef] is a run in which [hasValidData] read past the end
    of an array. *)

Inductive exn : Type :=
| TsOutOfBoundsException.   (* thrown with the subtype "Invalid Interface Data" *)

Inductive outcome (A : Type) : Type :=
| Ret (a : A) (s : GunnsFluidDistributedIf)
| Raise (e : exn) (s : GunnsFluidDistributedIf)
| Undef.
Arguments Ret {A} a s.
Arguments Raise {A} e s.
Arguments Undef {A}.

Definition M (A : Type) : Type := GunnsFluidDistributedIf -> outcome A.

Definition ret {A : Type} (a : A) : M A := fun s => Ret a s.

Definition bind {A B : Type} (c : M A) (k : A -> M B) : M B :=
  fun s =>
    match c s with
    | Ret a s' => k a s'
    | Raise e s' => Raise e s'
    | Undef => Undef
    end.

(** A member function that neither throws nor reads out of bounds. *)
Definition run (f : GunnsFluidDistributedIf -> GunnsFluidDistributedIf)
    : M unit := fun s => Ret tt (f s).

(** The value of a checked read. *)
Definition defined {A : Type} (o : option A) : M A :=
  fun s => match o with Some a => Ret a s | None => Undef end.

Notation "x <- c ;; k" := (bind c (fun x => k))
  (at level 61, c at next level, right associativity).
Notation "c ;;; k" := (bind c (fun _ => k))
  (at level 61, right associativity).

(** The two fluids that [inputFluid] is called on. *)
Inductive FluidRef : Type :=
| NodeContent      (* mNodes[0]->getContent() *)
| InternalFluid.   (* mInternalFluid *)

Definition deref (r : FluidRef) (s : GunnsFluidDistributedIf) : PolyFluid :=
  match r with
  | NodeContent => nContent (mNode s)
  | InternalFluid => mInternalFluid s
  end.

Definition assign (r : FluidRef) (f : PolyFluid) (s : GunnsFluidDistributedIf)
    : GunnsFluidDistributedIf :=
  match r with
  | NodeContent => set_mNode (set_nContent f (mNode s)) s
  | InternalFluid => set_mInternalFluid f s
  end.

(** [GunnsFluidTraceCompounds::setMoleFractions]: copies one entry for each
    compound of the configuration. *)
Definition tcSetMoleFractions (fractions : list Q)
    (tc : GunnsFluidTraceCompounds) : GunnsFluidTraceCompounds :=
  mkTc (tcNTypes tc) (map (read fractions) (seq 0 (tcNTypes tc))).

(** [GunnsFluidDistributedIf::mNetworkCapacitanceFlux]. *)
Definition mNetworkCapacitanceFlux : Q := 1 # 1000000.

Section Link.

Context {FM : FluidModel}.

(** *** Mode flips *)

Definition flipToDemandMode (s : GunnsFluidDistributedIf)
    : GunnsFluidDistributedIf :=
  if negb (mForceSupplyMode s) then
    let s := set_mOutData (set_mDemandMode true (mOutData s)) s in
    let s := set_mSupplyVolume (nVolume (mNode s)) s in
    let s := set_mCapacitorLink (editVolume true 0 (mCapacitorLink s)) s in
    set_mFramesSinceFlip 0%Z s
  else s.

Definition flipToSupplyMode (s : GunnsFluidDistributedIf)
    : GunnsFluidDistributedIf :=
  if negb (mForceDemandMode s) then
    let s := set_mOutData (set_mDemandMode false (mOutData s)) s in
    let s := set_mCapacitorLink
               (editVolume true (mSupplyVolume s) (mCapacitorLink s)) s in
    let s := set_mSupplyVolume 0 s in
    set_mFramesSinceFlip 0%Z s
  else s.

Definition flipModesOnInput : M unit := fun s =>
  if mForceDemandMode s && negb (mDemandMode (mOutData s)) then
    Ret tt (flipToDemandMode s)
  else if mForceSupplyMode s && mDemandMode (mOutData s) then
    Ret tt (flipToSupplyMode s)
  else
    (valid <- defined (hasValidData (mInData s)) ;;
     if valid : bool then
       let s1 :=
         if mDemandMode (mOutData s) && mDemandMode (mInData s)
            && negb (mInDataLastDemandMode s)
         then flipToSupplyMode s
         else if negb (mDemandMode (mInData s))
                 && negb (mDemandMode (mOutData s))
         then
           if Qlt_bool (mCapacitance (mOutData s)) (mCapacitance (mInData s))
              || (mIsPairMaster s
                  && Qeq_bool (mCapacitance (mOutData s))
                              (mCapacitance (mInData s)))
           then flipToDemandMode s
           else s
         else s in
       run (fun _ => set_mInDataLastDemandMode (mDemandMode (mInData s1)) s1)
     else ret tt) s.

Definition flipModesOnCapacitance (s : GunnsFluidDistributedIf)
    : GunnsFluidDistributedIf :=
  if (mLoopLatency s <? mFramesSinceFlip s)%Z
     && Qlt_bool (mCapacitance (mOutData s) * mModingCapacitanceRatio s)
                 (mCapacitance (mInData s))
  then
    let s := flipToDemandMode s in
    set_mOutData (set_mSource 0 (mOutData s)) s
  else s.

(** *** Incoming data *)

Definition inputFluid (pressure : Q) (fluid : FluidRef) : M Q := fun s =>
  let s := set_mTempMoleFractions (getMoleFractions (mInData s)) s in
  let nTypes := nNTypes (mNode s) in
  let inBulkFractionSum := sum_first nTypes (mTempMoleFractions s) in
  if Qlt_bool inBulkFractionSum DBL_EPSILON then
    Raise TsOutOfBoundsException s
  else
    let s := set_mTempMoleFractions
               (update_first nTypes (fun x => x / inBulkFractionSum)
                  (mTempMoleFractions s)) s in
    let s := set_mTempMassFractions
               (convertMoleFractionToMassFraction (mTempMoleFractions s)) s in
    let s := assign fluid
               (setMassAndMassFractions 0 (mTempMassFractions s)
                  (deref fluid s)) s in
    let s := assign fluid (setPressure pressure (deref fluid s)) s in
    let s :=
      if mUseEnthalpy s then
        assign fluid
          (setTemperature
             (computeTemperature (deref fluid s) (mEnergy (mInData s)))
             (deref fluid s)) s
      else
        assign fluid (setTemperature (mEnergy (mInData s)) (deref fluid s)) s
    in
    let s :=
      match mTcMoleFractions (mInData s), fTraceCompounds (deref fluid s) with
      | _ :: _, Some tc =>
          let s := set_mTempTcMoleFractions
                     (getTcMoleFractions (mInData s)) s in
          let s := set_mTempTcMoleFractions
                     (update_first (tcNTypes tc)
                        (fun x => x / inBulkFractionSum)
                        (mTempTcMoleFractions s)) s in
          assign fluid
            (setTraceCompounds
               (Some (tcSetMoleFractions (mTempTcMoleFractions s) tc))
               (deref fluid s)) s
      | _, _ => s
      end in
    Ret inBulkFractionSum s.

Definition processInputsSupply : M unit := fun s =>
  let s := set_mDemandFlux 0 s in
  if negb (mDemandMode (mOutData s)) then
    let s := set_mSourcePressure 0 s in
    (valid <- defined (hasValidData (mInData s)) ;;
     if (valid : bool) && mDemandMode (mInData s) then
       inBulkFraction <- inputFluid 1 InternalFluid ;;
       run (fun s =>
              set_mDemandFlux
                (- mSource (mInData s) * KILO_PER_UNIT * inBulkFraction) s)
     else ret tt) s
  else Ret tt s.

Definition processInputsDemand : M unit := fun s =>
  if mDemandMode (mOutData s) then
    (valid <- defined (hasValidData (mInData s)) ;;
     if (valid : bool) && negb (mDemandMode (mInData s)) then
       run (fun s =>
              set_mSourcePressure (mSource (mInData s) * KILO_PER_UNIT) s) ;;;
       (fun s => inputFluid (mSourcePressure s) NodeContent s) ;;;
       run (fun s => set_mFluidState (nContent (mNode s)) s)
     else
       run (fun s => set_mSourcePressure (nPotential (mNode s)) s)) s
  else Ret tt s.

(** The frame counters and the loop latency at the end of
    [processInputs]. *)
Definition updateFrameCounters (s : GunnsFluidDistributedIf)
    : GunnsFluidDistributedIf :=
  let s := set_mOutData
             (set_mFrameCount (wrap_counter (mFrameCount (mOutData s) + 1))
                (mOutData s)) s in
  let s := set_mLoopLatency
             (to_int (wrap_counter (mFrameCount (mOutData s)
                                    - mFrameLoopback (mInData s)))) s in
  set_mOutData (set_mFrameLoopback (mFrameCount (mInData s)) (mOutData s)) s.

Definition processInputs : M unit :=
  flipModesOnInput ;;;
  processInputsDemand ;;;
  processInputsSupply ;;;
  run updateFrameCounters.

(** *** Outgoing data *)

Definition outputCapacitance (s : GunnsFluidDistributedIf)
    : GunnsFluidDistributedIf :=
  let capacitance :=
    nNetworkCapacitance (mNode s) - mSuppliedCapacitance s in
  let ourNetCapDp := nNetCapDeltaPotential (mNode s) in
  let capacitance :=
    fold_left
      (fun capacitance other =>
         let otherSuppliedCap := otherSuppliedCapacitance other in
         if Qlt_bool DBL_EPSILON otherSuppliedCap then
           let otherDp := read ourNetCapDp (otherNodeMap other) in
           if Qlt_bool DBL_EPSILON otherDp then
             let ourDp := read ourNetCapDp (mNodeMap s) in
             let ratio := otherDp / std_max ourDp DBL_EPSILON in
             capacitance - otherSuppliedCap * ratio
           else capacitance
         else capacitance)
      (mOtherIfs s) capacitance in
  set_mOutData (set_mCapacitance (std_max 0 capacitance) (mOutData s)) s.

Definition outputFluid (fluid : PolyFluid) (s : GunnsFluidDistributedIf)
    : Q * GunnsFluidDistributedIf :=
  let s := set_mOutData
             (set_mEnergy
                (if mUseEnthalpy s then getSpecificEnthalpy fluid
                 else fTemperature fluid)
                (mOutData s)) s in
  let nTypes := nNTypes (mNode s) in
  let s := set_mTempMassFractions
             (map (read (fMassFractions fluid)) (seq 0 nTypes)) s in
  let s := set_mTempMoleFractions
             (convertMassFractionToMoleFraction (mTempMassFractions s)) s in
  let tcFractions :=
    match fTraceCompounds fluid with
    | Some tc => tcMoleFractions tc
    | None => []
    end in
  let nTc :=
    match fTraceCompounds fluid with
    | Some tc => tcNTypes tc
    | None => O
    end in
  let moleFractionSum :=
    fold_left Qplus (map (read tcFractions) (seq 0 nTc)) 0 in
  let moleFractionSum :=
    fold_left Qplus (map (read (mTempMoleFractions s)) (seq 0 nTypes))
      moleFractionSum in
  let s := set_mTempMoleFractions
             (update_first nTypes (fun x => x / moleFractionSum)
                (mTempMoleFractions s)) s in
  let s := set_mTempTcMoleFractions
             (map (fun i => read tcFractions i / moleFractionSum) (seq 0 nTc)
              ++ skipn nTc (mTempTcMoleFractions s)) s in
  let s := set_mOutData
             (setMoleFractions (mTempMoleFractions s) (mOutData s)) s in
  let s := set_mOutData
             (setTcMoleFractions (mTempTcMoleFractions s) (mOutData s)) s in
  (moleFractionSum, s).

Definition checkNegativeFluidFractions (fluid : PolyFluid)
    (s : GunnsFluidDistributedIf) : bool :=
  existsb (fun i => Qlt_bool (getMoleFraction fluid i) 0)
    (seq 0 (nNTypes (mNode s)))
  || match fTraceCompounds fluid with
     | Some tc =>
         existsb (fun i => Qlt_bool (read (tcMoleFractions tc) i) 0)
           (seq 0 (tcNTypes tc))
     | None => false
     end.

Definition processOutputsSupply (s : GunnsFluidDistributedIf)
    : GunnsFluidDistributedIf :=
  let s := outputCapacitance s in
  let s := set_mOutData
             (set_mSource (nPotential (mNode s) * UNIT_PER_KILO)
                (mOutData s)) s in
  let s := snd (outputFluid (nContent (mNode s)) s) in
  set_mFluidState (nContent (mNode s)) s.

Definition processOutputsDemand (s : GunnsFluidDistributedIf)
    : GunnsFluidDistributedIf :=
  let s := outputCapacitance s in
  let useFluid :=
    if Qlt_bool 0 (fTemperature (nInflow (mNode s))) then
      if checkNegativeFluidFractions (nInflow (mNode s)) s
      then nContent (mNode s)
      else nInflow (mNode s)
    else nContent (mNode s) in
  let (moleFractionSum, s) := outputFluid useFluid s in
  set_mOutData
    (set_mSource (mFlux s * UNIT_PER_KILO * moleFractionSum) (mOutData s)) s.

(** [mFramesSinceFlip++]. *)
Definition incrementFramesSinceFlip (s : GunnsFluidDistributedIf)
    : GunnsFluidDistributedIf :=
  set_mFramesSinceFlip (to_int (mFramesSinceFlip s + 1)) s.

Definition processOutputs (s : GunnsFluidDistributedIf)
    : GunnsFluidDistributedIf :=
  incrementFramesSinceFlip
    (if mDemandMode (mOutData s) then processOutputsDemand s
     else flipModesOnCapacitance (processOutputsSupply s)).

(** *** Contributions to the system of equations

    [step] is given in the four blocks of its body. *)

(** The demand flux gain and the effective conductivity: conductance in
    Demand mode, none in Supply mode. *)
Definition stepConductivity (dt : Q) (s : GunnsFluidDistributedIf)
    : GunnsFluidDistributedIf :=
  if mDemandMode (mOutData s) && Qlt_bool DBL_EPSILON dt then
    let s :=
      if Qlt_bool FLT_EPSILON (mCapacitance (mOutData s))
         && Qlt_bool FLT_EPSILON (mCapacitance (mInData s))
      then
        let csOverCd :=
          limitRange 1
            (mCapacitance (mInData s) / mCapacitance (mOutData s))
            (mModingCapacitanceRatio s) in
        let exponent := limitRangeInt 1 (mLoopLatency s) 100 in
        let gainLimit :=
          std_min 1
            (mDemandFilterConstA s * powf (mDemandFilterConstB s) exponent)
        in
        let s := set_mDemandFluxGain
                   (gainLimit + (1 - gainLimit) * (csOverCd - 1) * 4) s in
        let conductance :=
          mDemandFluxGain s * mCapacitance (mInData s) / dt in
        if mDemandOption s then
          set_mEffectiveConductivity conductance s
        else
          set_mEffectiveConductivity
            (1 / std_max (1 / conductance + dt / mCapacitance (mOutData s))
                   DBL_EPSILON) s
      else
        let s := set_mDemandFluxGain 1 s in
        set_mEffectiveConductivity
          (mDemandFluxGain s * mCapacitance (mInData s) / dt) s in
    if mMalfBlockageFlag s then
      set_mEffectiveConductivity
        (mEffectiveConductivity s * (1 - mMalfBlockageValue s)) s
    else s
  else set_mEffectiveConductivity 0 s.

(** "Build admittance matrix." *)
Definition stepAdmittance (s : GunnsFluidDistributedIf)
    : GunnsFluidDistributedIf :=
  let systemConductance :=
    limitRange 0 (mEffectiveConductivity s) (mConductanceLimit s) in
  if Qlt_bool 0 (Qabs (mAdmittanceMatrix s - systemConductance)) then
    set_mAdmittanceUpdate true (set_mAdmittanceMatrix systemConductance s)
  else s.

(** The capacitance supplied to the node in Demand mode. *)
Definition stepSuppliedCapacitance (dt : Q) (s : GunnsFluidDistributedIf)
    : GunnsFluidDistributedIf :=
  if mDemandMode (mOutData s) then
    set_mSuppliedCapacitance (mAdmittanceMatrix s * dt) s
  else set_mSuppliedCapacitance 0 s.

(** "Build source vector", and the network capacitance request. *)
Definition stepSource (s : GunnsFluidDistributedIf)
    : GunnsFluidDistributedIf :=
  let s := set_mSourceVector
             (mSourcePressure s * mAdmittanceMatrix s + mDemandFlux s) s in
  set_mNode (setNetworkCapacitanceRequest mNetworkCapacitanceFlux (mNode s)) s.

Definition step (dt : Q) (s : GunnsFluidDistributedIf)
    : GunnsFluidDistributedIf :=
  stepSource (stepSuppliedCapacitance dt (stepAdmittance (stepConductivity dt s))).

(** *** One pass of the network

    Modelled from the spec: the network that drives the link is not among
    the sources.  Section 5 of the design gives the sequence of a pass: read
    the inbound payload, arbitrate the mode and process the inputs, stamp the
    admittance and source, solve, assemble and publish the outbound payload.
    [Pass] holds what the transport and the solver deliver in one pass. *)
Record Pass : Type := mkPass {
  passInData   : GunnsFluidDistributedIfData;   (* payload received *)
  passDt       : Q;                             (* integration time step *)
  passNode     : GunnsFluidNode;                (* node after the solution *)
  passFlux     : Q;                             (* link flux of the solution *)
  passOtherIfs : list OtherIf                   (* the other links after it *)
}.

Definition solve (p : Pass) (s : GunnsFluidDistributedIf)
    : GunnsFluidDistributedIf :=
  mkLink (mInData s) (mOutData s) (mIsPairMaster s) (mUseEnthalpy s)
    (mDemandOption s) (mCapacitorLink s) (mModingCapacitanceRatio s)
    (mDemandFilterConstA s) (mDemandFilterConstB s) (mForceDemandMode s)
    (mForceSupplyMode s) (mInDataLastDemandMode s) (mFramesSinceFlip s)
    (mSupplyVolume s) (mEffectiveConductivity s) (mSourcePressure s)
    (mDemandFlux s) (mLoopLatency s) (mDemandFluxGain s)
    (mSuppliedCapacitance s) (mTempMassFractions s) (mTempMoleFractions s)
    (mTempTcMoleFractions s) (passOtherIfs p) (mFluidState s)
    (mMalfBlockageFlag s) (mMalfBlockageValue s) (mAdmittanceMatrix s)
    (mAdmittanceUpdate s) (mSourceVector s) (passFlux p)
    (mConductanceLimit s) (mInternalFluid s) (passNode p) (mNodeMap s).

Definition pass (p : Pass) : M unit :=
  run (set_mInData (passInData p)) ;;;
  processInputs ;;;
  run (step (passDt p)) ;;;
  run (solve p) ;;;
  run processOutputs.

(** Consecutive passes; a pass that throws ends the run. *)
Fixpoint passes (ps : list Pass) : M unit :=
  match ps with
  | [] => ret tt
  | p :: ps' => pass p ;;; passes ps'
  end.

End Link.

(** ** The conductance law of the design

    Section 4.3 of the design, in its own words, with [clamp] the range
    limiter above: [r = clamp(1, Cs/Cd, ratio)], [n = clamp(1, latency, 100)],
    [gLimit = min(1, A * B^n)], [gain = gLimit + (1 - gLimit)(r - 1) 4],
    [baseG = gain Cs / dt] and [G = baseG] with the demand option,
    [1 / max(1/baseG + dt/Cd, eps)] without. *)

Definition law_r (Cs Cd ratio : Q) : Q := limitRange 1 (Cs / Cd) ratio.
Definition law_n (loopLatency : Z) : Z := limitRangeInt 1 loopLatency 100.
Definition law_gLimit (A B : Q) (n : Z) : Q := std_min 1 (A * B ^ n).
Definition law_gain (A B ratio Cs Cd : Q) (loopLatency : Z) : Q :=
  let gLimit := law_gLimit A B (law_n loopLatency) in
  gLimit + (1 - gLimit) * (law_r Cs Cd ratio - 1) * 4.
Definition law_baseG (A B ratio Cs Cd : Q) (loopLatency : Z) (dt : Q) : Q :=
  law_gain A B ratio Cs Cd loopLatency * Cs / dt.
Definition law_G (demandOption : bool) (A B ratio Cs Cd : Q)
    (loopLatency : Z) (dt : Q) : Q :=
  let baseG := law_baseG A B ratio Cs Cd loopLatency dt in
  if demandOption then baseG
  else 1 / std_max (1 / baseG + dt / Cd) DBL_EPSILON.

(** The law at the configuration and the capacitances of a link: [Cs] is the
    incoming capacitance, [Cd] the outgoing one. *)
Definition link_law_gain (s : GunnsFluidDistributedIf) : Q :=
  law_gain (mDemandFilterConstA s) (mDemandFilterConstB s)
    (mModingCapacitanceRatio s) (mCapacitance (mInData s))
    (mCapacitance (mOutData s)) (mLoopLatency s).

Definition link_law_G (dt : Q) (s : GunnsFluidDistributedIf) : Q :=
  law_G (mDemandOption s) (mDemandFilterConstA s) (mDemandFilterConstB s)
    (mModingCapacitanceRatio s) (mCapacitance (mInData s))
    (mCapacitance (mOutData s)) (mLoopLatency s) dt.

(** ** Vocabulary of the statements *)

(** The sum of the incoming bulk mole fractions that [inputFluid] computes:
    the fractions of the payload mapped into the species of the local
    network, summed over these species. *)
Definition inBulkFractionSum (s : GunnsFluidDistributedIf) : Q :=
  sum_first (nNTypes (mNode s)) (getMoleFractions (mInData s)).

(** The members that the ingest of a fluid leaves alone. *)
Definition same_control (s s' : GunnsFluidDistributedIf) : Prop :=
  mInData s' = mInData s
  /\ mOutData s' = mOutData s
  /\ mForceDemandMode s' = mForceDemandMode s
  /\ mForceSupplyMode s' = mForceSupplyMode s
  /\ mDemandFlux s' = mDemandFlux s
  /\ mSourcePressure s' = mSourcePressure s
  /\ mLoopLatency s' = mLoopLatency s
  /\ nNTypes (mNode s') = nNTypes (mNode s)
  /\ nPotential (mNode s') = nPotential (mNode s).

(** The members that the stamp and the outgoing data leave alone. *)
Definition same_inputs (s s' : GunnsFluidDistributedIf) : Prop :=
  mForceDemandMode s' = mForceDemandMode s
  /\ mForceSupplyMode s' = mForceSupplyMode s
  /\ mSourcePressure s' = mSourcePressure s
  /\ mDemandFlux s' = mDemandFlux s.


(** ** A network of one species

    With a single species the mole and mass fractions coincide, and the
    energy is carried as temperature.  The links below are initialised as
    [GunnsFluidDistributedIf::initialize] leaves them, on a node at
    100 kPa and 300 K with a volume of 2 and a network capacitance of 10. *)

Definition oneSpecies : FluidModel := {|
  convertMoleFractionToMassFraction := fun x => x;
  convertMassFractionToMoleFraction := fun x => x;
  computeTemperature := fun _ h => h;
  getSpecificEnthalpy := fTemperature;
  getMoleFraction := fun f i => read (fMassFractions f) i
|}.

Definition air : PolyFluid := mkFluid 1 [1] 100 300 None.

Definition node0 : GunnsFluidNode := mkNode 100 2 air air 10 [1] 0 1.

(** A payload of a one-species interface as the constructor and
    [initialize] leave it. *)
Definition payload0 : GunnsFluidDistributedIfData :=
  IfData_initialize 1 0 false 0 0 IfData_default.

(** A payload of that interface as a peer publishes it. *)
Definition payload (frameCount frameLoopback : Z) (demandMode : bool)
    (capacitance source energy : Q) (fractions : list Q)
    : GunnsFluidDistributedIfData :=
  mkIfData frameCount frameLoopback demandMode capacitance source energy
    fractions [] 1 0 1 0 1 0.

(** The link after [initialize] with the default configuration
    (moding capacitance ratio 1.25, filter constants 1.5 and 0.75). *)
Definition link0 : GunnsFluidDistributedIf :=
  mkLink payload0 payload0 false false false (mkCapacitor false 0)
    (5 # 4) (3 # 2) (3 # 4) false false false 0%Z 0 0 0 0 0%Z 1 0
    [0] [0] [] [] air false 0 0 false 0 0 (10 ^ 15) air node0 O.

(** The link [s] with another configuration and other input data: the pair
    master flag, the demand option, the mode force flags and the blockage
    malfunction. *)
Definition configure (isPairMaster demandOption : bool)
    (forceDemandMode forceSupplyMode : bool)
    (malfBlockageFlag : bool) (malfBlockageValue : Q)
    (s : GunnsFluidDistributedIf) : GunnsFluidDistributedIf :=
  mkLink (mInData s) (mOutData s) isPairMaster (mUseEnthalpy s) demandOption
    (mCapacitorLink s) (mModingCapacitanceRatio s) (mDemandFilterConstA s)
    (mDemandFilterConstB s) forceDemandMode forceSupplyMode
    (mInDataLastDemandMode s) (mFramesSinceFlip s) (mSupplyVolume s)
    (mEffectiveConductivity s) (mSourcePressure s) (mDemandFlux s)
    (mLoopLatency s) (mDemandFluxGain s) (mSuppliedCapacitance s)
    (mTempMassFractions s) (mTempMoleFractions s) (mTempTcMoleFractions s)
    (mOtherIfs s) (mFluidState s) malfBlockageFlag malfBlockageValue
    (mAdmittanceMatrix s) (mAdmittanceUpdate s) (mSourceVector s) (mFlux s)
    (mConductanceLimit s) (mInternalFluid s) (mNode s) (mNodeMap s).

(** [link0] in Demand mode, as [flipToDemandMode] leaves it, with an
    outgoing capacitance [Cd], an incoming payload [d] and a loop latency. *)
Definition demandLink (Cd : Q) (d : GunnsFluidDistributedIfData)
    (loopLatency : Z) : GunnsFluidDistributedIf :=
  set_mLoopLatency loopLatency
    (set_mInData d
       (set_mOutData (set_mCapacitance Cd (mOutData (flipToDemandMode link0)))
          (flipToDemandMode link0))).

(** [link0] in Supply mode with an outgoing capacitance [Cs] and an incoming
    payload [d]. *)
Definition supplyLink (Cs : Q) (d : GunnsFluidDistributedIfData)
    : GunnsFluidDistributedIf :=
  set_mInData d (set_mOutData (set_mCapacitance Cs (mOutData link0)) link0).

(** A Demand side with equal capacitances of 1 on both sides, a loop latency
    of 8, and a Supply peer at 100 kPa. *)
Definition demandLink8 : GunnsFluidDistributedIf :=
  demandLink 1 (payload 1 0 false 1 100000 300 [1]) 8.

(** The same at a loop latency of 1 and with a blockage malfunction of one
    half. *)
Definition blockedDemandLink : GunnsFluidDistributedIf :=
  configure false false false false true (1 # 2)
    (demandLink 1 (payload 1 0 false 1 100000 300 [1]) 1).

(** A payload of an interface that carries two bulk fractions into a
    network of one species ([overrideInterfaceMixtureSizes(2, 0)]), with a
    negative second fraction. *)
Definition widePayload : GunnsFluidDistributedIfData :=
  set_mMoleFractions [1 # 2; - (1 # 2)]
    (set_mEnergy 300
       (set_mCapacitance 1
          (set_mFrameCount 1
             (IfData_initialize 1 0 true 2 0 IfData_default)))).

(** A payload of an interface that carries one bulk fraction into a network
    of two species ([overrideInterfaceMixtureSizes(1, 0)]). *)
Definition narrowPayload : GunnsFluidDistributedIfData :=
  set_mMoleFractions [1]
    (set_mEnergy 300
       (set_mCapacitance 1
          (set_mFrameCount 1
             (IfData_initialize 2 0 true 1 0 IfData_default)))).

(** Start-up on the pair master: both sides in Supply mode with a
    capacitance of 1. *)
Definition masterLink : GunnsFluidDistributedIf :=
  configure true false false false false 0
    (supplyLink 1 (payload 1 0 false 1 100000 300 [1])).

(** A Demand side that has published a demand of 5 mol/s and receives the
    hand-over from its peer: a valid payload in Demand mode after payloads in
    Supply mode. *)
Definition handoverLink : GunnsFluidDistributedIf :=
  set_mOutData
    (set_mSource 5
       (mOutData (demandLink 1 (payload 7 6 true 1 (- 5) 300 [1]) 1)))
    (demandLink 1 (payload 7 6 true 1 (- 5) 300 [1]) 1).

(** A Supply side five frames after its last flip, with a loop latency of 1,
    whose node has a network capacitance of 10 while the peer advertises
    100. *)
Definition freeSupplyLink : GunnsFluidDistributedIf :=
  set_mFramesSinceFlip 5
    (set_mLoopLatency 1
       (supplyLink 10 (payload 7 6 false 100 100000 300 [1]))).

(** The same, held in Supply mode by its force flag. *)
Definition forcedSupplyLink : GunnsFluidDistributedIf :=
  configure false false false true false 0 freeSupplyLink.

(** A Supply side that receives a valid Demand payload whose bulk mole
    fraction is [x], asking for 1 mol/s. *)
Definition suppliedLink (x : Q) : GunnsFluidDistributedIf :=
  supplyLink 1 (payload 7 6 true 1 1 300 [x]).

(** A Supply side that receives a valid Demand payload with no bulk
    fraction at all. *)
Definition starvedSupplyLink : GunnsFluidDistributedIf := suppliedLink 0.

(** A link in step with its peer: the payload it receives echoes the frame
    count 41 that it published in its last pass. *)
Definition echoedLink : GunnsFluidDistributedIf :=
  set_mOutData (set_mFrameCount 41 (mOutData (suppliedLink 1)))
    (set_mInData (payload 40 41 true 1 1 300 [1]) (suppliedLink 1)).

(** A pass in which the peer is silent: the payload received is the one the
    constructor left, with a frame count of 0. *)
Definition silentPass : Pass := mkPass payload0 (1 # 10) node0 0 [].

(** ** The rest of the payload class *)

(** The loop [for (i = 0; i < n; ++i) dst[i] = src[i];] of [operator =]:
    the destination array after the loop, or [None] when the loop reads or
    writes past the end of an array. *)
Fixpoint copyEntries (n : nat) (dst src : list Q) : option (list Q) :=
  match n with
  | O => Some dst
  | S n' =>
      match dst, src with
      | _ :: dst', y :: src' => option_map (cons y) (copyEntries n' dst' src')
      | _, _ => None
      end
  end.

(** [GunnsFluidDistributedIfData::operator =], for two distinct objects:
    the object assigned to, after the assignment from [that].  The scalars
    are copied, the arrays entry by entry up to [mNumFluid] and [mNumTc] of
    the object assigned to, and the sizes are kept. *)
Definition IfData_assign (this that : GunnsFluidDistributedIfData)
    : option GunnsFluidDistributedIfData :=
  match copyEntries (mNumFluid this) (mMoleFractions this)
          (mMoleFractions that) with
  | None => None
  | Some moleFractions =>
      match copyEntries (mNumTc this) (mTcMoleFractions this)
              (mTcMoleFractions that) with
      | None => None
      | Some tcMoleFractions =>
          Some (mkIfData (mFrameCount that) (mFrameLoopback that)
                  (mDemandMode that) (mCapacitance that) (mSource that)
                  (mEnergy that) moleFractions tcMoleFractions
                  (mNumFluid this) (mNumTc this) (mNumFluidIf this)
                  (mNumTcIf this) (mNumFluidCommon this)
                  (mNumTcCommon this))
      end
  end.

(** A payload ready for use: its arrays have the sizes of the interface and
    its common sizes are the smaller of the network and interface sizes, as
    [initialize] leaves a default-constructed payload. *)
Definition IfData_sized (d : GunnsFluidDistributedIfData) : Prop :=
  length (mMoleFractions d) = mNumFluidIf d
  /\ length (mTcMoleFractions d) = mNumTcIf d
  /\ mNumFluidCommon d = Nat.min (mNumFluid d) (mNumFluidIf d)
  /\ mNumTcCommon d = Nat.min (mNumTc d) (mNumTcIf d).

(** A payload of an interface that carries three bulk fractions and one
    trace compound into a network of two species and no trace compound. *)
Definition widerPayload : GunnsFluidDistributedIfData :=
  IfData_initialize 2 0 true 3 1 IfData_default.

(** A valid payload of the interface of [widerPayload], whose third bulk
    fraction the network does not have. *)
Definition widerPublished : GunnsFluidDistributedIfData :=
  set_mMoleFractions [1 # 2; 1 # 4; 1 # 4]
    (set_mEnergy 300 (set_mCapacitance 1 (set_mFrameCount 9 widerPayload))).

(** ** Vocabulary of the further statements *)

(** The link state that a run leaves, whether it returned or threw. *)
Definition state_of {A : Type} (o : outcome A)
    : option GunnsFluidDistributedIf :=
  match o with
  | Ret _ s => Some s
  | Raise _ s => Some s
  | Undef => None
  end.

(** The test of [flipModesOnCapacitance]. *)
Definition capacitanceFlipDue (s : GunnsFluidDistributedIf) : bool :=
  (mLoopLatency s <? mFramesSinceFlip s)%Z
  && Qlt_bool (mCapacitance (mOutData s) * mModingCapacitanceRatio s)
              (mCapacitance (mInData s)).

(** [link0] with its mode forced to Demand, and a pass in which the peer
    publishes a valid Supply payload. *)
Definition forcedDemandLink : GunnsFluidDistributedIf :=
  configure false false true false false 0 link0.

Definition supplyPass : Pass :=
  mkPass (payload 3 2 false 1 100000 300 [1]) (1 # 10) node0 0 [].

(** The members that the first block of [step] reads, and the conductance
    limit. *)
Definition same_step_inputs (s s' : GunnsFluidDistributedIf) : Prop :=
  mOutData s' = mOutData s
  /\ mInData s' = mInData s
  /\ mModingCapacitanceRatio s' = mModingCapacitanceRatio s
  /\ mLoopLatency s' = mLoopLatency s
  /\ mDemandFilterConstA s' = mDemandFilterConstA s
  /\ mDemandFilterConstB s' = mDemandFilterConstB s
  /\ mDemandOption s' = mDemandOption s
  /\ mMalfBlockageFlag s' = mMalfBlockageFlag s
  /\ mMalfBlockageValue s' = mMalfBlockageValue s
  /\ mConductanceLimit s' = mConductanceLimit s.

(** The trace compounds of a fluid as [outputFluid] reads them: the number
    of compounds of the configuration, none without trace compounds, and
    their mole fractions. *)
Definition tcCount (fluid : PolyFluid) : nat :=
  match fTraceCompounds fluid with
  | Some tc => tcNTypes tc
  | None => O
  end.

Definition tcFractions (fluid : PolyFluid) : list Q :=
  match fTraceCompounds fluid with
  | Some tc => tcMoleFractions tc
  | None => []
  end.

(** A node content with one trace compound at a mole fraction of one
    quarter, and [link0] on a payload with one slot for it. *)
Definition tracedAir : PolyFluid :=
  mkFluid 1 [1] 100 300 (Some (mkTc 1 [1 # 4])).

Definition tracedLink : GunnsFluidDistributedIf :=
  set_mOutData (IfData_initialize 1 1 false 0 0 IfData_default) link0.

(** The peer of [freeSupplyLink]: a Supply side that publishes the
    capacitance of 100 and receives the capacitance of 10. *)
Definition freeSupplyPeer : GunnsFluidDistributedIf :=
  set_mFramesSinceFlip 5
    (set_mLoopLatency 1
       (supplyLink 100 (payload 7 6 false 10 100000 300 [1]))).

(** ** The rest of the link class *)

(** [addOtherIf] on the vector [mOtherIfs] of addresses of the other
    interface links; [this] is the address of the link itself.  The link
    record holds, in [mOtherIfs], what the link reads through these
    addresses. *)
Definition addOtherIf (this otherIf : nat) (mOtherIfs : list nat)
    : list nat :=
  let duplicate :=
    fold_left
      (fun duplicate other =>
         if (otherIf =? other)%nat then true else duplicate)
      mOtherIfs (otherIf =? this)%nat in
  if negb duplicate then mOtherIfs ++ [otherIf] else mOtherIfs.

(** The same list of links given to a link, one call of [addOtherIf] for
    each. *)
Definition addOtherIfs (this : nat) (links mOtherIfs : list nat)
    : list nat :=
  fold_left (fun others otherIf => addOtherIf this otherIf others)
    links mOtherIfs.

(** The causes for which [validate] throws [TsInitializationException]. *)
Inductive TsInitializationException : Type :=
| MissingCapacitorLink        (* missing pointer to the node capacitor link *)
| ModingCapacitanceRatioRange (* moding capacitance ratio <= 1 *)
| BothForceFlagsSet.          (* both mode force flags are set *)

(** [validate]: [None] when it returns.  [capacitorLinkIsNull] tells
    whether the pointer [mCapacitorLink] is null. *)
Definition validate (capacitorLinkIsNull : bool)
    (s : GunnsFluidDistributedIf) : option TsInitializationException :=
  if capacitorLinkIsNull then Some MissingCapacitorLink
  else if Qle_bool (mModingCapacitanceRatio s) 1
       then Some ModingCapacitanceRatioRange
  else if mForceDemandMode s && mForceSupplyMode s
       then Some BothForceFlagsSet
  else None.

(** [GunnsBasicLink::PortDirection]. *)
Inductive PortDirection : Type := NONE | SOURCE | SINK.

(** The calls that the link makes on its node while it computes and
    transports the flows. *)
Inductive NodeCall : Type :=
| scheduleOutflux (fluxRate : Q)
| collectInflux (fluxRate : Q) (fluid : FluidRef)
| collectOutflux (fluxRate : Q).

(** The members of the base classes that [computeFlows] and
    [transportFlows] write, with the flux of the link and the calls made on
    the node so far, the latest last. *)
Record Flows : Type := mkFlows {
  flowsFlux       : Q;              (* mFlux *)
  mPotentialDrop  : Q;
  mPortDirections : PortDirection;  (* mPortDirections[0] *)
  mFlowRate       : Q;
  nodeCalls       : list NodeCall
}.

Section Flow.

(** [GunnsBasicLink::computeFlux], which is not among the sources, as the
    flux that it leaves in [mFlux] for a potential drop and a link; the
    limit [m100EpsilonLimit] of the base class; and
    [PolyFluid::getMWeight]. *)
Variable computeFlux : Q -> GunnsFluidDistributedIf -> Q.
Variable m100EpsilonLimit : Q.
Variable getMWeight : PolyFluid -> Q.

(** [computeFlows] on a link [s] whose entry of the potential vector is
    [potentialVector]. *)
Definition computeFlows (potentialVector : Q) (s : GunnsFluidDistributedIf)
    (w : Flows) : Flows :=
  let potentialDrop := - potentialVector in
  let flux := computeFlux potentialDrop s in
  if Qlt_bool DBL_EPSILON flux then
    mkFlows flux potentialDrop SINK (mFlowRate w) (nodeCalls w)
  else if Qlt_bool flux (- DBL_EPSILON) then
    if mDemandMode (mOutData s) then
      mkFlows flux potentialDrop SOURCE (mFlowRate w)
        (nodeCalls w ++ [scheduleOutflux (- flux)])
    else
      mkFlows flux potentialDrop SINK (mFlowRate w) (nodeCalls w)
  else
    mkFlows flux potentialDrop NONE (mFlowRate w) (nodeCalls w).

Definition transportFlows (s : GunnsFluidDistributedIf) (w : Flows)
    : Flows :=
  let flowRate :=
    if mDemandMode (mOutData s)
    then flowsFlux w * getMWeight (nContent (mNode s))
    else flowsFlux w * getMWeight (mInternalFluid s) in
  let calls :=
    if mDemandMode (mOutData s) then
      if Qlt_bool m100EpsilonLimit flowRate then
        nodeCalls w ++ [collectInflux flowRate NodeContent]
      else if Qlt_bool flowRate (- m100EpsilonLimit) then
        nodeCalls w ++ [collectOutflux (- flowRate)]
      else nodeCalls w
    else if Qlt_bool m100EpsilonLimit (Qabs flowRate) then
      nodeCalls w ++ [collectInflux flowRate InternalFluid]
    else nodeCalls w in
  mkFlows (flowsFlux w) (mPotentialDrop w) (mPortDirections w) flowRate calls.

End Flow.

(** Flows of a link whose flux is -1 kmol/s, before any call on the node. *)
Definition outwardFlows : Flows := mkFlows (- (1)) 0 NONE 0 [].

(** ** Reading the state

    [fields] reduces the member accesses in the goal, and nothing else. *)
Ltac fields :=
  cbn [
    mFrameCount mFrameLoopback mDemandMode mCapacitance mSource mEnergy
    mMoleFractions mTcMoleFractions mNumFluid mNumTc mNumFluidIf
    mNumTcIf mNumFluidCommon mNumTcCommon tcNTypes tcMoleFractions fMass
    fMassFractions fPressure fTemperature fTraceCompounds nPotential
    nVolume nContent nInflow nNetworkCapacitance nNetCapDeltaPotential
    nNetworkCapacitanceRequest nNTypes mEditVolumeFlag mEditVolume
    otherSuppliedCapacitance otherNodeMap mInData mOutData mIsPairMaster
    mUseEnthalpy mDemandOption mCapacitorLink mModingCapacitanceRatio
    mDemandFilterConstA mDemandFilterConstB mForceDemandMode
    mForceSupplyMode mInDataLastDemandMode mFramesSinceFlip
    mSupplyVolume mEffectiveConductivity mSourcePressure mDemandFlux
    mLoopLatency mDemandFluxGain mSuppliedCapacitance mTempMassFractions
    mTempMoleFractions mTempTcMoleFractions mOtherIfs mFluidState
    mMalfBlockageFlag mMalfBlockageValue mAdmittanceMatrix
    mAdmittanceUpdate mSourceVector mFlux mConductanceLimit
    mInternalFluid mNode mNodeMap passInData passDt passNode passFlux
    passOtherIfs set_mFrameCount set_mFrameLoopback set_mDemandMode
    set_mCapacitance set_mSource set_mEnergy set_mMoleFractions
    set_mTcMoleFractions setMoleFractions setTcMoleFractions
    setMassAndMassFractions setPressure setTemperature setTraceCompounds
    set_nContent setNetworkCapacitanceRequest editVolume set_mInData
    set_mOutData set_mCapacitorLink set_mInDataLastDemandMode
    set_mFramesSinceFlip set_mSupplyVolume set_mEffectiveConductivity
    set_mSourcePressure set_mDemandFlux set_mLoopLatency
    set_mDemandFluxGain set_mSuppliedCapacitance set_mTempMassFractions
    set_mTempMoleFractions set_mTempTcMoleFractions set_mFluidState
    set_mAdmittanceMatrix set_mAdmittanceUpdate set_mSourceVector
    set_mInternalFluid set_mNode deref assign
    tcSetMoleFractions fst snd negb andb orb ].

Ltac fields_in H :=
  cbn [
    mFrameCount mFrameLoopback mDemandMode mCapacitance mSource mEnergy
    mMoleFractions mTcMoleFractions mNumFluid mNumTc mNumFluidIf
    mNumTcIf mNumFluidCommon mNumTcCommon tcNTypes tcMoleFractions fMass
    fMassFractions fPressure fTemperature fTraceCompounds nPotential
    nVolume nContent nInflow nNetworkCapacitance nNetCapDeltaPotential
    nNetworkCapacitanceRequest nNTypes mEditVolumeFlag mEditVolume
    otherSuppliedCapacitance otherNodeMap mInData mOutData mIsPairMaster
    mUseEnthalpy mDemandOption mCapacitorLink mModingCapacitanceRatio
    mDemandFilterConstA mDemandFilterConstB mForceDemandMode
    mForceSupplyMode mInDataLastDemandMode mFramesSinceFlip
    mSupplyVolume mEffectiveConductivity mSourcePressure mDemandFlux
    mLoopLatency mDemandFluxGain mSuppliedCapacitance mTempMassFractions
    mTempMoleFractions mTempTcMoleFractions mOtherIfs mFluidState
    mMalfBlockageFlag mMalfBlockageValue mAdmittanceMatrix
    mAdmittanceUpdate mSourceVector mFlux mConductanceLimit
    mInternalFluid mNode mNodeMap passInData passDt passNode passFlux
    passOtherIfs set_mFrameCount set_mFrameLoopback set_mDemandMode
    set_mCapacitance set_mSource set_mEnergy set_mMoleFractions
    set_mTcMoleFractions setMoleFractions setTcMoleFractions
    setMassAndMassFractions setPressure setTemperature setTraceCompounds
    set_nContent setNetworkCapacitanceRequest editVolume set_mInData
    set_mOutData set_mCapacitorLink set_mInDataLastDemandMode
    set_mFramesSinceFlip set_mSupplyVolume set_mEffectiveConductivity
    set_mSourcePressure set_mDemandFlux set_mLoopLatency
    set_mDemandFluxGain set_mSuppliedCapacitance set_mTempMassFractions
    set_mTempMoleFractions set_mTempTcMoleFractions set_mFluidState
    set_mAdmittanceMatrix set_mAdmittanceUpdate set_mSourceVector
    set_mInternalFluid set_mNode deref assign
    tcSetMoleFractions fst snd negb andb orb ] in H.

(** Case analysis on the conditions of the goal. *)
Ltac branches :=
  repeat match goal with
         | |- context [if ?b then _ else _] => destruct b eqn:?
         end.

(** [fields_by_value] reduces the member accesses of the goal innermost
    first, which keeps nested updates of the link small. *)
Ltac fields_by_value :=
  cbv beta iota zeta delta [
    mFrameCount mFrameLoopback mDemandMode mCapacitance mSource mEnergy
    mMoleFractions mTcMoleFractions mNumFluid mNumTc mNumFluidIf
    mNumTcIf mNumFluidCommon mNumTcCommon tcNTypes tcMoleFractions fMass
    fMassFractions fPressure fTemperature fTraceCompounds nPotential
    nVolume nContent nInflow nNetworkCapacitance nNetCapDeltaPotential
    nNetworkCapacitanceRequest nNTypes mEditVolumeFlag mEditVolume
    otherSuppliedCapacitance otherNodeMap mInData mOutData mIsPairMaster
    mUseEnthalpy mDemandOption mCapacitorLink mModingCapacitanceRatio
    mDemandFilterConstA mDemandFilterConstB mForceDemandMode
    mForceSupplyMode mInDataLastDemandMode mFramesSinceFlip
    mSupplyVolume mEffectiveConductivity mSourcePressure mDemandFlux
    mLoopLatency mDemandFluxGain mSuppliedCapacitance mTempMassFractions
    mTempMoleFractions mTempTcMoleFractions mOtherIfs mFluidState
    mMalfBlockageFlag mMalfBlockageValue mAdmittanceMatrix
    mAdmittanceUpdate mSourceVector mFlux mConductanceLimit
    mInternalFluid mNode mNodeMap passInData passDt passNode passFlux
    passOtherIfs set_mFrameCount set_mFrameLoopback set_mDemandMode
    set_mCapacitance set_mSource set_mEnergy set_mMoleFractions
    set_mTcMoleFractions setMoleFractions setTcMoleFractions
    setMassAndMassFractions setPressure setTemperature setTraceCompounds
    set_nContent setNetworkCapacitanceRequest editVolume set_mInData
    set_mOutData set_mCapacitorLink set_mInDataLastDemandMode
    set_mFramesSinceFlip set_mSupplyVolume set_mEffectiveConductivity
    set_mSourcePressure set_mDemandFlux set_mLoopLatency
    set_mDemandFluxGain set_mSuppliedCapacitance set_mTempMassFractions
    set_mTempMoleFractions set_mTempTcMoleFractions set_mFluidState
    set_mAdmittanceMatrix set_mAdmittanceUpdate set_mSourceVector
    set_mInternalFluid set_mNode deref assign
    tcSetMoleFractions fst snd negb andb orb ].
(** ** Facts about the numbers *)

Lemma Qlt_bool_iff (x y : Q) : Qlt_bool x y = true <-> x < y.
Proof.
  unfold Qlt_bool. rewrite negb_true_iff.
  split; intro H.
  - apply Qnot_le_lt. intro Hle. apply Qle_bool_iff in Hle. congruence.
  - destruct (Qle_bool y x) eqn:E; [|reflexivity].
    apply Qle_bool_iff in E. exfalso. apply (Qlt_not_le _ _ H E).
Qed.

Lemma Qlt_bool_false_iff (x y : Q) : Qlt_bool x y = false <-> y <= x.
Proof.
  unfold Qlt_bool. rewrite negb_false_iff. apply Qle_bool_iff.
Qed.

Lemma Qle_bool_false_iff (x y : Q) : Qle_bool x y = false <-> y < x.
Proof.
  rewrite <- Qlt_bool_iff. unfold Qlt_bool.
  destruct (Qle_bool x y); simpl; intuition congruence.
Qed.

Lemma Qlt_bool_spec (x y : Q) : reflect (x < y) (Qlt_bool x y).
Proof.
  destruct (Qlt_bool x y) eqn:E; constructor.
  - now apply Qlt_bool_iff.
  - apply Qlt_bool_false_iff in E. now apply Qle_not_lt.
Qed.

Lemma std_max_cases (a b : Q) :
  (a < b /\ std_max a b = b) \/ (b <= a /\ std_max a b = a).
Proof.
  unfold std_max. destruct (Qlt_bool_spec a b) as [H|H]; [left|right]; split;
    auto. now apply Qnot_lt_le.
Qed.

Lemma std_min_cases (a b : Q) :
  (b < a /\ std_min a b = b) \/ (a <= b /\ std_min a b = a).
Proof.
  unfold std_min. destruct (Qlt_bool_spec b a) as [H|H]; [left|right]; split;
    auto. now apply Qnot_lt_le.
Qed.

Lemma limitRange_at_lower (lower x upper : Q) :
  x == lower -> limitRange lower x upper == lower.
Proof.
  intro Hx. unfold limitRange.
  destruct (std_min_cases x upper) as [[H1 E1]|[H1 E1]]; rewrite E1;
    destruct (std_max_cases upper lower) as [[H2 E2]|[H2 E2]];
    destruct (std_max_cases x lower) as [[H3 E3]|[H3 E3]];
    try rewrite E2; try rewrite E3; lra.
Qed.

Lemma Qabs_not_pos (x : Q) : Qlt_bool 0 (Qabs x) = false -> x == 0.
Proof.
  intro H. apply Qlt_bool_false_iff in H.
  revert H. apply Qabs_case; intros; lra.
Qed.

(** ** The stamp of [step] *)

(** The members that a block of [step] leaves alone. *)
Lemma stepConductivity_frame (dt : Q) (s : GunnsFluidDistributedIf) :
  let s' := stepConductivity dt s in
  mOutData s' = mOutData s
  /\ mInData s' = mInData s
  /\ mAdmittanceMatrix s' = mAdmittanceMatrix s
  /\ mConductanceLimit s' = mConductanceLimit s
  /\ mSourcePressure s' = mSourcePressure s
  /\ mDemandFlux s' = mDemandFlux s.
Proof.
  unfold stepConductivity.
  destruct (mDemandMode (mOutData s) && Qlt_bool DBL_EPSILON dt);
    [|repeat split].
  destruct (Qlt_bool FLT_EPSILON (mCapacitance (mOutData s))
            && Qlt_bool FLT_EPSILON (mCapacitance (mInData s))); fields.
  - destruct (mDemandOption s); fields;
      destruct (mMalfBlockageFlag s); repeat split.
  - destruct (mMalfBlockageFlag s); repeat split.
Qed.

Lemma stepAdmittance_frame (s : GunnsFluidDistributedIf) :
  let s' := stepAdmittance s in
  mOutData s' = mOutData s
  /\ mEffectiveConductivity s' = mEffectiveConductivity s
  /\ mDemandFluxGain s' = mDemandFluxGain s
  /\ mSourcePressure s' = mSourcePressure s
  /\ mDemandFlux s' = mDemandFlux s
  /\ mAdmittanceMatrix s'
     == limitRange 0 (mEffectiveConductivity s) (mConductanceLimit s).
Proof.
  unfold stepAdmittance.
  destruct (Qlt_bool 0 (Qabs _)) eqn:E; fields.
  - repeat split; reflexivity.
  - apply Qabs_not_pos in E. repeat split; try reflexivity. lra.
Qed.

Lemma stepSuppliedCapacitance_frame (dt : Q) (s : GunnsFluidDistributedIf) :
  let s' := stepSuppliedCapacitance dt s in
  mOutData s' = mOutData s
  /\ mEffectiveConductivity s' = mEffectiveConductivity s
  /\ mDemandFluxGain s' = mDemandFluxGain s
  /\ mSourcePressure s' = mSourcePressure s
  /\ mDemandFlux s' = mDemandFlux s
  /\ mAdmittanceMatrix s' = mAdmittanceMatrix s
  /\ mSuppliedCapacitance s'
     = (if mDemandMode (mOutData s) then mAdmittanceMatrix s * dt else 0).
Proof.
  unfold stepSuppliedCapacitance.
  destruct (mDemandMode (mOutData s)); repeat split.
Qed.

Lemma stepSource_frame (s : GunnsFluidDistributedIf) :
  let s' := stepSource s in
  mOutData s' = mOutData s
  /\ mEffectiveConductivity s' = mEffectiveConductivity s
  /\ mDemandFluxGain s' = mDemandFluxGain s
  /\ mAdmittanceMatrix s' = mAdmittanceMatrix s
  /\ mSuppliedCapacitance s' = mSuppliedCapacitance s
  /\ mSourceVector s'
     = mSourcePressure s * mAdmittanceMatrix s + mDemandFlux s.
Proof. repeat split. Qed.

(** What [step] leaves in the link, in terms of the conductivity and the
    gain that its first block computes. *)
Lemma step_stamp (dt : Q) (s : GunnsFluidDistributedIf) :
  mOutData (step dt s) = mOutData s
  /\ mEffectiveConductivity (step dt s)
     = mEffectiveConductivity (stepConductivity dt s)
  /\ mDemandFluxGain (step dt s) = mDemandFluxGain (stepConductivity dt s)
  /\ mAdmittanceMatrix (step dt s)
     == limitRange 0 (mEffectiveConductivity (step dt s))
          (mConductanceLimit s)
  /\ mSuppliedCapacitance (step dt s)
     = (if mDemandMode (mOutData s)
        then mAdmittanceMatrix (step dt s) * dt else 0)
  /\ mSourceVector (step dt s)
     = mSourcePressure s * mAdmittanceMatrix (step dt s) + mDemandFlux s.
Proof.
  unfold step.
  destruct (stepConductivity_frame dt s) as (C1 & C2 & C3 & C4 & C5 & C6).
  destruct (stepAdmittance_frame (stepConductivity dt s))
    as (A1 & A2 & A3 & A4 & A5 & A6).
  destruct (stepSuppliedCapacitance_frame dt
              (stepAdmittance (stepConductivity dt s)))
    as (S1 & S2 & S3 & S4 & S5 & S6 & S7).
  destruct (stepSource_frame
              (stepSuppliedCapacitance dt
                 (stepAdmittance (stepConductivity dt s))))
    as (V1 & V2 & V3 & V4 & V5 & V6).
  repeat split.
  - congruence.
  - congruence.
  - congruence.
  - rewrite V4, S6, A6, V2, S2, A2, C4. reflexivity.
  - rewrite V5, S7, V4, S6, A1, C1. reflexivity.
  - rewrite V6, V4, S6, S4, S5, A4, A5, C5, C6. reflexivity.
Qed.

Lemma step_supply_source_vector (dt : Q) (s : GunnsFluidDistributedIf) :
  mDemandMode (mOutData s) = false ->
  mEffectiveConductivity (step dt s) = 0
  /\ mAdmittanceMatrix (step dt s) == 0
  /\ mSourceVector (step dt s) == mDemandFlux s.
Proof.
  intro Hmode.
  destruct (step_stamp dt s) as (_ & He & _ & Ha & _ & Hv).
  assert (Heff : mEffectiveConductivity (step dt s) = 0).
  { rewrite He. unfold stepConductivity. rewrite Hmode. reflexivity. }
  assert (Hadm : mAdmittanceMatrix (step dt s) == 0).
  { rewrite Ha, Heff. now apply limitRange_at_lower. }
  repeat split; auto.
  rewrite Hv, Hadm. ring.
Qed.

(** C10: in Supply mode [step] zeroes the effective conductivity, stamps a
    zero admittance, zeroes the supplied capacitance, and the source vector
    is the demand flux alone: the pressure source term is zero. *)
Theorem C10_step_in_supply_mode (dt : Q) (s : GunnsFluidDistributedIf) :
  mDemandMode (mOutData s) = false ->
  mEffectiveConductivity (step dt s) = 0
  /\ mAdmittanceMatrix (step dt s) == 0
  /\ mSuppliedCapacitance (step dt s) = 0
  /\ mSourceVector (step dt s) == mDemandFlux s
  /\ mSourcePressure s * mAdmittanceMatrix (step dt s) == 0.
Proof.
  intro Hmode.
  destruct (step_supply_source_vector dt s Hmode) as (Heff & Hadm & Hsrc).
  destruct (step_stamp dt s) as (_ & _ & _ & _ & Hs & _).
  rewrite Hmode in Hs.
  repeat split; auto.
  rewrite Hadm. ring.
Qed.

Lemma C10_step_in_supply_mode_witness :
  mEffectiveConductivity (step 1 link0) = 0
  /\ mAdmittanceMatrix (step 1 link0) == 0
  /\ mSuppliedCapacitance (step 1 link0) = 0
  /\ mSourceVector (step 1 link0) == mDemandFlux link0
  /\ mSourcePressure link0 * mAdmittanceMatrix (step 1 link0) == 0.
Proof. apply (C10_step_in_supply_mode 1 link0). reflexivity. Defined.

(** ** The conductance of the Demand side *)

Lemma law_r_equal_capacitance (Cs Cd ratio : Q) :
  0 < Cd -> Cs == Cd -> law_r Cs Cd ratio == 1.
Proof.
  intros Hpos Heq. unfold law_r. apply limitRange_at_lower.
  rewrite Heq. field. lra.
Qed.

Lemma law_gain_equal_capacitance (A B ratio Cs Cd : Q) (latency : Z) :
  0 < Cd -> Cs == Cd ->
  law_gain A B ratio Cs Cd latency == law_gLimit A B (law_n latency).
Proof.
  intros Hpos Heq. unfold law_gain.
  rewrite (law_r_equal_capacitance Cs Cd ratio Hpos Heq). ring.
Qed.

Lemma law_gain_full_limit (A B ratio Cs Cd : Q) (latency : Z) :
  law_gLimit A B (law_n latency) == 1 ->
  law_gain A B ratio Cs Cd latency == 1.
Proof.
  intro H. unfold law_gain. rewrite H. ring.
Qed.

(** C1, in the form that holds of the code: in Demand mode with [dt > DBL_EPSILON] and both
    capacitances above [FLT_EPSILON], [step] sets the demand flux gain to the
    gain of the law and the effective conductivity to [G] of the law, scaled
    by [1 - mMalfBlockageValue] when the blockage malfunction is active; the
    admittance stamped is that conductivity limited to
    [0, mConductanceLimit].  With A = 1.5, B = 0.75 and equal capacitances
    the gain is within 0.0001 of 0.1501 at a loop latency of 8, and it is 1
    at a loop latency of 1. *)
Theorem C1_demand_conductance_law (dt : Q) (s : GunnsFluidDistributedIf) :
  mDemandMode (mOutData s) = true ->
  DBL_EPSILON < dt ->
  FLT_EPSILON < mCapacitance (mOutData s) ->
  FLT_EPSILON < mCapacitance (mInData s) ->
  mDemandFluxGain (step dt s) = link_law_gain s
  /\ mEffectiveConductivity (step dt s)
     = (if mMalfBlockageFlag s
        then link_law_G dt s * (1 - mMalfBlockageValue s)
        else link_law_G dt s)
  /\ mAdmittanceMatrix (step dt s)
     == limitRange 0 (mEffectiveConductivity (step dt s))
          (mConductanceLimit s)
  /\ (mDemandFilterConstA s = 3 # 2 -> mDemandFilterConstB s = 3 # 4 ->
      mCapacitance (mInData s) == mCapacitance (mOutData s) ->
      mLoopLatency s = 8%Z ->
      Qabs (mDemandFluxGain (step dt s) - (1501 # 10000)) < 1 # 10000)
  /\ (mDemandFilterConstA s = 3 # 2 -> mDemandFilterConstB s = 3 # 4 ->
      mLoopLatency s = 1%Z ->
      mDemandFluxGain (step dt s) == 1).
Proof.
  intros Hmode Hdt Hcd Hcs.
  destruct (step_stamp dt s) as (_ & He & Hg & Ha & _ & _).
  apply Qlt_bool_iff in Hdt, Hcd, Hcs.
  assert (Hgain : mDemandFluxGain (step dt s) = link_law_gain s).
  { rewrite Hg. unfold stepConductivity. rewrite Hmode, Hdt, Hcd, Hcs. fields.
    unfold link_law_gain, law_gain, law_gLimit, law_n, law_r, powf.
    destruct (mDemandOption s); fields;
      destruct (mMalfBlockageFlag s); fields; reflexivity. }
  split; [exact Hgain|].
  split.
  { rewrite He. unfold stepConductivity. rewrite Hmode, Hdt, Hcd, Hcs. fields.
    unfold link_law_G, law_G, law_baseG, law_gain, law_gLimit, law_n, law_r,
      powf.
    destruct (mDemandOption s); fields;
      destruct (mMalfBlockageFlag s); fields; reflexivity. }
  split; [exact Ha|].
  rewrite Hgain. unfold link_law_gain.
  apply Qlt_bool_iff in Hcd.
  split.
  - intros HA HB Heq Hlat. rewrite HA, HB, Hlat.
    assert (Hpos : 0 < mCapacitance (mOutData s))
      by (apply Qlt_trans with (2 := Hcd); reflexivity).
    rewrite (law_gain_equal_capacitance _ _ _ _ _ _ Hpos Heq).
    apply Qabs_Qlt_condition. vm_compute. intuition congruence.
  - intros HA HB Hlat. rewrite HA, HB, Hlat.
    apply law_gain_full_limit. vm_compute. reflexivity.
Qed.

Lemma C1_demand_conductance_law_witness :
  Qabs (mDemandFluxGain (step 1 demandLink8) - (1501 # 10000)) < 1 # 10000.
Proof.
  apply (C1_demand_conductance_law 1 demandLink8); vm_compute; reflexivity.
Defined.

(** C1 as the design states it fails under the blockage malfunction: with a blockage of
    one half the effective conductivity is half of [G] of the law. *)
Lemma C1_counterexample :
  mDemandMode (mOutData blockedDemandLink) = true
  /\ DBL_EPSILON < 1
  /\ FLT_EPSILON < mCapacitance (mOutData blockedDemandLink)
  /\ FLT_EPSILON < mCapacitance (mInData blockedDemandLink)
  /\ link_law_G 1 blockedDemandLink == 1 # 2
  /\ mEffectiveConductivity (step 1 blockedDemandLink) == 1 # 4
  /\ ~ mEffectiveConductivity (step 1 blockedDemandLink)
       == link_law_G 1 blockedDemandLink.
Proof.
  vm_compute. repeat split; discriminate.
Qed.

(** ** The validity predicate *)

Lemma findNegative_false (n : nat) (a : list Q) :
  findNegative n a = Some false <->
  (n <= length a)%nat /\ forall i, (i < n)%nat -> 0 <= read a i.
Proof.
  revert a. induction n as [|n IH]; intro a; simpl.
  - split; [intros _; split; [lia|intros i Hi; lia] | reflexivity].
  - destruct a as [|x a]; simpl.
    + split; [discriminate | intros [H _]; lia].
    + destruct (Qlt_bool_spec x 0) as [Hneg|Hpos].
      * split; [discriminate|]. intros [_ H]. exfalso.
        specialize (H O (Nat.lt_0_succ n)). unfold read in H. simpl in H.
        apply (Qlt_not_le _ _ Hneg H).
      * apply Qnot_lt_le in Hpos. rewrite IH. split.
        -- intros [Hlen H]. split; [lia|].
           intros [|i] Hi; unfold read; simpl; [exact Hpos|].
           apply H. lia.
        -- intros [Hlen H]. split; [lia|].
           intros i Hi. apply (H (S i)). lia.
Qed.

(** What [hasValidData] checks: the scalars, the first [mNumFluid] bulk
    fractions and the first [mNumTc] trace fractions, which the interface
    arrays must hold. *)
Lemma hasValidData_true_iff (d : GunnsFluidDistributedIfData) :
  hasValidData d = Some true <->
  (1 <= mFrameCount d)%Z
  /\ 0 < mEnergy d
  /\ 0 <= mCapacitance d
  /\ (mDemandMode d = false -> 0 <= mSource d)
  /\ (mNumFluid d <= length (mMoleFractions d))%nat
  /\ (forall i, (i < mNumFluid d)%nat -> 0 <= read (mMoleFractions d) i)
  /\ (mNumTc d <= length (mTcMoleFractions d))%nat
  /\ (forall i, (i < mNumTc d)%nat -> 0 <= read (mTcMoleFractions d) i).
Proof.
  unfold hasValidData.
  destruct (Z.ltb_spec (mFrameCount d) 1) as [Hf|Hf]; simpl.
  { split; [discriminate | intros (H & _); lia]. }
  destruct (Qle_bool (mEnergy d) 0) eqn:He; simpl.
  { apply Qle_bool_iff in He. split; [discriminate|].
    intros (_ & H & _). exfalso. apply (Qlt_not_le _ _ H He). }
  apply Qle_bool_false_iff in He.
  destruct (Qlt_bool_spec (mCapacitance d) 0) as [Hc|Hc]; simpl.
  { split; [discriminate|]. intros (_ & _ & H & _). exfalso.
    apply (Qlt_not_le _ _ Hc H). }
  apply Qnot_lt_le in Hc.
  assert (Hs : Qlt_bool (mSource d) 0 && negb (mDemandMode d) = false
               <-> (mDemandMode d = false -> 0 <= mSource d)).
  { destruct (mDemandMode d); simpl; rewrite ?andb_false_r, ?andb_true_r.
    - split; [discriminate | reflexivity].
    - rewrite Qlt_bool_false_iff. tauto. }
  destruct (Qlt_bool (mSource d) 0 && negb (mDemandMode d)).
  { split; [discriminate|]. intros (_ & _ & _ & H & _).
    apply Hs in H. discriminate. }
  pose proof (findNegative_false (mNumFluid d) (mMoleFractions d)) as Hb.
  pose proof (findNegative_false (mNumTc d) (mTcMoleFractions d)) as Ht.
  destruct (findNegative (mNumFluid d) (mMoleFractions d)) as [[|]|].
  - split; [discriminate|]. intros (_ & _ & _ & _ & H1 & H2 & _).
    assert (Some true = Some false) by (apply Hb; auto). discriminate.
  - destruct (findNegative (mNumTc d) (mTcMoleFractions d)) as [[|]|].
    + split; [discriminate|]. intros (_ & _ & _ & _ & _ & _ & H1 & H2).
      assert (Some true = Some false) by (apply Ht; auto). discriminate.
    + split; [|reflexivity]. intros _.
      destruct Hb as [Hb _]. destruct (Hb eq_refl) as [Hb1 Hb2].
      destruct Ht as [Ht _]. destruct (Ht eq_refl) as [Ht1 Ht2].
      repeat split; auto. apply Hs. reflexivity.
    + split; [discriminate|]. intros (_ & _ & _ & _ & _ & _ & H1 & H2).
      assert (None = Some false) by (apply Ht; auto). discriminate.
  - split; [discriminate|]. intros (_ & _ & _ & _ & H1 & H2 & _).
    assert (None = Some false) by (apply Hb; auto). discriminate.
Qed.

(** C2, at the input where it fails: the interface carries two bulk
    fractions and the local network one species; the second fraction is
    negative and [hasValidData] returns true. *)
Lemma C2_hasValidData_skips_interface_entries :
  mNumFluid widePayload = 1%nat
  /\ mNumFluidIf widePayload = length (mMoleFractions widePayload)
  /\ read (mMoleFractions widePayload) 1 < 0
  /\ hasValidData widePayload = Some true.
Proof. repeat split. Qed.

(** With an interface narrower than the local network the loop of
    [hasValidData] reads past the end of the interface array. *)
Lemma hasValidData_narrow_interface :
  (mNumFluidIf narrowPayload < mNumFluid narrowPayload)%nat
  /\ hasValidData narrowPayload = None.
Proof. split; [vm_compute; lia | reflexivity]. Qed.

(** ** Mode flips on incoming data *)

(** C3: with no force flag set, a valid inbound payload and both sides in
    Supply mode, [flipModesOnInput] flips to Demand mode exactly when the
    outgoing capacitance is below the incoming one, or equals it on the pair
    master; the flip saves the node volume in [mSupplyVolume] and asks the
    capacitor for a volume of 0. *)
Theorem C3_startup_race (s : GunnsFluidDistributedIf) :
  mForceDemandMode s = false ->
  mForceSupplyMode s = false ->
  hasValidData (mInData s) = Some true ->
  mDemandMode (mOutData s) = false ->
  mDemandMode (mInData s) = false ->
  exists s',
    flipModesOnInput s = Ret tt s'
    /\ (mDemandMode (mOutData s') = true <->
        mCapacitance (mOutData s) < mCapacitance (mInData s)
        \/ (mIsPairMaster s = true
            /\ mCapacitance (mOutData s) == mCapacitance (mInData s)))
    /\ (mDemandMode (mOutData s') = true ->
        mSupplyVolume s' = nVolume (mNode s)
        /\ mCapacitorLink s' = mkCapacitor true 0
        /\ mFramesSinceFlip s' = 0%Z).
Proof.
  intros Hfd Hfs Hvalid Hout Hin.
  unfold flipModesOnInput, bind, defined, run, ret.
  rewrite Hfd, Hfs, Hvalid, Hout, Hin. fields.
  unfold flipToDemandMode. rewrite Hfs. fields.
  destruct (Qlt_bool_spec (mCapacitance (mOutData s))
              (mCapacitance (mInData s))) as [Hlt|Hlt]; fields.
  - eexists; split; [reflexivity|]. fields. intuition.
  - destruct (mIsPairMaster s) eqn:Hm; fields.
    + destruct (Qeq_bool (mCapacitance (mOutData s))
                  (mCapacitance (mInData s))) eqn:Heq.
      * apply Qeq_bool_iff in Heq.
        eexists; split; [reflexivity|]. fields. intuition.
      * eexists; split; [reflexivity|]. fields. rewrite Hout.
        split; [|discriminate].
        split; [discriminate|].
        intros [H|[_ H]]; [contradiction|].
        apply Qeq_bool_iff in H. congruence.
    + eexists; split; [reflexivity|]. fields. rewrite Hout.
      split; [|discriminate].
      split; [discriminate|].
      intros [H|[H _]]; [contradiction|discriminate].
Qed.

Lemma C3_startup_race_witness :
  exists s',
    flipModesOnInput masterLink = Ret tt s'
    /\ (mDemandMode (mOutData s') = true <->
        mCapacitance (mOutData masterLink) < mCapacitance (mInData masterLink)
        \/ (mIsPairMaster masterLink = true
            /\ mCapacitance (mOutData masterLink)
               == mCapacitance (mInData masterLink)))
    /\ (mDemandMode (mOutData s') = true ->
        mSupplyVolume s' = nVolume (mNode masterLink)
        /\ mCapacitorLink s' = mkCapacitor true 0
        /\ mFramesSinceFlip s' = 0%Z).
Proof. apply (C3_startup_race masterLink); reflexivity. Defined.

(** C5, in the form that holds of the code: whenever [flipModesOnInput] takes the link from Demand to
    Supply mode (which it does on the force flag or on the hand-over of a
    valid Demand payload), the capacitor is asked to restore
    [mSupplyVolume], [mSupplyVolume] and [mFramesSinceFlip] are zeroed, and
    the outgoing payload changes in its mode flag only: its source keeps its
    value. *)
Theorem C5_flip_to_supply (s s' : GunnsFluidDistributedIf) :
  mDemandMode (mOutData s) = true ->
  flipModesOnInput s = Ret tt s' ->
  mDemandMode (mOutData s') = false ->
  mCapacitorLink s' = mkCapacitor true (mSupplyVolume s)
  /\ mSupplyVolume s' = 0
  /\ mFramesSinceFlip s' = 0%Z
  /\ mOutData s' = set_mDemandMode false (mOutData s)
  /\ mSource (mOutData s') = mSource (mOutData s)
  /\ mForceDemandMode s = false
  /\ (mForceSupplyMode s = true
      \/ (hasValidData (mInData s) = Some true
          /\ mDemandMode (mInData s) = true
          /\ mInDataLastDemandMode s = false)).
Proof.
  intros Hout Hrun Hflip.
  unfold flipModesOnInput, bind, defined, run, ret in Hrun.
  rewrite Hout in Hrun. fields_in Hrun.
  rewrite andb_false_r in Hrun.
  unfold flipToSupplyMode in Hrun.
  destruct (mForceSupplyMode s) eqn:Hfs; fields_in Hrun.
  - destruct (mForceDemandMode s) eqn:Hfd; fields_in Hrun;
      inversion Hrun; subst s'; fields; [congruence|].
    repeat split; auto.
  - destruct (hasValidData (mInData s)) as [[|]|] eqn:Hvalid;
      try discriminate.
    + destruct (mDemandMode (mInData s)) eqn:Hin; fields_in Hrun;
        destruct (mInDataLastDemandMode s) eqn:Hlast; fields_in Hrun;
        try (inversion Hrun; subst s'; fields_in Hflip; congruence).
      destruct (mForceDemandMode s) eqn:Hfd; fields_in Hrun;
        inversion Hrun; subst s'; fields_in Hflip; fields; [congruence|].
      repeat split; auto.
    + inversion Hrun; subst s'. congruence.
Qed.

Lemma C5_flip_to_supply_witness :
  mCapacitorLink (flipToSupplyMode handoverLink) = mkCapacitor true 2
  /\ mSource (mOutData (flipToSupplyMode handoverLink)) = 5.
Proof.
  destruct (C5_flip_to_supply handoverLink
              (set_mInDataLastDemandMode true (flipToSupplyMode handoverLink)))
    as (H1 & _ & _ & _ & H5 & _); try (vm_compute; reflexivity).
  split; [exact H1 | exact H5].
Defined.

(** C5 as the design states it fails on the outgoing source: the hand-over flips
    [handoverLink] to Supply mode and its outgoing source is still 5. *)
Lemma C5_counterexample :
  exists s',
    flipModesOnInput handoverLink = Ret tt s'
    /\ mDemandMode (mOutData handoverLink) = true
    /\ mDemandMode (mOutData s') = false
    /\ mSource (mOutData s') = 5
    /\ ~ mSource (mOutData s') == 0.
Proof.
  exists (set_mInDataLastDemandMode true (flipToSupplyMode handoverLink)).
  vm_compute. repeat split. discriminate.
Qed.

(** ** Mode flips on capacitance *)

Lemma flipModesOnCapacitance_mode (s : GunnsFluidDistributedIf) :
  mDemandMode (mOutData s) = false ->
  mCapacitance (mOutData (flipModesOnCapacitance s))
  = mCapacitance (mOutData s)
  /\ (mDemandMode (mOutData (flipModesOnCapacitance s)) = true <->
      mForceSupplyMode s = false
      /\ (mLoopLatency s < mFramesSinceFlip s)%Z
      /\ mCapacitance (mOutData s) * mModingCapacitanceRatio s
         < mCapacitance (mInData s)).
Proof.
  intro Hmode. unfold flipModesOnCapacitance, flipToDemandMode.
  destruct (Z.ltb_spec (mLoopLatency s) (mFramesSinceFlip s)) as [Hlt|Hlt];
    fields.
  - destruct (Qlt_bool_spec
                (mCapacitance (mOutData s) * mModingCapacitanceRatio s)
                (mCapacitance (mInData s))) as [Hcap|Hcap].
    + destruct (mForceSupplyMode s) eqn:E; fields.
      * rewrite Hmode. split; [reflexivity|].
        split; [discriminate|]. intros (H & _). discriminate.
      * split; [reflexivity|]. tauto.
    + rewrite Hmode. split; [reflexivity|].
      split; [discriminate|]. tauto.
  - rewrite Hmode. split; [reflexivity|].
    split; [discriminate|]. intros (_ & H & _). lia.
Qed.

Lemma incrementFramesSinceFlip_frame (s : GunnsFluidDistributedIf) :
  mOutData (incrementFramesSinceFlip s) = mOutData s.
Proof. reflexivity. Qed.

Section Outputs.

Context {FM : FluidModel}.

Lemma outputFluid_frame (fluid : PolyFluid) (s : GunnsFluidDistributedIf) :
  let s' := snd (outputFluid fluid s) in
  mDemandMode (mOutData s') = mDemandMode (mOutData s)
  /\ mCapacitance (mOutData s') = mCapacitance (mOutData s)
  /\ mSource (mOutData s') = mSource (mOutData s)
  /\ mInData s' = mInData s
  /\ mLoopLatency s' = mLoopLatency s
  /\ mFramesSinceFlip s' = mFramesSinceFlip s
  /\ mForceSupplyMode s' = mForceSupplyMode s
  /\ mForceDemandMode s' = mForceDemandMode s
  /\ mModingCapacitanceRatio s' = mModingCapacitanceRatio s
  /\ mDemandFlux s' = mDemandFlux s
  /\ mSourcePressure s' = mSourcePressure s.
Proof. repeat split. Qed.

Lemma outputCapacitance_frame (s : GunnsFluidDistributedIf) :
  let s' := outputCapacitance s in
  mDemandMode (mOutData s') = mDemandMode (mOutData s)
  /\ mInData s' = mInData s
  /\ mLoopLatency s' = mLoopLatency s
  /\ mFramesSinceFlip s' = mFramesSinceFlip s
  /\ mForceSupplyMode s' = mForceSupplyMode s
  /\ mForceDemandMode s' = mForceDemandMode s
  /\ mModingCapacitanceRatio s' = mModingCapacitanceRatio s
  /\ mDemandFlux s' = mDemandFlux s
  /\ mSourcePressure s' = mSourcePressure s
  /\ mNode s' = mNode s.
Proof. repeat split. Qed.

Lemma processOutputsSupply_frame (s : GunnsFluidDistributedIf) :
  let s' := processOutputsSupply s in
  mDemandMode (mOutData s') = mDemandMode (mOutData s)
  /\ mCapacitance (mOutData s') = mCapacitance (mOutData (outputCapacitance s))
  /\ mSource (mOutData s') = nPotential (mNode s) * UNIT_PER_KILO
  /\ mInData s' = mInData s
  /\ mLoopLatency s' = mLoopLatency s
  /\ mFramesSinceFlip s' = mFramesSinceFlip s
  /\ mForceSupplyMode s' = mForceSupplyMode s
  /\ mForceDemandMode s' = mForceDemandMode s
  /\ mModingCapacitanceRatio s' = mModingCapacitanceRatio s
  /\ mDemandFlux s' = mDemandFlux s
  /\ mSourcePressure s' = mSourcePressure s.
Proof. repeat split. Qed.

Lemma processOutputsDemand_frame (s : GunnsFluidDistributedIf) :
  let s' := processOutputsDemand s in
  mDemandMode (mOutData s') = mDemandMode (mOutData s)
  /\ mForceSupplyMode s' = mForceSupplyMode s
  /\ mForceDemandMode s' = mForceDemandMode s
  /\ mDemandFlux s' = mDemandFlux s
  /\ mSourcePressure s' = mSourcePressure s.
Proof.
  unfold processOutputsDemand.
  destruct (outputCapacitance_frame s) as (C1 & _ & _ & _ & C5 & C6 & _ & C8
                                           & C9 & _).
  match goal with
  | |- context [outputFluid ?f ?x] =>
      pose proof (outputFluid_frame f x) as F;
      destruct (outputFluid f x) as [sum x']
  end.
  fields_in F. destruct F as (F1 & _ & _ & _ & _ & _ & F7 & F8 & _ & F10 & F11).
  fields. repeat split; congruence.
Qed.

Lemma processOutputs_supply (s : GunnsFluidDistributedIf) :
  mDemandMode (mOutData s) = false ->
  mOutData (processOutputs s)
  = mOutData (flipModesOnCapacitance (processOutputsSupply s)).
Proof.
  intro Hmode. unfold processOutputs. rewrite Hmode.
  apply incrementFramesSinceFlip_frame.
Qed.

Lemma processOutputs_demand (s : GunnsFluidDistributedIf) :
  mDemandMode (mOutData s) = true ->
  mOutData (processOutputs s) = mOutData (processOutputsDemand s).
Proof.
  intro Hmode. unfold processOutputs. rewrite Hmode.
  apply incrementFramesSinceFlip_frame.
Qed.

(** C4, in the form that holds of the code: [processOutputs] on a Supply side flips it to Demand mode
    exactly when [mForceSupplyMode] is not set, [mFramesSinceFlip] exceeds
    [mLoopLatency] and the outgoing capacitance just computed, times
    [mModingCapacitanceRatio], is below the incoming capacitance; on a Demand
    side it never changes the mode. *)
Theorem C4_capacitance_flip (s : GunnsFluidDistributedIf) :
  (mDemandMode (mOutData s) = false ->
   mCapacitance (mOutData (processOutputs s))
   = mCapacitance (mOutData (outputCapacitance s))
   /\ (mDemandMode (mOutData (processOutputs s)) = true <->
       mForceSupplyMode s = false
       /\ (mLoopLatency s < mFramesSinceFlip s)%Z
       /\ mCapacitance (mOutData (outputCapacitance s))
          * mModingCapacitanceRatio s
          < mCapacitance (mInData s)))
  /\ (mDemandMode (mOutData s) = true ->
      mDemandMode (mOutData (processOutputs s)) = true).
Proof.
  split; intro Hmode.
  - destruct (processOutputsSupply_frame s)
      as (Hm & Hc & _ & Hi & Hl & Hf & Hfs & _ & Hr & _).
    rewrite (processOutputs_supply s Hmode).
    rewrite Hmode in Hm.
    destruct (flipModesOnCapacitance_mode (processOutputsSupply s) Hm)
      as (Hcap & Hflip).
    rewrite Hi, Hl, Hf, Hfs, Hr, Hc in Hflip. rewrite Hc in Hcap.
    split; assumption.
  - rewrite (processOutputs_demand s Hmode).
    destruct (processOutputsDemand_frame s) as (Hm & _). congruence.
Qed.

End Outputs.

Lemma C4_capacitance_flip_witness :
  mDemandMode (mOutData (@processOutputs oneSpecies freeSupplyLink)) = true.
Proof.
  destruct (@C4_capacitance_flip oneSpecies freeSupplyLink) as [H _].
  destruct H as [_ H]; [reflexivity|].
  apply H. vm_compute. repeat split.
Defined.

(** C4 as the design states it fails under [mForceSupplyMode]: the frame and capacitance
    conditions hold and the link stays in Supply mode. *)
Lemma C4_counterexample :
  mDemandMode (mOutData forcedSupplyLink) = false
  /\ (mLoopLatency forcedSupplyLink < mFramesSinceFlip forcedSupplyLink)%Z
  /\ mCapacitance (mOutData (@processOutputs oneSpecies forcedSupplyLink))
     * mModingCapacitanceRatio forcedSupplyLink
     < mCapacitance (mInData forcedSupplyLink)
  /\ mDemandMode (mOutData (@processOutputs oneSpecies forcedSupplyLink))
     = false.
Proof. vm_compute. repeat split. Qed.

(** ** Incoming data *)

Section Inputs.

Context {FM : FluidModel}.

Lemma inputFluid_outcome (pressure : Q) (fluid : FluidRef)
    (s : GunnsFluidDistributedIf) :
  match inputFluid pressure fluid s with
  | Ret x s' =>
      x = inBulkFractionSum s /\ DBL_EPSILON <= x /\ same_control s s'
  | Raise e st =>
      e = TsOutOfBoundsException
      /\ inBulkFractionSum s < DBL_EPSILON
      /\ st = set_mTempMoleFractions (getMoleFractions (mInData s)) s
  | Undef => False
  end.
Proof.
  unfold inputFluid, inBulkFractionSum. fields.
  destruct (Qlt_bool_spec
              (sum_first (nNTypes (mNode s)) (getMoleFractions (mInData s)))
              DBL_EPSILON) as [Hlt|Hge].
  - auto.
  - apply Qnot_lt_le in Hge. split; [reflexivity|]. split; [exact Hge|].
    unfold same_control.
    destruct fluid; fields;
      destruct (mUseEnthalpy s); fields;
      destruct (mTcMoleFractions (mInData s)); fields;
      repeat match goal with
             | |- context [match ?o with Some _ => _ | None => _ end] =>
                 destruct o
             end; fields; repeat split.
Qed.

Lemma flipModesOnInput_outcome (s : GunnsFluidDistributedIf) :
  match flipModesOnInput s with
  | Ret _ s1 =>
      mInData s1 = mInData s
      /\ mNode s1 = mNode s
      /\ mInternalFluid s1 = mInternalFluid s
      /\ mForceDemandMode s1 = mForceDemandMode s
      /\ mForceSupplyMode s1 = mForceSupplyMode s
      /\ mFrameCount (mOutData s1) = mFrameCount (mOutData s)
  | Raise _ _ => False
  | Undef => hasValidData (mInData s) = None
  end.
Proof.
  unfold flipModesOnInput, bind, defined, run, ret, flipToDemandMode,
    flipToSupplyMode.
  destruct (mForceDemandMode s) eqn:Hfd, (mForceSupplyMode s) eqn:Hfs,
    (mDemandMode (mOutData s)) eqn:Hout; fields;
    try (rewrite ?Hfd, ?Hfs; repeat split; fail);
    (destruct (hasValidData (mInData s)) as [[|]|]; [| repeat split; auto
                                                     | reflexivity]);
    branches; fields; rewrite ?Hfd, ?Hfs; repeat split.
Qed.

Lemma processInputsDemand_outcome (s : GunnsFluidDistributedIf) :
  match processInputsDemand s with
  | Ret _ s2 =>
      mInData s2 = mInData s
      /\ mOutData s2 = mOutData s
      /\ mForceDemandMode s2 = mForceDemandMode s
      /\ mForceSupplyMode s2 = mForceSupplyMode s
      /\ nNTypes (mNode s2) = nNTypes (mNode s)
      /\ (mDemandMode (mOutData s) = true ->
          hasValidData (mInData s) = Some true ->
          mDemandMode (mInData s) = false ->
          DBL_EPSILON <= inBulkFractionSum s)
      /\ (mDemandMode (mOutData s) = false -> s2 = s)
  | Raise e st =>
      e = TsOutOfBoundsException
      /\ mDemandMode (mOutData s) = true
      /\ hasValidData (mInData s) = Some true
      /\ mDemandMode (mInData s) = false
      /\ inBulkFractionSum s < DBL_EPSILON
      /\ mNode st = mNode s
      /\ mOutData st = mOutData s
  | Undef => hasValidData (mInData s) = None
  end.
Proof.
  unfold processInputsDemand, bind, defined, run, ret.
  destruct (mDemandMode (mOutData s)) eqn:Hout.
  2:{ repeat split; intros; congruence. }
  destruct (hasValidData (mInData s)) as [[|]|] eqn:Hvalid; fields;
    [ | repeat split; intros; congruence | reflexivity ].
  destruct (mDemandMode (mInData s)) eqn:Hin; fields.
  { repeat split; intros; congruence. }
  pose proof (inputFluid_outcome
                (mSource (mInData s) * KILO_PER_UNIT) NodeContent
                (set_mSourcePressure (mSource (mInData s) * KILO_PER_UNIT) s))
    as Hfluid.
  unfold inBulkFractionSum in *. fields_in Hfluid. fields.
  destruct (inputFluid _ _ _) as [x s'|e st|].
  - destruct Hfluid as (Hx & Hge & Hc). unfold same_control in Hc.
    fields_in Hc.
    destruct Hc as (H1 & H2 & H3 & H4 & _ & _ & _ & H8 & _).
    subst x. repeat split; auto; intros; congruence.
  - destruct Hfluid as (He & Hlt & Hst). subst st. fields.
    repeat split; auto.
  - contradiction.
Qed.

Lemma processInputsSupply_outcome (s : GunnsFluidDistributedIf) :
  match processInputsSupply s with
  | Ret _ s3 =>
      mInData s3 = mInData s
      /\ mOutData s3 = mOutData s
      /\ mForceDemandMode s3 = mForceDemandMode s
      /\ mForceSupplyMode s3 = mForceSupplyMode s
      /\ (mDemandMode (mOutData s) = false ->
          hasValidData (mInData s) = Some true ->
          mDemandMode (mInData s) = true ->
          DBL_EPSILON <= inBulkFractionSum s)
  | Raise e st =>
      e = TsOutOfBoundsException
      /\ mDemandMode (mOutData s) = false
      /\ hasValidData (mInData s) = Some true
      /\ mDemandMode (mInData s) = true
      /\ inBulkFractionSum s < DBL_EPSILON
      /\ mNode st = mNode s
      /\ mOutData st = mOutData s
      /\ mDemandFlux st = 0
  | Undef => hasValidData (mInData s) = None
  end.
Proof.
  unfold processInputsSupply, bind, defined, run, ret. fields.
  destruct (mDemandMode (mOutData s)) eqn:Hout; fields.
  { repeat split; intros; congruence. }
  destruct (hasValidData (mInData s)) as [[|]|] eqn:Hvalid; fields;
    [ | repeat split; intros; congruence | reflexivity ].
  destruct (mDemandMode (mInData s)) eqn:Hin; fields.
  2:{ repeat split; intros; congruence. }
  pose proof (inputFluid_outcome 1 InternalFluid
                (set_mSourcePressure 0 (set_mDemandFlux 0 s))) as Hfluid.
  unfold inBulkFractionSum in *. fields_in Hfluid. fields.
  destruct (inputFluid _ _ _) as [x s'|e st|].
  - destruct Hfluid as (Hx & Hge & Hc). unfold same_control in Hc.
    fields_in Hc.
    destruct Hc as (H1 & H2 & H3 & H4 & _).
    subst x. repeat split; auto.
  - destruct Hfluid as (He & Hlt & Hst). subst st. fields.
    repeat split; auto.
  - contradiction.
Qed.

(** C6, in the form that holds of the code: in Supply mode, with a valid inbound payload in Demand mode,
    [processInputsSupply] sets the demand flux to minus the inbound source
    times [KILO_PER_UNIT] times the sum of the inbound bulk fractions when
    this sum is at least [DBL_EPSILON], and [step] stamps it as the source
    vector; when the sum is below [DBL_EPSILON] it throws with the demand
    flux at 0.  With an invalid payload, a payload in Supply mode or a local
    side in Demand mode the demand flux is 0. *)
Theorem C6_supply_demand_flux (s : GunnsFluidDistributedIf) (valid : bool) :
  hasValidData (mInData s) = Some valid ->
  (mDemandMode (mOutData s) = false -> valid = true ->
   mDemandMode (mInData s) = true ->
   DBL_EPSILON <= inBulkFractionSum s ->
   exists s',
     processInputsSupply s = Ret tt s'
     /\ mDemandFlux s'
        = - mSource (mInData s) * KILO_PER_UNIT * inBulkFractionSum s
     /\ forall dt, mSourceVector (step dt s') == mDemandFlux s')
  /\ (mDemandMode (mOutData s) = false -> valid = true ->
      mDemandMode (mInData s) = true ->
      inBulkFractionSum s < DBL_EPSILON ->
      exists st,
        processInputsSupply s = Raise TsOutOfBoundsException st
        /\ mDemandFlux st = 0)
  /\ (mDemandMode (mOutData s) = true \/ valid = false
      \/ mDemandMode (mInData s) = false ->
      exists s', processInputsSupply s = Ret tt s' /\ mDemandFlux s' = 0).
Proof.
  intro Hvalid.
  pose proof (inputFluid_outcome 1 InternalFluid
                (set_mSourcePressure 0 (set_mDemandFlux 0 s))) as Hfluid.
  unfold inBulkFractionSum in Hfluid. fields_in Hfluid.
  fold (inBulkFractionSum s) in Hfluid.
  split; [|split].
  - intros Hout Hv Hin Hsum. subst valid.
    unfold processInputsSupply, bind, defined, run, ret. fields.
    rewrite Hout, Hvalid, Hin. fields.
    destruct (inputFluid _ _ _) as [x s'|e st|].
    + destruct Hfluid as (Hx & _ & Hc). unfold same_control in Hc.
      fields_in Hc. destruct Hc as (H1 & H2 & _).
      eexists. split; [reflexivity|]. fields. subst x.
      split; [now rewrite H1|].
      intro dt. apply step_supply_source_vector. fields. congruence.
    + destruct Hfluid as (_ & Hlt & _). exfalso.
      apply (Qlt_not_le _ _ Hlt Hsum).
    + contradiction.
  - intros Hout Hv Hin Hsum. subst valid.
    unfold processInputsSupply, bind, defined, run, ret. fields.
    rewrite Hout, Hvalid, Hin. fields.
    destruct (inputFluid _ _ _) as [x s'|e st|].
    + destruct Hfluid as (Hx & Hge & _). exfalso. subst x.
      apply (Qlt_not_le _ _ Hsum Hge).
    + destruct Hfluid as (He & _ & Hst). subst e st.
      eexists. split; reflexivity.
    + contradiction.
  - intros Hcase.
    unfold processInputsSupply, bind, defined, run, ret. fields.
    destruct (mDemandMode (mOutData s)) eqn:Hout; fields.
    { eexists. split; reflexivity. }
    rewrite Hvalid. fields.
    destruct Hcase as [H|[H|H]]; [discriminate| |].
    + subst valid. fields. eexists. split; reflexivity.
    + rewrite H, andb_false_r. eexists. split; reflexivity.
Qed.

End Inputs.

Lemma C6_supply_demand_flux_witness :
  exists s',
    @processInputsSupply oneSpecies (suppliedLink 1) = Ret tt s'
    /\ mDemandFlux s' == - (1 # 1000).
Proof.
  destruct (@C6_supply_demand_flux oneSpecies (suppliedLink 1) true)
    as (H & _ & _); [reflexivity|].
  destruct H as (s' & Hrun & Hflux & _);
    try (vm_compute; first [reflexivity | discriminate]).
  exists s'. split; [exact Hrun|]. rewrite Hflux. vm_compute. reflexivity.
Defined.

(** C6 as the design states it fails below [DBL_EPSILON]: the payload is valid and in
    Demand mode, its bulk fraction is 2^-60, and [processInputsSupply] throws
    with a demand flux of 0, which is not the flux of the formula. *)
Lemma C6_counterexample :
  mDemandMode (mOutData (suppliedLink (1 # 2 ^ 60))) = false
  /\ hasValidData (mInData (suppliedLink (1 # 2 ^ 60))) = Some true
  /\ mDemandMode (mInData (suppliedLink (1 # 2 ^ 60))) = true
  /\ (exists st,
        @processInputsSupply oneSpecies (suppliedLink (1 # 2 ^ 60))
        = Raise TsOutOfBoundsException st
        /\ mDemandFlux st = 0
        /\ ~ mDemandFlux st
             == - mSource (mInData (suppliedLink (1 # 2 ^ 60)))
                * KILO_PER_UNIT
                * inBulkFractionSum (suppliedLink (1 # 2 ^ 60))).
Proof.
  repeat split.
  eexists. split; [vm_compute; reflexivity|].
  split; [reflexivity|]. vm_compute. discriminate.
Qed.

(** ** One call of [processInputs] *)

Lemma updateFrameCounters_frame (s : GunnsFluidDistributedIf) :
  let s' := updateFrameCounters s in
  mFrameCount (mOutData s') = wrap_counter (mFrameCount (mOutData s) + 1)
  /\ mLoopLatency s'
     = to_int (wrap_counter (mFrameCount (mOutData s')
                             - mFrameLoopback (mInData s)))
  /\ mFrameLoopback (mOutData s') = mFrameCount (mInData s)
  /\ mDemandMode (mOutData s') = mDemandMode (mOutData s)
  /\ mSource (mOutData s') = mSource (mOutData s)
  /\ mNode s' = mNode s
  /\ same_inputs s s'.
Proof. repeat split. Qed.

Lemma echo_latency (c : Z) :
  (0 <= c < counter_modulus)%Z ->
  to_int (wrap_counter (wrap_counter (c + 1) - c)) = 1%Z.
Proof.
  unfold to_int, wrap_counter, counter_modulus.
  change (2 ^ 64)%Z with 18446744073709551616%Z.
  change (2 ^ 31)%Z with 2147483648%Z.
  change (2 ^ 32)%Z with 4294967296%Z.
  intro H.
  assert (E : ((c + 1) mod 18446744073709551616 - c = 1
               \/ (c + 1) mod 18446744073709551616 - c
                  = 1 - 18446744073709551616)%Z).
  { destruct (Z.eq_dec c 18446744073709551615) as [->|Hne].
    - right. reflexivity.
    - left. rewrite Z.mod_small by lia. lia. }
  destruct E as [E|E]; rewrite E; reflexivity.
Qed.

Section Ingest.

Context {FM : FluidModel}.

Lemma inBulkFractionSum_same (s s' : GunnsFluidDistributedIf) :
  mInData s' = mInData s -> nNTypes (mNode s') = nNTypes (mNode s) ->
  inBulkFractionSum s' = inBulkFractionSum s.
Proof. unfold inBulkFractionSum. intros -> ->. reflexivity. Qed.

(** C8, in the form that holds of the code: [processInputs] throws exactly
    when the inbound payload is valid, its bulk mole fractions mapped into
    the local species sum to less than [DBL_EPSILON], and the local mode after
    [flipModesOnInput] is the opposite of the inbound mode (Demand facing
    Supply, or Supply facing Demand).  The exception is the out-of-bounds
    exception of "Invalid Interface Data", the only one of the ingest; it
    leaves the node and the outgoing frame count as they were. *)
Theorem C8_invalid_interface_data (s : GunnsFluidDistributedIf) :
  ((exists e st, processInputs s = Raise e st) <->
   hasValidData (mInData s) = Some true
   /\ inBulkFractionSum s < DBL_EPSILON
   /\ exists s1,
        flipModesOnInput s = Ret tt s1
        /\ mDemandMode (mOutData s1) = negb (mDemandMode (mInData s)))
  /\ (forall e st,
        processInputs s = Raise e st ->
        e = TsOutOfBoundsException
        /\ mDemandMode (mOutData st) = negb (mDemandMode (mInData s))
        /\ mNode st = mNode s
        /\ mFrameCount (mOutData st) = mFrameCount (mOutData s)).
Proof.
  pose proof (flipModesOnInput_outcome s) as Hflip.
  assert (Hraise : forall e st,
             processInputs s = Raise e st ->
             e = TsOutOfBoundsException
             /\ hasValidData (mInData s) = Some true
             /\ inBulkFractionSum s < DBL_EPSILON
             /\ (exists s1,
                   flipModesOnInput s = Ret tt s1
                   /\ mDemandMode (mOutData s1)
                      = negb (mDemandMode (mInData s)))
             /\ mDemandMode (mOutData st) = negb (mDemandMode (mInData s))
             /\ mNode st = mNode s
             /\ mFrameCount (mOutData st) = mFrameCount (mOutData s)).
  { intros e st. unfold processInputs, bind, run.
    destruct (flipModesOnInput s) as [[] s1| |];
      [|contradiction|discriminate].
    destruct Hflip as (Hi1 & Hn1 & _ & _ & _ & Hc1).
    pose proof (processInputsDemand_outcome s1) as Hdem.
    destruct (processInputsDemand s1) as [[] s2|e2 st2|]; try discriminate.
    - destruct Hdem as (Hi2 & Ho2 & _ & _ & Ht2 & _ & Hsame).
      pose proof (processInputsSupply_outcome s2) as Hsup.
      destruct (processInputsSupply s2) as [[] s3|e3 st3|]; try discriminate.
      destruct Hsup as (He & Hm & Hv & Hin & Hsum & Hn & Ho & _).
      intro H. inversion H; subst e3 st3. clear H.
      rewrite Ho2 in Hm. specialize (Hsame Hm). subst s2.
      rewrite (inBulkFractionSum_same s s1) in Hsum
        by (try rewrite Hn1; auto).
      rewrite Hi1 in Hv, Hin. rewrite Ho, Hm, Hin, Hn, Hn1, Hc1.
      repeat split; auto. exists s1. rewrite Hm. auto.
    - destruct Hdem as (He & Hm & Hv & Hin & Hsum & Hn & Ho).
      intro H. inversion H; subst e2 st2. clear H.
      rewrite (inBulkFractionSum_same s s1) in Hsum
        by (try rewrite Hn1; auto).
      rewrite Hi1 in Hv, Hin. rewrite Ho, Hm, Hin, Hn, Hn1, Hc1.
      repeat split; auto. exists s1. rewrite Hm. auto. }
  split; [split|].
  - intros (e & st & H).
    destruct (Hraise e st H) as (_ & Hv & Hsum & Hs1 & _). auto.
  - intros (Hvalid & Hsum & s1 & Hrun & Hmode).
    unfold processInputs, bind. rewrite Hrun. rewrite Hrun in Hflip.
    destruct Hflip as (Hi1 & Hn1 & _).
    rewrite <- (inBulkFractionSum_same s s1) in Hsum
      by (try rewrite Hn1; auto).
    rewrite <- Hi1 in Hvalid, Hmode.
    pose proof (processInputsDemand_outcome s1) as Hdem.
    destruct (processInputsDemand s1) as [[] s2|e2 st2|].
    + destruct Hdem as (Hi2 & Ho2 & _ & _ & Ht2 & Hge & Hsame).
      destruct (mDemandMode (mInData s1)) eqn:Hin; simpl in Hmode.
      * specialize (Hsame Hmode). subst s2.
        pose proof (processInputsSupply_outcome s1) as Hsup.
        destruct (processInputsSupply s1) as [[] s3|e3 st3|].
        -- destruct Hsup as (_ & _ & _ & _ & Hge3). exfalso.
           apply (Qlt_not_le _ _ Hsum). auto.
        -- eauto.
        -- congruence.
      * exfalso. apply (Qlt_not_le _ _ Hsum). auto.
    + eauto.
    + congruence.
  - intros e st H.
    destruct (Hraise e st H) as (He & _ & _ & _ & Hm & Hn & Hc). auto.
Qed.

(** C9, in the form that holds of the code: whenever [processInputs] does not throw (and the validity
    check reads within its arrays), it returns after it has incremented the
    outgoing frame count by 1 in the arithmetic of the counter, set the loop
    latency to the outgoing frame count minus the inbound loopback, and
    echoed the inbound frame count; if the inbound loopback is the frame
    count published by the previous call, the loop latency is 1. *)
Theorem C9_round_trip (s : GunnsFluidDistributedIf) :
  hasValidData (mInData s) <> None ->
  (forall st, processInputs s <> Raise TsOutOfBoundsException st) ->
  exists s',
    processInputs s = Ret tt s'
    /\ mFrameCount (mOutData s')
       = wrap_counter (mFrameCount (mOutData s) + 1)
    /\ ((0 <= mFrameCount (mOutData s) < counter_modulus - 1)%Z ->
        mFrameCount (mOutData s') = (mFrameCount (mOutData s) + 1)%Z)
    /\ mLoopLatency s'
       = to_int (wrap_counter (mFrameCount (mOutData s')
                               - mFrameLoopback (mInData s)))
    /\ mFrameLoopback (mOutData s') = mFrameCount (mInData s)
    /\ (mFrameLoopback (mInData s) = mFrameCount (mOutData s) ->
        (0 <= mFrameCount (mOutData s) < counter_modulus)%Z ->
        mLoopLatency s' = 1%Z).
Proof.
  intros Hdef Hno.
  pose proof (flipModesOnInput_outcome s) as Hflip.
  unfold processInputs, bind in *.
  destruct (flipModesOnInput s) as [[] s1| |]; [|contradiction|congruence].
  destruct Hflip as (Hi1 & Hn1 & _ & _ & _ & Hc1).
  pose proof (processInputsDemand_outcome s1) as Hdem.
  destruct (processInputsDemand s1) as [[] s2|e2 st2|].
  2:{ destruct Hdem as (-> & _). exfalso. apply (Hno st2). reflexivity. }
  2:{ congruence. }
  destruct Hdem as (Hi2 & Ho2 & _).
  pose proof (processInputsSupply_outcome s2) as Hsup.
  destruct (processInputsSupply s2) as [[] s3|e3 st3|].
  2:{ destruct Hsup as (-> & _). exfalso. apply (Hno st3). reflexivity. }
  2:{ congruence. }
  destruct Hsup as (Hi3 & Ho3 & _).
  destruct (updateFrameCounters_frame s3) as (F1 & F2 & F3 & _).
  unfold run. eexists. split; [reflexivity|].
  rewrite Ho3, Ho2, Hc1 in F1. rewrite Hi3, Hi2, Hi1 in F2, F3.
  split; [exact F1|].
  split.
  { intro Hrange. rewrite F1. unfold wrap_counter.
    apply Z.mod_small. lia. }
  split; [exact F2|].
  split; [exact F3|].
  intros Hecho Hrange. rewrite F2, F1, Hecho. now apply echo_latency.
Qed.

End Ingest.

Lemma C8_invalid_interface_data_witness :
  exists e st, @processInputs oneSpecies starvedSupplyLink = Raise e st.
Proof.
  destruct (@C8_invalid_interface_data oneSpecies starvedSupplyLink)
    as [[_ H] _].
  apply H. split; [reflexivity|]. split; [reflexivity|].
  exists (set_mInDataLastDemandMode true starvedSupplyLink).
  split; vm_compute; reflexivity.
Defined.

(** C8 as the design states it fails on a Supply side: the link is and stays in Supply
    mode, the valid Demand payload it receives has bulk fractions that sum
    to 0, and [processInputs] throws. *)
Lemma C8_counterexample :
  mDemandMode (mOutData starvedSupplyLink) = false
  /\ hasValidData (mInData starvedSupplyLink) = Some true
  /\ exists st,
       @processInputs oneSpecies starvedSupplyLink
       = Raise TsOutOfBoundsException st
       /\ mDemandMode (mOutData st) = false.
Proof.
  split; [reflexivity|]. split; [reflexivity|].
  eexists. split; [vm_compute; reflexivity|reflexivity].
Qed.

Lemma C9_round_trip_witness :
  exists s',
    @processInputs oneSpecies echoedLink = Ret tt s'
    /\ mFrameCount (mOutData s') = 42%Z
    /\ mLoopLatency s' = 1%Z.
Proof.
  destruct (@C9_round_trip oneSpecies echoedLink)
    as (s' & Hrun & _ & Hcount & _ & _ & Hecho).
  - vm_compute. discriminate.
  - intros st H. vm_compute in H. discriminate.
  - exists s'. split; [exact Hrun|].
    split; [apply Hcount; vm_compute; intuition discriminate|].
    apply Hecho; vm_compute; intuition discriminate.
Defined.

(** C9 as the design states it fails on a call that throws: the outgoing frame count
    stays at 0. *)
Lemma C9_counterexample :
  mFrameCount (mOutData starvedSupplyLink) = 0%Z
  /\ exists st,
       @processInputs oneSpecies starvedSupplyLink
       = Raise TsOutOfBoundsException st
       /\ mFrameCount (mOutData st) = 0%Z
       /\ mFrameCount (mOutData st)
          <> (mFrameCount (mOutData starvedSupplyLink) + 1)%Z.
Proof.
  split; [reflexivity|].
  eexists. split; [vm_compute; reflexivity|].
  split; [reflexivity|]. vm_compute. discriminate.
Qed.

(** ** Passes with an invalid inbound payload *)

Lemma same_inputs_refl (s : GunnsFluidDistributedIf) : same_inputs s s.
Proof. repeat split. Qed.

Lemma same_inputs_trans (s1 s2 s3 : GunnsFluidDistributedIf) :
  same_inputs s1 s2 -> same_inputs s2 s3 -> same_inputs s1 s3.
Proof.
  unfold same_inputs. intros (A1 & A2 & A3 & A4) (B1 & B2 & B3 & B4).
  repeat split; congruence.
Qed.

Lemma stepConductivity_same_inputs (dt : Q) (s : GunnsFluidDistributedIf) :
  same_inputs s (stepConductivity dt s).
Proof.
  unfold stepConductivity.
  destruct (mDemandMode (mOutData s) && Qlt_bool DBL_EPSILON dt);
    [|repeat split].
  destruct (Qlt_bool FLT_EPSILON (mCapacitance (mOutData s))
            && Qlt_bool FLT_EPSILON (mCapacitance (mInData s))); fields.
  - destruct (mDemandOption s); fields;
      destruct (mMalfBlockageFlag s); repeat split.
  - destruct (mMalfBlockageFlag s); repeat split.
Qed.

Lemma stepAdmittance_same_inputs (s : GunnsFluidDistributedIf) :
  same_inputs s (stepAdmittance s).
Proof.
  unfold stepAdmittance. destruct (Qlt_bool 0 (Qabs _)); repeat split.
Qed.

Lemma stepSuppliedCapacitance_same_inputs (dt : Q)
    (s : GunnsFluidDistributedIf) :
  same_inputs s (stepSuppliedCapacitance dt s).
Proof.
  unfold stepSuppliedCapacitance.
  destruct (mDemandMode (mOutData s)); repeat split.
Qed.

Lemma stepSource_same_inputs (s : GunnsFluidDistributedIf) :
  same_inputs s (stepSource s).
Proof. repeat split. Qed.

Lemma step_same_inputs (dt : Q) (s : GunnsFluidDistributedIf) :
  same_inputs s (step dt s).
Proof.
  unfold step.
  eapply same_inputs_trans; [apply stepConductivity_same_inputs|].
  eapply same_inputs_trans; [apply stepAdmittance_same_inputs|].
  eapply same_inputs_trans; [apply stepSuppliedCapacitance_same_inputs|].
  apply stepSource_same_inputs.
Qed.

Lemma solve_frame (p : Pass) (s : GunnsFluidDistributedIf) :
  same_inputs s (solve p s) /\ mOutData (solve p s) = mOutData s.
Proof. repeat split. Qed.

Lemma flipModesOnCapacitance_same_inputs (s : GunnsFluidDistributedIf) :
  same_inputs s (flipModesOnCapacitance s).
Proof.
  unfold flipModesOnCapacitance, flipToDemandMode.
  destruct (_ && _); [|repeat split].
  destruct (mForceSupplyMode s); repeat split.
Qed.

Lemma incrementFramesSinceFlip_same_inputs (s : GunnsFluidDistributedIf) :
  same_inputs s (incrementFramesSinceFlip s).
Proof. repeat split. Qed.

Section Passes.

Context {FM : FluidModel}.

Lemma processOutputs_same_inputs (s : GunnsFluidDistributedIf) :
  same_inputs s (processOutputs s).
Proof.
  unfold processOutputs.
  eapply same_inputs_trans; [|apply incrementFramesSinceFlip_same_inputs].
  destruct (mDemandMode (mOutData s)).
  - destruct (processOutputsDemand_frame s) as (_ & H1 & H2 & H3 & H4).
    repeat split; assumption.
  - eapply same_inputs_trans; [|apply flipModesOnCapacitance_same_inputs].
    destruct (processOutputsSupply_frame s)
      as (_ & _ & _ & _ & _ & _ & H1 & H2 & _ & H3 & H4).
    repeat split; assumption.
Qed.

Lemma processOutputs_stays_demand (s : GunnsFluidDistributedIf) :
  mDemandMode (mOutData s) = true ->
  mDemandMode (mOutData (processOutputs s)) = true.
Proof.
  intro Hmode. rewrite (processOutputs_demand s Hmode).
  destruct (processOutputsDemand_frame s) as (Hm & _). congruence.
Qed.




Lemma passes_app (ps : list Pass) (p : Pass) (s : GunnsFluidDistributedIf) :
  passes (ps ++ [p]) s = (passes ps ;;; pass p) s.
Proof.
  revert s. induction ps as [|q ps IH]; intro s; simpl.
  - unfold bind, ret. destruct (pass p s) as [[] ?| |]; reflexivity.
  - unfold bind in *. destruct (pass q s) as [[] s1| |]; auto.
Qed.



End Passes.



(** * Further properties of the code *)

(** ** The payload: sizes, copies and round trips *)


Lemma read_map_seq (f : nat -> Q) (n i : nat) :
  (i < n)%nat -> read (map f (seq 0 n)) i = f i.
Proof.
  intro H. unfold read.
  rewrite (nth_indep _ 0 (f O)) by (rewrite length_map, length_seq; exact H).
  rewrite map_nth, seq_nth by exact H. reflexivity.
Qed.

Lemma read_app_left (a b : list Q) (i : nat) :
  (i < length a)%nat -> read (a ++ b) i = read a i.
Proof. intro H. unfold read. now rewrite app_nth1. Qed.


Lemma map_read_seq (a : list Q) : map (read a) (seq 0 (length a)) = a.
Proof.
  induction a as [|x a IH]; [reflexivity|].
  simpl length. rewrite <- cons_seq, <- seq_shift. simpl.
  rewrite map_map. unfold read at 1. simpl. f_equal. exact IH.
Qed.

Lemma map_read_seq_ext (a b : list Q) (n : nat) :
  (forall i, (i < n)%nat -> read a i = read b i) ->
  map (read a) (seq 0 n) = map (read b) (seq 0 n).
Proof.
  intro H. apply map_ext_in. intros i Hi. apply in_seq in Hi. apply H. lia.
Qed.

(** X1: for every choice of sizes, [initialize] on a default-constructed
    payload leaves arrays of exactly the interface sizes, filled with zeroes,
    common sizes that are the smaller of the network and interface sizes,
    and a payload that [hasValidData] rejects. *)
Theorem X1_initialize_fresh_payload (nFluids nTc : nat) (override : bool)
    (nIfFluids nIfTc : nat) :
  let d := IfData_initialize nFluids nTc override nIfFluids nIfTc
             IfData_default in
  IfData_sized d
  /\ mMoleFractions d = repeat 0 (mNumFluidIf d)
  /\ mTcMoleFractions d = repeat 0 (mNumTcIf d)
  /\ mNumFluid d = nFluids /\ mNumTc d = nTc
  /\ mNumFluidIf d = (if override then nIfFluids else nFluids)
  /\ mNumTcIf d = (if override then nIfTc else nTc)
  /\ hasValidData d = Some false.
Proof.
  cbv zeta. unfold IfData_sized, IfData_initialize, IfData_default.
  cbn [mMoleFractions mTcMoleFractions mNumFluid mNumTc mNumFluidIf mNumTcIf
       mNumFluidCommon mNumTcCommon].
  set (nf := if override then nIfFluids else nFluids).
  set (nt := if override then nIfTc else nTc).
  assert (Hf : (if (0 <? nf)%nat then repeat 0 nf else []) = repeat 0 nf).
  { destruct nf; reflexivity. }
  assert (Ht : (if (0 <? nt)%nat then repeat 0 nt else []) = repeat 0 nt).
  { destruct nt; reflexivity. }
  rewrite Hf, Ht, !repeat_length.
  repeat split.
Qed.

(** X2: on a sized payload, reading the bulk fractions back after writing
    them gives the entries that the network and the interface have in
    common, followed by zeroes up to the size of the network; when the
    interface is at least as wide as the network, it gives back the array
    that was written. *)
Theorem X2_mole_fractions_round_trip (fractions : list Q)
    (d : GunnsFluidDistributedIfData) :
  IfData_sized d ->
  getMoleFractions (setMoleFractions fractions d)
  = map (read fractions) (seq 0 (mNumFluidCommon d))
    ++ repeat 0 (mNumFluid d - mNumFluidCommon d)
  /\ ((mNumFluid d <= mNumFluidIf d)%nat ->
      length fractions = mNumFluid d ->
      getMoleFractions (setMoleFractions fractions d) = fractions).
Proof.
  intros (Hlen & _ & Hcommon & _).
  assert (E : getMoleFractions (setMoleFractions fractions d)
              = map (read fractions) (seq 0 (mNumFluidCommon d))
                ++ repeat 0 (mNumFluid d - mNumFluidCommon d)).
  { unfold getMoleFractions, setMoleFractions, set_mMoleFractions.
    cbn [mMoleFractions mNumFluid mNumFluidCommon].
    f_equal. apply map_read_seq_ext. intros i Hi.
    rewrite read_app_left by (rewrite length_map, length_seq; exact Hi).
    now apply read_map_seq. }
  split; [exact E|].
  intros Hwide Hf. rewrite E, Hcommon, Nat.min_l by exact Hwide.
  rewrite Nat.sub_diag, app_nil_r, <- Hf. apply map_read_seq.
Qed.

Lemma X2_mole_fractions_round_trip_witness :
  getMoleFractions (setMoleFractions [1 # 5; 4 # 5] widerPayload)
  = [1 # 5; 4 # 5].
Proof.
  apply (X2_mole_fractions_round_trip [1 # 5; 4 # 5] widerPayload).
  - vm_compute. repeat split.
  - vm_compute. lia.
  - reflexivity.
Defined.



Lemma copyEntries_spec (n : nat) (dst src r : list Q) :
  copyEntries n dst src = Some r <->
  (n <= length dst)%nat /\ (n <= length src)%nat
  /\ r = firstn n src ++ skipn n dst.
Proof.
  revert dst src r. induction n as [|n IH]; intros dst src r; simpl.
  - split.
    + intro H. inversion H. repeat split; lia.
    + intros (_ & _ & ->). reflexivity.
  - destruct dst as [|x dst]; simpl.
    { split; [discriminate | intros (H & _); lia]. }
    destruct src as [|y src]; simpl.
    { split; [discriminate | intros (_ & H & _); lia]. }
    destruct (copyEntries n dst src) as [r'|] eqn:E; simpl.
    + apply IH in E. destruct E as (H1 & H2 & ->).
      split.
      * intro H. inversion H. repeat split; lia.
      * intros (_ & _ & ->). reflexivity.
    + split; [discriminate|]. intros (H1 & H2 & _).
      assert (copyEntries n dst src = Some (firstn n src ++ skipn n dst))
        by (apply IH; repeat split; lia).
      congruence.
Qed.

Lemma findNegative_copied (n : nat) (src rest : list Q) :
  (n <= length src)%nat ->
  findNegative n (firstn n src ++ rest) = findNegative n src.
Proof.
  revert src. induction n as [|n IH]; intros src H; [reflexivity|].
  destruct src as [|x src]; simpl in *; [lia|].
  destruct (Qlt_bool x 0); [reflexivity|]. apply IH. lia.
Qed.

(** X4: an assignment between two payloads whose arrays hold at least
    [mNumFluid] and [mNumTc] entries copies the scalars and the first
    [mNumFluid] bulk and [mNumTc] trace fractions, keeps the sizes and the
    later entries of the object assigned to, and, between payloads of the
    same network sizes, carries the verdict of [hasValidData] over. *)
Theorem X4_assignment_copies (this that : GunnsFluidDistributedIfData) :
  (mNumFluid this <= length (mMoleFractions this))%nat ->
  (mNumFluid this <= length (mMoleFractions that))%nat ->
  (mNumTc this <= length (mTcMoleFractions this))%nat ->
  (mNumTc this <= length (mTcMoleFractions that))%nat ->
  exists d,
    IfData_assign this that = Some d
    /\ mFrameCount d = mFrameCount that
    /\ mFrameLoopback d = mFrameLoopback that
    /\ mDemandMode d = mDemandMode that
    /\ mCapacitance d = mCapacitance that
    /\ mSource d = mSource that
    /\ mEnergy d = mEnergy that
    /\ mMoleFractions d
       = firstn (mNumFluid this) (mMoleFractions that)
         ++ skipn (mNumFluid this) (mMoleFractions this)
    /\ mTcMoleFractions d
       = firstn (mNumTc this) (mTcMoleFractions that)
         ++ skipn (mNumTc this) (mTcMoleFractions this)
    /\ length (mMoleFractions d) = length (mMoleFractions this)
    /\ length (mTcMoleFractions d) = length (mTcMoleFractions this)
    /\ mNumFluid d = mNumFluid this /\ mNumTc d = mNumTc this
    /\ mNumFluidIf d = mNumFluidIf this /\ mNumTcIf d = mNumTcIf this
    /\ (mNumFluid that = mNumFluid this -> mNumTc that = mNumTc this ->
        hasValidData d = hasValidData that).
Proof.
  intros H1 H2 H3 H4. unfold IfData_assign.
  assert (E1 : copyEntries (mNumFluid this) (mMoleFractions this)
                 (mMoleFractions that)
               = Some (firstn (mNumFluid this) (mMoleFractions that)
                       ++ skipn (mNumFluid this) (mMoleFractions this)))
    by (apply copyEntries_spec; auto).
  assert (E2 : copyEntries (mNumTc this) (mTcMoleFractions this)
                 (mTcMoleFractions that)
               = Some (firstn (mNumTc this) (mTcMoleFractions that)
                       ++ skipn (mNumTc this) (mTcMoleFractions this)))
    by (apply copyEntries_spec; auto).
  rewrite E1, E2. eexists. split; [reflexivity|].
  cbn [mFrameCount mFrameLoopback mDemandMode mCapacitance mSource mEnergy
       mMoleFractions mTcMoleFractions mNumFluid mNumTc mNumFluidIf mNumTcIf].
  do 8 (split; [reflexivity|]).
  split.
  { rewrite length_app, length_firstn, length_skipn. lia. }
  split.
  { rewrite length_app, length_firstn, length_skipn. lia. }
  do 4 (split; [reflexivity|]).
  intros Hf Ht. unfold hasValidData.
  cbn [mFrameCount mCapacitance mSource mEnergy mDemandMode mMoleFractions
       mTcMoleFractions mNumFluid mNumTc].
  rewrite !findNegative_copied by assumption.
  rewrite Hf, Ht. reflexivity.
Qed.

Lemma X4_assignment_copies_witness :
  exists d,
    IfData_assign widerPayload widerPublished = Some d
    /\ hasValidData d = Some true.
Proof.
  destruct (X4_assignment_copies widerPayload widerPublished)
    as (d & Hrun & H); try (vm_compute; lia).
  exists d. split; [exact Hrun|].
  destruct H as (_ & _ & _ & _ & _ & _ & _ & _ & _ & _ & _ & _ & _ & _ & H).
  rewrite H; reflexivity.
Defined.

(** X5: between sized payloads of the same sizes, the assignment stays
    within the arrays exactly when the interface is at least as wide as the
    network, for the bulk fractions and for the trace compounds; with a
    narrower interface it writes past the end of an array. *)
Theorem X5_assignment_bounds (this that : GunnsFluidDistributedIfData) :
  IfData_sized this -> IfData_sized that ->
  mNumFluidIf that = mNumFluidIf this -> mNumTcIf that = mNumTcIf this ->
  (IfData_assign this that = None <->
   (mNumFluidIf this < mNumFluid this)%nat
   \/ (mNumTcIf this < mNumTc this)%nat).
Proof.
  intros (L1 & L2 & _) (L3 & L4 & _) Hf Ht. unfold IfData_assign.
  destruct (copyEntries (mNumFluid this) (mMoleFractions this)
              (mMoleFractions that)) as [r1|] eqn:E1.
  - apply copyEntries_spec in E1. destruct E1 as (A1 & A2 & _).
    destruct (copyEntries (mNumTc this) (mTcMoleFractions this)
                (mTcMoleFractions that)) as [r2|] eqn:E2.
    + apply copyEntries_spec in E2. destruct E2 as (B1 & B2 & _).
      split; [discriminate|]. intros [H|H]; lia.
    + split; [|reflexivity]. intros _. right.
      destruct (Nat.lt_ge_cases (mNumTcIf this) (mNumTc this)) as [H|H];
        [exact H|].
      assert (copyEntries (mNumTc this) (mTcMoleFractions this)
                (mTcMoleFractions that)
              = Some (firstn (mNumTc this) (mTcMoleFractions that)
                      ++ skipn (mNumTc this) (mTcMoleFractions this)))
        by (apply copyEntries_spec; repeat split; lia).
      congruence.
  - split; [|reflexivity]. intros _. left.
    destruct (Nat.lt_ge_cases (mNumFluidIf this) (mNumFluid this)) as [H|H];
      [exact H|].
    assert (copyEntries (mNumFluid this) (mMoleFractions this)
              (mMoleFractions that)
            = Some (firstn (mNumFluid this) (mMoleFractions that)
                    ++ skipn (mNumFluid this) (mMoleFractions this)))
      by (apply copyEntries_spec; repeat split; lia).
    congruence.
Qed.

Lemma X5_assignment_bounds_witness :
  IfData_assign narrowPayload narrowPayload = None.
Proof.
  apply (X5_assignment_bounds narrowPayload narrowPayload);
    try reflexivity; try (vm_compute; repeat split).
  left. vm_compute. lia.
Defined.

(** ** More of [step] *)

Lemma limitRange_bounds (lower x upper : Q) :
  lower <= limitRange lower x upper
  /\ (lower <= upper -> limitRange lower x upper <= upper)
  /\ (lower <= x -> x <= upper -> limitRange lower x upper = x)
  /\ (lower <= upper -> upper <= x -> limitRange lower x upper == upper).
Proof.
  unfold limitRange.
  destruct (std_min_cases x upper) as [[H1 E1]|[H1 E1]]; rewrite E1;
    [destruct (std_max_cases upper lower) as [[H2 E2]|[H2 E2]]
    |destruct (std_max_cases x lower) as [[H2 E2]|[H2 E2]]];
    rewrite E2; repeat split; intros; try lra.
Qed.

Lemma Qabs_self_difference (x : Q) : Qlt_bool 0 (Qabs (x - x)) = false.
Proof.
  apply Qlt_bool_false_iff.
  assert (E : x - x == 0) by ring. rewrite E. discriminate.
Qed.

(** X6: with a time step of at most [DBL_EPSILON], [step] stamps nothing in
    either mode: the effective conductivity is 0, the admittance and the
    supplied capacitance are zero, the source vector is the demand flux, and
    the demand flux gain keeps its value. *)
Theorem X6_step_without_time (dt : Q) (s : GunnsFluidDistributedIf) :
  dt <= DBL_EPSILON ->
  mEffectiveConductivity (step dt s) = 0
  /\ mAdmittanceMatrix (step dt s) == 0
  /\ mSuppliedCapacitance (step dt s) == 0
  /\ mSourceVector (step dt s) == mDemandFlux s
  /\ mDemandFluxGain (step dt s) = mDemandFluxGain s.
Proof.
  intro Hdt. apply Qlt_bool_false_iff in Hdt.
  destruct (step_stamp dt s) as (_ & He & Hg & Ha & Hs & Hv).
  assert (Heff : mEffectiveConductivity (step dt s) = 0).
  { rewrite He. unfold stepConductivity. rewrite Hdt, andb_false_r.
    reflexivity. }
  assert (Hadm : mAdmittanceMatrix (step dt s) == 0).
  { rewrite Ha, Heff. now apply limitRange_at_lower. }
  split; [exact Heff|]. split; [exact Hadm|].
  split.
  { rewrite Hs. destruct (mDemandMode (mOutData s)); [|reflexivity].
    rewrite Hadm. ring. }
  split.
  { rewrite Hv, Hadm. ring. }
  rewrite Hg. unfold stepConductivity. rewrite Hdt, andb_false_r.
  reflexivity.
Qed.

Lemma X6_step_without_time_witness :
  mAdmittanceMatrix (step 0 demandLink8) == 0.
Proof.
  apply (X6_step_without_time 0 demandLink8). vm_compute. discriminate.
Defined.

(** X7: in Demand mode with [dt > DBL_EPSILON], when the outgoing or the
    incoming capacitance is not above [FLT_EPSILON] the latency filter is
    bypassed: the demand flux gain is 1 and the effective conductivity is
    the incoming capacitance over [dt], scaled by the blockage malfunction
    when it is active. *)
Theorem X7_step_small_capacitance (dt : Q) (s : GunnsFluidDistributedIf) :
  mDemandMode (mOutData s) = true ->
  DBL_EPSILON < dt ->
  mCapacitance (mOutData s) <= FLT_EPSILON
  \/ mCapacitance (mInData s) <= FLT_EPSILON ->
  mDemandFluxGain (step dt s) = 1
  /\ mEffectiveConductivity (step dt s)
     = (if mMalfBlockageFlag s
        then 1 * mCapacitance (mInData s) / dt * (1 - mMalfBlockageValue s)
        else 1 * mCapacitance (mInData s) / dt).
Proof.
  intros Hmode Hdt Hcap. apply Qlt_bool_iff in Hdt.
  assert (Hsmall : Qlt_bool FLT_EPSILON (mCapacitance (mOutData s))
                   && Qlt_bool FLT_EPSILON (mCapacitance (mInData s))
                   = false).
  { destruct Hcap as [H|H]; apply Qlt_bool_false_iff in H; rewrite H;
      [reflexivity | apply andb_false_r]. }
  destruct (step_stamp dt s) as (_ & He & Hg & _).
  rewrite He, Hg. unfold stepConductivity.
  rewrite Hmode, Hdt, Hsmall. fields.
  destruct (mMalfBlockageFlag s); fields; split; reflexivity.
Qed.

Lemma X7_step_small_capacitance_witness :
  mDemandFluxGain (step 1 (flipToDemandMode link0)) = 1.
Proof.
  apply (X7_step_small_capacitance 1 (flipToDemandMode link0)).
  - reflexivity.
  - reflexivity.
  - left. vm_compute. discriminate.
Defined.

(** X8: the admittance that [step] stamps is never negative, whatever the
    gain, the capacitances and the blockage value, and it never exceeds a
    conductance limit that is not negative; in Demand mode the supplied
    capacitance is that admittance times [dt]. *)
Theorem X8_step_admittance_bounds (dt : Q) (s : GunnsFluidDistributedIf) :
  0 <= mAdmittanceMatrix (step dt s)
  /\ (0 <= mConductanceLimit s ->
      mAdmittanceMatrix (step dt s) <= mConductanceLimit s)
  /\ (mDemandMode (mOutData s) = true ->
      mSuppliedCapacitance (step dt s) = mAdmittanceMatrix (step dt s) * dt)
  /\ (0 <= dt -> 0 <= mSuppliedCapacitance (step dt s)).
Proof.
  destruct (step_stamp dt s) as (_ & _ & _ & Ha & Hs & _).
  destruct (limitRange_bounds 0 (mEffectiveConductivity (step dt s))
              (mConductanceLimit s)) as (B1 & B2 & _).
  assert (Hpos : 0 <= mAdmittanceMatrix (step dt s)) by (rewrite Ha; exact B1).
  split; [exact Hpos|].
  split; [intro H; rewrite Ha; auto|].
  split.
  { intro Hmode. rewrite Hs, Hmode. reflexivity. }
  intro Hdt. rewrite Hs. destruct (mDemandMode (mOutData s)).
  - apply Qmult_le_0_compat; assumption.
  - apply Qle_refl.
Qed.

Lemma X8_step_admittance_bounds_witness :
  mAdmittanceMatrix (step 1 blockedDemandLink)
  <= mConductanceLimit blockedDemandLink.
Proof.
  destruct (X8_step_admittance_bounds 1 blockedDemandLink) as (_ & H & _).
  apply H. vm_compute. discriminate.
Defined.

(** X9: in Demand mode with [dt > DBL_EPSILON], both capacitances above
    [FLT_EPSILON], filter constants that are not negative and a moding
    capacitance ratio between 1 and 1.25, the demand flux gain lies between
    the latency limit [min(1, A B^n)] and 1; with the ratio at 1.25 it is 1
    as soon as the incoming capacitance is 1.25 times the outgoing one. *)
Theorem X9_demand_flux_gain_bounds (dt : Q) (s : GunnsFluidDistributedIf) :
  mDemandMode (mOutData s) = true ->
  DBL_EPSILON < dt ->
  FLT_EPSILON < mCapacitance (mOutData s) ->
  FLT_EPSILON < mCapacitance (mInData s) ->
  0 <= mDemandFilterConstA s ->
  0 <= mDemandFilterConstB s ->
  1 <= mModingCapacitanceRatio s ->
  mModingCapacitanceRatio s <= 5 # 4 ->
  0 <= law_gLimit (mDemandFilterConstA s) (mDemandFilterConstB s)
         (law_n (mLoopLatency s))
  /\ law_gLimit (mDemandFilterConstA s) (mDemandFilterConstB s)
       (law_n (mLoopLatency s))
     <= mDemandFluxGain (step dt s)
  /\ mDemandFluxGain (step dt s) <= 1
  /\ (mModingCapacitanceRatio s == 5 # 4 ->
      (5 # 4) * mCapacitance (mOutData s) <= mCapacitance (mInData s) ->
      mDemandFluxGain (step dt s) == 1).
Proof.
  intros Hmode Hdt Hcd Hcs HA HB Hr1 Hr2.
  assert (Hpos : 0 < mCapacitance (mOutData s))
    by (apply Qlt_trans with (2 := Hcd); reflexivity).
  apply Qlt_bool_iff in Hdt, Hcd, Hcs.
  destruct (step_stamp dt s) as (_ & _ & Hg & _).
  assert (Hgain : mDemandFluxGain (step dt s) = link_law_gain s).
  { rewrite Hg. unfold stepConductivity. rewrite Hmode, Hdt, Hcd, Hcs. fields.
    unfold link_law_gain, law_gain, law_gLimit, law_n, law_r, powf.
    destruct (mDemandOption s); fields;
      destruct (mMalfBlockageFlag s); fields; reflexivity. }
  rewrite Hgain. unfold link_law_gain, law_gain.
  set (g := law_gLimit (mDemandFilterConstA s) (mDemandFilterConstB s)
              (law_n (mLoopLatency s))).
  unfold law_r.
  set (r := limitRange 1
              (mCapacitance (mInData s) / mCapacitance (mOutData s))
              (mModingCapacitanceRatio s)).
  assert (Hg0 : 0 <= g /\ g <= 1).
  { unfold g, law_gLimit.
    assert (0 <= mDemandFilterConstA s
                 * mDemandFilterConstB s ^ law_n (mLoopLatency s)).
    { apply Qmult_le_0_compat; [exact HA|]. now apply Qpower_0_le. }
    destruct (std_min_cases 1
                (mDemandFilterConstA s
                 * mDemandFilterConstB s ^ law_n (mLoopLatency s)))
      as [[H1 E]|[H1 E]]; rewrite E; split; lra. }
  destruct (limitRange_bounds 1
              (mCapacitance (mInData s) / mCapacitance (mOutData s))
              (mModingCapacitanceRatio s)) as (R1 & R2 & _ & R4).
  fold r in R1, R2, R4. specialize (R2 Hr1).
  destruct Hg0 as [G0 G1].
  split; [exact G0|].
  assert (P : 0 <= (1 - g) * (r - 1)).
  { apply Qmult_le_0_compat; lra. }
  assert (Q : (1 - g) * (r - 1) <= (1 - g) * (1 # 4)).
  { rewrite !(Qmult_comm (1 - g)). apply Qmult_le_compat_r; lra. }
  split; [lra|]. split; [lra|].
  intros Hr Hbig.
  assert (E : r == 5 # 4).
  { rewrite <- Hr. apply R4; [exact Hr1|].
    apply Qle_shift_div_l; [exact Hpos|]. rewrite Hr. exact Hbig. }
  rewrite E. ring.
Qed.

Lemma X9_demand_flux_gain_bounds_witness :
  mDemandFluxGain (step 1 demandLink8) <= 1.
Proof.
  apply (X9_demand_flux_gain_bounds 1 demandLink8);
    vm_compute; first [reflexivity | discriminate].
Defined.

Lemma stepConductivity_shape (dt : Q) (s : GunnsFluidDistributedIf) :
  stepConductivity dt s
  = set_mEffectiveConductivity
      (mEffectiveConductivity (stepConductivity dt s))
      (set_mDemandFluxGain (mDemandFluxGain (stepConductivity dt s)) s).
Proof.
  unfold stepConductivity.
  destruct (mDemandMode (mOutData s) && Qlt_bool DBL_EPSILON dt).
  - destruct (Qlt_bool FLT_EPSILON (mCapacitance (mOutData s))
              && Qlt_bool FLT_EPSILON (mCapacitance (mInData s))); fields.
    + destruct (mDemandOption s); fields;
        destruct (mMalfBlockageFlag s); fields; reflexivity.
    + destruct (mMalfBlockageFlag s); fields; reflexivity.
  - destruct s; reflexivity.
Qed.

(** The inputs of the first block of [step]. *)
Lemma stepConductivity_inputs (dt : Q) (x s : GunnsFluidDistributedIf) :
  mOutData x = mOutData s -> mInData x = mInData s ->
  mModingCapacitanceRatio x = mModingCapacitanceRatio s ->
  mLoopLatency x = mLoopLatency s ->
  mDemandFilterConstA x = mDemandFilterConstA s ->
  mDemandFilterConstB x = mDemandFilterConstB s ->
  mDemandOption x = mDemandOption s ->
  mMalfBlockageFlag x = mMalfBlockageFlag s ->
  mMalfBlockageValue x = mMalfBlockageValue s ->
  mDemandFluxGain x = mDemandFluxGain (stepConductivity dt s) ->
  mEffectiveConductivity (stepConductivity dt x)
  = mEffectiveConductivity (stepConductivity dt s)
  /\ mDemandFluxGain (stepConductivity dt x)
     = mDemandFluxGain (stepConductivity dt s).
Proof.
  intros H1 H2 H3 H4 H5 H6 H7 H8 H9 H10. revert H10.
  destruct x, s.
  fields_in H1. fields_in H2. fields_in H3. fields_in H4. fields_in H5.
  fields_in H6. fields_in H7. fields_in H8. fields_in H9. subst.
  unfold stepConductivity. fields.
  match goal with
  | |- context [if ?b then _ else _] => destruct b
  end; [intros _|intro H10; split; [reflexivity|exact H10]].
  repeat match goal with
         | |- context [if ?b then _ else _] =>
             lazymatch b with
             | context [if _ then _ else _] => fail
             | _ => destruct b; fields
             end
         end; split; reflexivity.
Qed.

Lemma same_step_inputs_trans (s1 s2 s3 : GunnsFluidDistributedIf) :
  same_step_inputs s1 s2 -> same_step_inputs s2 s3 ->
  same_step_inputs s1 s3.
Proof.
  unfold same_step_inputs.
  intros (A1 & A2 & A3 & A4 & A5 & A6 & A7 & A8 & A9 & A10)
         (B1 & B2 & B3 & B4 & B5 & B6 & B7 & B8 & B9 & B10).
  repeat split; congruence.
Qed.

Lemma stepConductivity_same_step_inputs (dt : Q)
    (s : GunnsFluidDistributedIf) :
  same_step_inputs s (stepConductivity dt s).
Proof.
  rewrite stepConductivity_shape.
  generalize (mEffectiveConductivity (stepConductivity dt s)).
  generalize (mDemandFluxGain (stepConductivity dt s)).
  intros g e. repeat split.
Qed.

Lemma stepAdmittance_same_step_inputs (s : GunnsFluidDistributedIf) :
  same_step_inputs s (stepAdmittance s).
Proof.
  unfold stepAdmittance. destruct (Qlt_bool 0 (Qabs _)); repeat split.
Qed.

Lemma stepSuppliedCapacitance_same_step_inputs (dt : Q)
    (s : GunnsFluidDistributedIf) :
  same_step_inputs s (stepSuppliedCapacitance dt s).
Proof.
  unfold stepSuppliedCapacitance.
  destruct (mDemandMode (mOutData s)); repeat split.
Qed.

Lemma stepSource_same_step_inputs (s : GunnsFluidDistributedIf) :
  same_step_inputs s (stepSource s)
  /\ nNetworkCapacitanceRequest (mNode (stepSource s))
     = mNetworkCapacitanceFlux.
Proof. repeat split. Qed.

Lemma step_same_step_inputs (dt : Q) (s : GunnsFluidDistributedIf) :
  same_step_inputs s (step dt s)
  /\ nNetworkCapacitanceRequest (mNode (step dt s))
     = mNetworkCapacitanceFlux.
Proof.
  unfold step. split; [|apply stepSource_same_step_inputs].
  eapply same_step_inputs_trans;
    [apply stepConductivity_same_step_inputs|].
  eapply same_step_inputs_trans; [apply stepAdmittance_same_step_inputs|].
  eapply same_step_inputs_trans;
    [apply stepSuppliedCapacitance_same_step_inputs|].
  apply stepSource_same_step_inputs.
Qed.

Lemma stepConductivity_fixed (dt : Q) (x : GunnsFluidDistributedIf) :
  mEffectiveConductivity (stepConductivity dt x) = mEffectiveConductivity x ->
  mDemandFluxGain (stepConductivity dt x) = mDemandFluxGain x ->
  stepConductivity dt x = x.
Proof.
  intros He Hg. rewrite stepConductivity_shape, He, Hg.
  destruct x; reflexivity.
Qed.

Lemma stepAdmittance_fixed (x : GunnsFluidDistributedIf) :
  Qlt_bool 0
    (Qabs (mAdmittanceMatrix x
           - limitRange 0 (mEffectiveConductivity x) (mConductanceLimit x)))
  = false ->
  stepAdmittance x = x.
Proof. intro H. unfold stepAdmittance. rewrite H. reflexivity. Qed.

Lemma stepAdmittance_settled (x : GunnsFluidDistributedIf) :
  Qlt_bool 0
    (Qabs (mAdmittanceMatrix (stepAdmittance x)
           - limitRange 0 (mEffectiveConductivity x) (mConductanceLimit x)))
  = false.
Proof.
  unfold stepAdmittance.
  destruct (Qlt_bool 0
              (Qabs (mAdmittanceMatrix x
                     - limitRange 0 (mEffectiveConductivity x)
                         (mConductanceLimit x)))) eqn:T; fields;
    [apply Qabs_self_difference | exact T].
Qed.

Lemma stepSuppliedCapacitance_fixed (dt : Q) (x : GunnsFluidDistributedIf) :
  mSuppliedCapacitance x
  = (if mDemandMode (mOutData x) then mAdmittanceMatrix x * dt else 0) ->
  stepSuppliedCapacitance dt x = x.
Proof.
  intro H. unfold stepSuppliedCapacitance.
  destruct (mDemandMode (mOutData x)); rewrite <- H; destruct x; reflexivity.
Qed.

Lemma stepSource_fixed (x : GunnsFluidDistributedIf) :
  mSourceVector x
  = mSourcePressure x * mAdmittanceMatrix x + mDemandFlux x ->
  nNetworkCapacitanceRequest (mNode x) = mNetworkCapacitanceFlux ->
  stepSource x = x.
Proof.
  intros H1 H2. unfold stepSource. rewrite <- H1. fields. rewrite <- H2.
  destruct x as [? ? ? ? ? ? ? ? ? ? ? ? ? ? ? ? ? ? ? ? ? ? ? ? ? ? ? ? ? ?
                 ? ? ? n ?].
  destruct n. reflexivity.
Qed.

(** X10: [step] is idempotent: a second call with the same time step, with
    no processing of inputs in between, leaves the link exactly as the
    first call left it, so it flags no further admittance update. *)
Theorem X10_step_idempotent (dt : Q) (s : GunnsFluidDistributedIf) :
  step dt (step dt s) = step dt s.
Proof.
  destruct (step_stamp dt s) as (Ho & He & Hg & _ & Hs & Hv).
  destruct (step_same_step_inputs dt s)
    as ((I1 & I2 & I3 & I4 & I5 & I6 & I7 & I8 & I9 & I10) & Hreq).
  destruct (step_same_inputs dt s) as (_ & _ & Hsp & Hfl).
  assert (Hadm : Qlt_bool 0
                   (Qabs (mAdmittanceMatrix (step dt s)
                          - limitRange 0 (mEffectiveConductivity (step dt s))
                              (mConductanceLimit (step dt s))))
                 = false).
  { rewrite He, I10. unfold step.
    destruct (stepConductivity_same_step_inputs dt s)
      as (_ & _ & _ & _ & _ & _ & _ & _ & _ & L).
    destruct (stepSource_frame
                (stepSuppliedCapacitance dt
                   (stepAdmittance (stepConductivity dt s))))
      as (_ & _ & _ & V4 & _).
    destruct (stepSuppliedCapacitance_frame dt
                (stepAdmittance (stepConductivity dt s)))
      as (_ & _ & _ & _ & _ & S6 & _).
    rewrite V4, S6, <- L. apply stepAdmittance_settled. }
  destruct (stepConductivity_inputs dt (step dt s) s I1 I2 I3 I4 I5 I6 I7 I8
              I9 Hg) as (A & B).
  unfold step at 1.
  rewrite stepConductivity_fixed by congruence.
  rewrite stepAdmittance_fixed by exact Hadm.
  rewrite stepSuppliedCapacitance_fixed by (rewrite Hs, Ho; reflexivity).
  apply stepSource_fixed; [|exact Hreq].
  rewrite Hv, Hsp, Hfl. reflexivity.
Qed.

(** ** More of the mode arbitration *)

(** X11: with no force flag set, a flip to Demand mode followed by a flip
    back to Supply mode asks the capacitor to restore exactly the volume
    that the node had before the first flip, leaves [mSupplyVolume] at 0,
    and leaves the outgoing payload as it was, in Supply mode. *)
Theorem X11_flip_round_trip (s : GunnsFluidDistributedIf) :
  mForceDemandMode s = false ->
  mForceSupplyMode s = false ->
  mCapacitorLink (flipToDemandMode s) = mkCapacitor true 0
  /\ mSupplyVolume (flipToDemandMode s) = nVolume (mNode s)
  /\ mCapacitorLink (flipToSupplyMode (flipToDemandMode s))
     = mkCapacitor true (nVolume (mNode s))
  /\ mSupplyVolume (flipToSupplyMode (flipToDemandMode s)) = 0
  /\ mFramesSinceFlip (flipToSupplyMode (flipToDemandMode s)) = 0%Z
  /\ mOutData (flipToSupplyMode (flipToDemandMode s))
     = set_mDemandMode false (mOutData s).
Proof.
  intros Hfd Hfs. unfold flipToSupplyMode, flipToDemandMode.
  rewrite Hfs. fields. rewrite Hfd. fields.
  destruct (mOutData s). repeat split.
Qed.

Lemma X11_flip_round_trip_witness :
  mCapacitorLink (flipToSupplyMode (flipToDemandMode link0))
  = mkCapacitor true 2.
Proof.
  apply (X11_flip_round_trip link0); reflexivity.
Defined.

(** X12: with no force flag set, the arbitration on incoming data settles
    in one call: [flipModesOnInput] run again on the same payload leaves the
    link as the first call left it, so one payload causes at most one
    flip. *)
Theorem X12_arbitration_settles (s : GunnsFluidDistributedIf) (valid : bool) :
  mForceDemandMode s = false ->
  mForceSupplyMode s = false ->
  hasValidData (mInData s) = Some valid ->
  exists s1,
    flipModesOnInput s = Ret tt s1
    /\ flipModesOnInput s1 = Ret tt s1.
Proof.
  intros Hfd Hfs Hvalid.
  destruct s as [i o ? ? ? ? ? ? ? fd fs last ? ? ? ? ? ? ? ? ? ? ? ? ? ? ? ?
                 ? ? ? ? ? ? ?].
  fields_in Hfd. fields_in Hfs. fields_in Hvalid. subst fd fs.
  unfold flipModesOnInput, bind, defined, run, ret, flipToSupplyMode,
    flipToDemandMode.
  fields. rewrite Hvalid. fields.
  destruct valid.
  2:{ eexists. split; [reflexivity|]. fields. rewrite Hvalid. reflexivity. }
  destruct o as [? ? od oc ? ? ? ? ? ? ? ? ? ?]. fields.
  remember (mDemandMode i) as id eqn:Eid.
  remember (Qlt_bool oc (mCapacitance i)
            || mIsPairMaster0 && Qeq_bool oc (mCapacitance i)) as c eqn:Ec.
  destruct id, od, last, c; fields;
    (eexists; split; [reflexivity|]); fields;
    rewrite Hvalid, <- ?Eid; fields; rewrite <- ?Eid, <- ?Ec; fields;
    rewrite <- ?Eid; fields_by_value; reflexivity.
Qed.

Lemma X12_arbitration_settles_witness :
  exists s1,
    flipModesOnInput masterLink = Ret tt s1
    /\ flipModesOnInput s1 = Ret tt s1.
Proof.
  apply (X12_arbitration_settles masterLink true); reflexivity.
Defined.

Lemma flipModesOnInput_forced (s s1 : GunnsFluidDistributedIf) :
  state_of (flipModesOnInput s) = Some s1 ->
  (mForceDemandMode s = true -> mForceSupplyMode s = false ->
   mDemandMode (mOutData s1) = true)
  /\ (mForceSupplyMode s = true -> mForceDemandMode s = false ->
      mDemandMode (mOutData s1) = false).
Proof.
  unfold flipModesOnInput, bind, defined, run, ret, flipToSupplyMode,
    flipToDemandMode.
  intro Hrun. split; intros H1 H2; rewrite H1, H2 in Hrun; fields_in Hrun.
  - destruct (mDemandMode (mOutData s)) eqn:Hout; fields_in Hrun.
    + destruct (hasValidData (mInData s)) as [[|]|]; try discriminate;
        fields_in Hrun; inversion Hrun; subst s1; [|exact Hout].
      destruct (mDemandMode (mInData s)); fields;
        destruct (mInDataLastDemandMode s); fields; exact Hout.
    + inversion Hrun; subst s1. reflexivity.
  - destruct (mDemandMode (mOutData s)) eqn:Hout; fields_in Hrun.
    + inversion Hrun; subst s1. reflexivity.
    + destruct (hasValidData (mInData s)) as [[|]|]; try discriminate;
        fields_in Hrun; inversion Hrun; subst s1; [|exact Hout].
      destruct (mDemandMode (mInData s)); fields; [exact Hout|].
      destruct (_ || _); fields; exact Hout.
Qed.

Lemma flipModesOnCapacitance_forced (s : GunnsFluidDistributedIf) :
  mForceSupplyMode s = true ->
  mDemandMode (mOutData (flipModesOnCapacitance s))
  = mDemandMode (mOutData s).
Proof.
  intro H. unfold flipModesOnCapacitance, flipToDemandMode. rewrite H.
  destruct (_ && _); reflexivity.
Qed.

Section Pinned.

Context {FM : FluidModel}.

(** The mode and the force flags after the input processing, whether it
    returned or threw. *)
Lemma processInputs_mode (s s' : GunnsFluidDistributedIf) :
  state_of (processInputs s) = Some s' ->
  exists s1,
    state_of (flipModesOnInput s) = Some s1
    /\ mDemandMode (mOutData s') = mDemandMode (mOutData s1)
    /\ (forall st, processInputs s = Ret tt st ->
        mForceDemandMode s' = mForceDemandMode s
        /\ mForceSupplyMode s' = mForceSupplyMode s).
Proof.
  unfold processInputs, bind, run.
  pose proof (flipModesOnInput_outcome s) as Hflip.
  destruct (flipModesOnInput s) as [[] s1| |]; [|contradiction|discriminate].
  destruct Hflip as (_ & _ & _ & Hfd1 & Hfs1 & _).
  pose proof (processInputsDemand_outcome s1) as Hdem.
  destruct (processInputsDemand s1) as [[] s2|e2 st2|]; [| |discriminate].
  - destruct Hdem as (_ & Ho2 & Hfd2 & Hfs2 & _).
    pose proof (processInputsSupply_outcome s2) as Hsup.
    destruct (processInputsSupply s2) as [[] s3|e3 st3|]; [| |discriminate].
    + destruct Hsup as (_ & Ho3 & Hfd3 & Hfs3 & _).
      destruct (updateFrameCounters_frame s3)
        as (_ & _ & _ & Hm & _ & _ & (Hfd4 & Hfs4 & _)).
      intro H. inversion H; subst s'. exists s1.
      split; [reflexivity|]. split; [congruence|].
      intros ? _. split; congruence.
    + destruct Hsup as (_ & _ & _ & _ & _ & _ & Ho & _).
      intro H. inversion H; subst s'. exists s1.
      split; [reflexivity|]. split; [congruence|]. discriminate.
  - destruct Hdem as (_ & _ & _ & _ & _ & _ & Ho).
    intro H. inversion H; subst s'. exists s1.
    split; [reflexivity|]. split; [congruence|]. discriminate.
Qed.

Lemma processOutputs_forced_supply (s : GunnsFluidDistributedIf) :
  mForceSupplyMode s = true ->
  mDemandMode (mOutData s) = false ->
  mDemandMode (mOutData (processOutputs s)) = false.
Proof.
  intros Hfs Hmode. rewrite (processOutputs_supply s Hmode).
  destruct (processOutputsSupply_frame s)
    as (Hm & _ & _ & _ & _ & _ & Hf & _).
  rewrite flipModesOnCapacitance_forced by congruence. congruence.
Qed.

(** One pass of a link whose mode is forced. *)
Lemma pass_forced (p : Pass) (s s' : GunnsFluidDistributedIf) :
  state_of (pass p s) = Some s' ->
  ((mForceDemandMode s = true -> mForceSupplyMode s = false ->
    mDemandMode (mOutData s') = true)
   /\ (mForceSupplyMode s = true -> mForceDemandMode s = false ->
       mDemandMode (mOutData s') = false))
  /\ (forall st, pass p s = Ret tt st ->
      mForceDemandMode s' = mForceDemandMode s
      /\ mForceSupplyMode s' = mForceSupplyMode s).
Proof.
  unfold pass, bind, run.
  destruct (processInputs (set_mInData (passInData p) s)) as [[] s1|e st|]
    eqn:Hin; [| |discriminate].
  - intro H. inversion H; subst s'. clear H.
    assert (Hst : state_of (processInputs (set_mInData (passInData p) s))
                  = Some s1) by (rewrite Hin; reflexivity).
    destruct (processInputs_mode _ _ Hst) as (s0 & Hs0 & Hm & Hflags).
    destruct (Hflags s1 Hin) as (Hfd & Hfs). fields_in Hfd. fields_in Hfs.
    destruct (flipModesOnInput_forced _ _ Hs0) as (D & S).
    fields_in D. fields_in S.
    destruct (step_same_inputs (passDt p) s1) as (A1 & A2 & _).
    destruct (step_stamp (passDt p) s1) as (Ao & _).
    destruct (solve_frame p (step (passDt p) s1)) as ((B1 & B2 & _) & Bo).
    destruct (processOutputs_same_inputs (solve p (step (passDt p) s1)))
      as (C1 & C2 & _).
    split; [split|].
    + intros H1 H2. apply processOutputs_stays_demand.
      rewrite Bo, Ao, Hm. auto.
    + intros H1 H2. apply processOutputs_forced_supply.
      * congruence.
      * rewrite Bo, Ao, Hm. auto.
    + intros ? _. split; congruence.
  - intro H. inversion H; subst s'. clear H.
    assert (Hst : state_of (processInputs (set_mInData (passInData p) s))
                  = Some st) by (rewrite Hin; reflexivity).
    destruct (processInputs_mode _ _ Hst) as (s0 & Hs0 & Hm & _).
    destruct (flipModesOnInput_forced _ _ Hs0) as (D & S).
    fields_in D. fields_in S.
    split; [split|discriminate]; intros H1 H2; rewrite Hm; auto.
Qed.

(** X13: a force flag pins the mode.  After one or more passes of a link
    with [mForceDemandMode] set (and [mForceSupplyMode] clear), the link is
    in Demand mode, whatever the payloads received and the solutions of the
    network, whether the last pass returned or threw; with the flags
    exchanged it is in Supply mode. *)
Theorem X13_force_flag_pins_mode (ps : list Pass)
    (s s' : GunnsFluidDistributedIf) :
  ps <> [] ->
  state_of (passes ps s) = Some s' ->
  (mForceDemandMode s = true -> mForceSupplyMode s = false ->
   mDemandMode (mOutData s') = true)
  /\ (mForceSupplyMode s = true -> mForceDemandMode s = false ->
      mDemandMode (mOutData s') = false).
Proof.
  revert s. induction ps as [|p ps IH]; intros s Hne Hrun; [congruence|].
  simpl in Hrun. unfold bind in Hrun.
  destruct (pass p s) as [[] s1|e st|] eqn:Hp; [| |discriminate].
  - assert (Hst : state_of (pass p s) = Some s1) by (rewrite Hp; reflexivity).
    destruct (pass_forced p s s1 Hst) as (Hmode & Hflags).
    destruct (Hflags s1 Hp) as (Hfd & Hfs).
    destruct ps as [|q ps].
    + simpl in Hrun. inversion Hrun; subst s'. exact Hmode.
    + destruct (IH s1) as (D & S); [discriminate|exact Hrun|].
      rewrite Hfd, Hfs in D, S. split; assumption.
  - assert (Hst : state_of (pass p s) = Some st) by (rewrite Hp; reflexivity).
    destruct (pass_forced p s st Hst) as (Hmode & _).
    simpl in Hrun. inversion Hrun; subst s'. exact Hmode.
Qed.

End Pinned.

Lemma X13_force_flag_pins_mode_witness :
  exists s',
    state_of (@passes oneSpecies [supplyPass; silentPass] forcedDemandLink)
    = Some s'
    /\ mDemandMode (mOutData s') = true.
Proof.
  eexists. split; [vm_compute; reflexivity|].
  eapply (@X13_force_flag_pins_mode oneSpecies [supplyPass; silentPass]
            forcedDemandLink).
  - discriminate.
  - vm_compute. reflexivity.
  - reflexivity.
  - reflexivity.
Defined.

(** ** More of the outgoing data *)

Lemma subtract_others_le (dp : list Q) (ourNode : nat) (others : list OtherIf)
    (c : Q) :
  fold_left
    (fun capacitance other =>
       let otherSuppliedCap := otherSuppliedCapacitance other in
       if Qlt_bool DBL_EPSILON otherSuppliedCap then
         let otherDp := read dp (otherNodeMap other) in
         if Qlt_bool DBL_EPSILON otherDp then
           let ourDp := read dp ourNode in
           let ratio := otherDp / std_max ourDp DBL_EPSILON in
           capacitance - otherSuppliedCap * ratio
         else capacitance
       else capacitance)
    others c
  <= c.
Proof.
  revert c. induction others as [|o others IH]; intro c; simpl.
  - apply Qle_refl.
  - eapply Qle_trans; [apply IH|].
    destruct (Qlt_bool_spec DBL_EPSILON (otherSuppliedCapacitance o))
      as [H1|H1]; [|apply Qle_refl].
    destruct (Qlt_bool_spec DBL_EPSILON (read dp (otherNodeMap o)))
      as [H2|H2]; [|apply Qle_refl].
    assert (He : 0 < DBL_EPSILON) by reflexivity.
    assert (Hm : 0 < std_max (read dp ourNode) DBL_EPSILON).
    { destruct (std_max_cases (read dp ourNode) DBL_EPSILON)
        as [[H E]|[H E]]; rewrite E; lra. }
    assert (Hr : 0 <= read dp (otherNodeMap o)
                      / std_max (read dp ourNode) DBL_EPSILON).
    { apply Qle_shift_div_l; [exact Hm|]. lra. }
    assert (Hp : 0 <= otherSuppliedCapacitance o
                      * (read dp (otherNodeMap o)
                         / std_max (read dp ourNode) DBL_EPSILON)).
    { apply Qmult_le_0_compat; [lra|exact Hr]. }
    lra.
Qed.

(** X14: the capacitance that the link publishes is never negative and
    never more than the network capacitance of the node less the
    capacitance that the link itself supplies (or 0); with no other
    interface link known it is exactly that difference, floored at 0. *)
Theorem X14_output_capacitance_bounds (s : GunnsFluidDistributedIf) :
  0 <= mCapacitance (mOutData (outputCapacitance s))
  /\ mCapacitance (mOutData (outputCapacitance s))
     <= std_max 0 (nNetworkCapacitance (mNode s) - mSuppliedCapacitance s)
  /\ (mOtherIfs s = [] ->
      mCapacitance (mOutData (outputCapacitance s))
      = std_max 0 (nNetworkCapacitance (mNode s) - mSuppliedCapacitance s)).
Proof.
  unfold outputCapacitance. fields.
  pose proof (subtract_others_le (nNetCapDeltaPotential (mNode s))
                (mNodeMap s) (mOtherIfs s)
                (nNetworkCapacitance (mNode s) - mSuppliedCapacitance s))
    as Hle.
  cbv zeta in Hle.
  match type of Hle with
  | ?c <= _ => set (cap := c) in *
  end.
  split; [|split].
  - destruct (std_max_cases 0 cap) as [[H E]|[H E]]; rewrite E; lra.
  - destruct (std_max_cases 0 cap) as [[H E]|[H E]]; rewrite E;
      destruct (std_max_cases 0
                  (nNetworkCapacitance (mNode s) - mSuppliedCapacitance s))
        as [[H' E']|[H' E']]; rewrite E'; lra.
  - intro Hnone. unfold cap. rewrite Hnone. reflexivity.
Qed.

Lemma incrementFramesSinceFlip_count (s : GunnsFluidDistributedIf) :
  mFramesSinceFlip (incrementFramesSinceFlip s)
  = to_int (mFramesSinceFlip s + 1).
Proof. reflexivity. Qed.

Lemma flipModesOnCapacitance_source (s : GunnsFluidDistributedIf) :
  mSource (mOutData (flipModesOnCapacitance s))
  = (if capacitanceFlipDue s then 0 else mSource (mOutData s))
  /\ mFramesSinceFlip (flipModesOnCapacitance s)
     = (if capacitanceFlipDue s && negb (mForceSupplyMode s)
        then 0%Z else mFramesSinceFlip s).
Proof.
  unfold flipModesOnCapacitance, flipToDemandMode, capacitanceFlipDue.
  destruct (_ && _); [|split; reflexivity].
  destruct (mForceSupplyMode s); split; reflexivity.
Qed.

Section Published.

Context {FM : FluidModel}.

(** X15: what a Supply side publishes as its source at the end of a pass:
    the node potential in Pa, unless the frame and capacitance test of the
    flip to Demand mode holds on the capacitance just published; then the
    source is zeroed, also when [mForceSupplyMode] has kept the link in
    Supply mode.  The count of frames since the last flip restarts at 1 on
    the flip and grows by 1 otherwise. *)
Theorem X15_supply_published_source (s : GunnsFluidDistributedIf) :
  mDemandMode (mOutData s) = false ->
  mSource (mOutData (processOutputs s))
  = (if capacitanceFlipDue (outputCapacitance s) then 0
     else nPotential (mNode s) * UNIT_PER_KILO)
  /\ mFramesSinceFlip (processOutputs s)
     = (if capacitanceFlipDue (outputCapacitance s)
           && negb (mForceSupplyMode s)
        then 1%Z else to_int (mFramesSinceFlip s + 1)).
Proof.
  intro Hmode.
  destruct (processOutputsSupply_frame s)
    as (_ & Hc & Hsrc & Hi & Hl & Hf & Hfs & _ & Hr & _).
  destruct (outputCapacitance_frame s)
    as (_ & Ci & Cl & Cf & _ & _ & Cr & _).
  assert (Hdue : capacitanceFlipDue (processOutputsSupply s)
                 = capacitanceFlipDue (outputCapacitance s)).
  { unfold capacitanceFlipDue.
    rewrite Hc, Hi, Hl, Hf, Hr, Ci, Cl, Cf, Cr. reflexivity. }
  destruct (flipModesOnCapacitance_source (processOutputsSupply s))
    as (Fs & Ff).
  rewrite Hdue, Hsrc in Fs. rewrite Hdue, Hfs, Hf in Ff.
  split.
  - rewrite (processOutputs_supply s Hmode). exact Fs.
  - unfold processOutputs. rewrite Hmode, incrementFramesSinceFlip_count, Ff.
    destruct (capacitanceFlipDue (outputCapacitance s)
              && negb (mForceSupplyMode s)); reflexivity.
Qed.

End Published.

Lemma X15_supply_published_source_witness :
  mSource (mOutData (@processOutputs oneSpecies forcedSupplyLink)) = 0.
Proof.
  destruct (@X15_supply_published_source oneSpecies forcedSupplyLink)
    as (H & _); [reflexivity|].
  rewrite H. vm_compute. reflexivity.
Defined.

(** ** Frame counters over consecutive passes *)

Lemma flipModesOnCapacitance_counters (s : GunnsFluidDistributedIf) :
  let s' := flipModesOnCapacitance s in
  mFrameCount (mOutData s') = mFrameCount (mOutData s)
  /\ mFrameLoopback (mOutData s') = mFrameLoopback (mOutData s)
  /\ mLoopLatency s' = mLoopLatency s.
Proof.
  unfold flipModesOnCapacitance, flipToDemandMode.
  destruct (_ && _); [|repeat split].
  destruct (mForceSupplyMode s); repeat split.
Qed.

Section Counters.

Context {FM : FluidModel}.

Lemma outputFluid_counters (fluid : PolyFluid) (s : GunnsFluidDistributedIf) :
  let s' := snd (outputFluid fluid s) in
  mFrameCount (mOutData s') = mFrameCount (mOutData s)
  /\ mFrameLoopback (mOutData s') = mFrameLoopback (mOutData s)
  /\ mLoopLatency s' = mLoopLatency s
  /\ mNode s' = mNode s.
Proof. repeat split. Qed.

Lemma outputCapacitance_counters (s : GunnsFluidDistributedIf) :
  let s' := outputCapacitance s in
  mFrameCount (mOutData s') = mFrameCount (mOutData s)
  /\ mFrameLoopback (mOutData s') = mFrameLoopback (mOutData s)
  /\ mLoopLatency s' = mLoopLatency s.
Proof. repeat split. Qed.

Lemma processOutputsSupply_counters (s : GunnsFluidDistributedIf) :
  let s' := processOutputsSupply s in
  mFrameCount (mOutData s') = mFrameCount (mOutData s)
  /\ mFrameLoopback (mOutData s') = mFrameLoopback (mOutData s)
  /\ mLoopLatency s' = mLoopLatency s.
Proof. repeat split. Qed.

Lemma processOutputsDemand_counters (s : GunnsFluidDistributedIf) :
  let s' := processOutputsDemand s in
  mFrameCount (mOutData s') = mFrameCount (mOutData s)
  /\ mFrameLoopback (mOutData s') = mFrameLoopback (mOutData s)
  /\ mLoopLatency s' = mLoopLatency s.
Proof.
  unfold processOutputsDemand.
  destruct (outputCapacitance_counters s) as (C1 & C2 & C3).
  match goal with
  | |- context [outputFluid ?f ?x] =>
      pose proof (outputFluid_counters f x) as F;
      destruct (outputFluid f x) as [sum x']
  end.
  fields_in F. destruct F as (F1 & F2 & F3 & _).
  fields. split; [congruence|]. split; congruence.
Qed.

Lemma processOutputs_counters (s : GunnsFluidDistributedIf) :
  mFrameCount (mOutData (processOutputs s)) = mFrameCount (mOutData s)
  /\ mFrameLoopback (mOutData (processOutputs s))
     = mFrameLoopback (mOutData s)
  /\ mLoopLatency (processOutputs s) = mLoopLatency s.
Proof.
  unfold processOutputs.
  assert (Hinc : forall x,
             mOutData (incrementFramesSinceFlip x) = mOutData x
             /\ mLoopLatency (incrementFramesSinceFlip x) = mLoopLatency x)
    by (intro x; split; reflexivity).
  destruct (Hinc (if mDemandMode (mOutData s) then processOutputsDemand s
                  else flipModesOnCapacitance (processOutputsSupply s)))
    as (-> & ->).
  destruct (mDemandMode (mOutData s)).
  - apply processOutputsDemand_counters.
  - destruct (flipModesOnCapacitance_counters (processOutputsSupply s))
      as (F1 & F2 & F3).
    destruct (processOutputsSupply_counters s) as (S1 & S2 & S3).
    split; [congruence|]. split; congruence.
Qed.

(** What a call of [processInputs] that returns leaves in the counters. *)
Lemma processInputs_counters (s s' : GunnsFluidDistributedIf) :
  processInputs s = Ret tt s' ->
  mFrameCount (mOutData s') = wrap_counter (mFrameCount (mOutData s) + 1)
  /\ mFrameLoopback (mOutData s') = mFrameCount (mInData s)
  /\ mLoopLatency s'
     = to_int (wrap_counter (mFrameCount (mOutData s')
                             - mFrameLoopback (mInData s))).
Proof.
  pose proof (flipModesOnInput_outcome s) as Hflip.
  unfold processInputs, bind.
  destruct (flipModesOnInput s) as [[] s1| |]; [|discriminate|discriminate].
  destruct Hflip as (Hi1 & _ & _ & _ & _ & Hc1).
  pose proof (processInputsDemand_outcome s1) as Hdem.
  destruct (processInputsDemand s1) as [[] s2|e2 st2|];
    [|discriminate|discriminate].
  destruct Hdem as (Hi2 & Ho2 & _).
  pose proof (processInputsSupply_outcome s2) as Hsup.
  destruct (processInputsSupply s2) as [[] s3|e3 st3|];
    [|discriminate|discriminate].
  destruct Hsup as (Hi3 & Ho3 & _).
  destruct (updateFrameCounters_frame s3) as (F1 & F2 & F3 & _).
  unfold run. intro Hret. injection Hret as <-.
  rewrite Ho3, Ho2, Hc1 in F1. rewrite Hi3, Hi2, Hi1 in F2, F3.
  split; [exact F1|]. split; [exact F3|exact F2].
Qed.

Lemma solve_latency (p : Pass) (s : GunnsFluidDistributedIf) :
  mLoopLatency (solve p s) = mLoopLatency s.
Proof. reflexivity. Qed.

Lemma pass_counters (p : Pass) (s s' : GunnsFluidDistributedIf) :
  pass p s = Ret tt s' ->
  mFrameCount (mOutData s') = wrap_counter (mFrameCount (mOutData s) + 1)
  /\ mFrameLoopback (mOutData s') = mFrameCount (passInData p)
  /\ mLoopLatency s'
     = to_int (wrap_counter (mFrameCount (mOutData s')
                             - mFrameLoopback (passInData p))).
Proof.
  unfold pass, bind, run.
  pose proof (processInputs_counters (set_mInData (passInData p) s)) as Hin.
  destruct (processInputs (set_mInData (passInData p) s))
    as [[] s1|e st|]; [|discriminate|discriminate].
  specialize (Hin s1 eq_refl). fields_in Hin.
  destruct Hin as (I1 & I2 & I3).
  intro Hret. injection Hret as <-.
  destruct (step_stamp (passDt p) s1) as (Ao & _).
  assert (Al : mLoopLatency (step (passDt p) s1) = mLoopLatency s1).
  { destruct (step_same_step_inputs (passDt p) s1)
      as ((_ & _ & _ & H & _) & _).
    exact H. }
  destruct (processOutputs_counters (solve p (step (passDt p) s1)))
    as (O1 & O2 & O3).
  destruct (solve_frame p (step (passDt p) s1)) as (_ & Bo).
  pose proof (solve_latency p (step (passDt p) s1)) as Bl.
  rewrite O1, O2, O3, Bo, Bl, Ao, Al.
  split; [exact I1|]. split; [exact I2|exact I3].
Qed.

(** X16: after [n] consecutive passes that return, the frame count that
    the link publishes has advanced by [n], wrapping at 2^64, whatever the
    payloads were; and the loopback that it publishes is the frame count of
    the last payload received. *)
Theorem X16_frame_count_over_passes (ps : list Pass) (p : Pass)
    (s s' : GunnsFluidDistributedIf) :
  (0 <= mFrameCount (mOutData s) < counter_modulus)%Z ->
  passes (ps ++ [p]) s = Ret tt s' ->
  mFrameCount (mOutData s')
  = wrap_counter (mFrameCount (mOutData s) + Z.of_nat (length (ps ++ [p])))
  /\ mFrameLoopback (mOutData s') = mFrameCount (passInData p)
  /\ mLoopLatency s'
     = to_int (wrap_counter (mFrameCount (mOutData s')
                             - mFrameLoopback (passInData p))).
Proof.
  intros Hrange Hrun.
  rewrite passes_app in Hrun. unfold bind in Hrun.
  destruct (passes ps s) as [[] s1| |] eqn:Hps; [|discriminate|discriminate].
  destruct (pass_counters p s1 s' Hrun) as (P1 & P2 & P3).
  split; [|split; assumption].
  rewrite P1. clear P1 P2 P3 Hrun.
  assert (Hcount : mFrameCount (mOutData s1)
                   = wrap_counter (mFrameCount (mOutData s)
                                   + Z.of_nat (length ps))).
  { clear p. revert s Hrange Hps.
    induction ps as [|q ps IH]; intros s Hrange Hps.
    - simpl in Hps. unfold ret in Hps. injection Hps as <-.
      unfold wrap_counter. simpl. rewrite Z.add_0_r.
      symmetry. apply Z.mod_small. exact Hrange.
    - simpl in Hps. unfold bind in Hps.
      destruct (pass q s) as [[] s0| |] eqn:Hq; [|discriminate|discriminate].
      destruct (pass_counters q s s0 Hq) as (Q1 & _).
      rewrite (IH s0).
      + rewrite Q1. unfold wrap_counter.
        rewrite Zplus_mod_idemp_l. f_equal.
        simpl length. lia.
      + rewrite Q1. unfold wrap_counter. apply Z.mod_pos_bound.
        reflexivity.
      + exact Hps. }
  rewrite Hcount. unfold wrap_counter.
  rewrite Zplus_mod_idemp_l. f_equal.
  rewrite length_app. simpl length. lia.
Qed.

End Counters.

Lemma X16_frame_count_over_passes_witness :
  exists s',
    @passes oneSpecies ([silentPass] ++ [supplyPass]) link0 = Ret tt s'
    /\ mFrameCount (mOutData s') = 2%Z
    /\ mFrameLoopback (mOutData s') = mFrameCount (passInData supplyPass).
Proof.
  eexists. split; [vm_compute; reflexivity|].
  destruct (@X16_frame_count_over_passes oneSpecies [silentPass] supplyPass
              link0 _ ltac:(vm_compute; split; [discriminate|reflexivity])
              ltac:(vm_compute; reflexivity)) as (H1 & H2 & _).
  split; [rewrite H1; vm_compute; reflexivity|exact H2].
Defined.

(** ** Normalisation of the mixtures *)

Lemma fold_Qplus_acc (l : list Q) (a : Q) :
  fold_left Qplus l a == a + fold_left Qplus l 0.
Proof.
  revert a. induction l as [|x l IH]; intro a; simpl.
  - ring.
  - rewrite (IH (a + x)), (IH (0 + x)). ring.
Qed.

Lemma fold_Qplus_map_ext (f g : nat -> Q) (l : list nat) (a : Q) :
  (forall i, In i l -> f i == g i) ->
  fold_left Qplus (map f l) a == fold_left Qplus (map g l) a.
Proof.
  revert a. induction l as [|k l IH]; intros a H; simpl.
  - reflexivity.
  - rewrite (fold_Qplus_acc _ (a + f k)), (fold_Qplus_acc _ (a + g k)).
    rewrite (H k) by (left; reflexivity).
    rewrite (IH 0) by (intros i Hi; apply H; right; exact Hi).
    reflexivity.
Qed.

Lemma fold_Qplus_map_div (f : nat -> Q) (c : Q) (l : list nat) :
  fold_left Qplus (map (fun i => f i / c) l) 0
  == fold_left Qplus (map f l) 0 / c.
Proof.
  induction l as [|k l IH]; simpl.
  - unfold Qdiv. ring.
  - rewrite (fold_Qplus_acc _ (0 + f k / c)), (fold_Qplus_acc _ (0 + f k)).
    rewrite IH. unfold Qdiv. ring.
Qed.

Lemma sum_first_ext (n : nat) (a b : list Q) :
  (forall i, (i < n)%nat -> read a i == read b i) ->
  sum_first n a == sum_first n b.
Proof.
  intro H. unfold sum_first. apply fold_Qplus_map_ext.
  intros i Hi. apply in_seq in Hi. apply H. lia.
Qed.

Lemma read_update_first (n : nat) (f : Q -> Q) (a : list Q) (i : nat) :
  f 0 == 0 -> (i < n)%nat -> read (update_first n f a) i == f (read a i).
Proof.
  intro Hf. revert a i. induction n as [|n IH]; intros a i Hi; [lia|].
  destruct a as [|x a]; simpl.
  - unfold read. destruct i; simpl; symmetry; exact Hf.
  - destruct i as [|i]; [reflexivity|].
    unfold read in *. simpl. apply IH. lia.
Qed.

Lemma sum_first_normalised (n : nat) (c : Q) (a : list Q) :
  sum_first n (update_first n (fun x => x / c) a) == sum_first n a / c.
Proof.
  rewrite (sum_first_ext n _ (map (fun i => read a i / c) (seq 0 n))).
  - unfold sum_first at 1.
    rewrite (fold_Qplus_map_ext _ (fun i => read a i / c)).
    + apply fold_Qplus_map_div.
    + intros i Hi. apply in_seq in Hi.
      rewrite read_map_seq by lia. reflexivity.
  - intros i Hi. rewrite read_map_seq by exact Hi.
    apply read_update_first; [|exact Hi]. unfold Qdiv. ring.
Qed.

Lemma sum_first_published (n m : nat) (a : list Q) :
  sum_first n (map (read a) (seq 0 n) ++ repeat 0 m) == sum_first n a.
Proof.
  apply sum_first_ext. intros i Hi.
  rewrite read_app_left by (rewrite length_map, length_seq; exact Hi).
  rewrite read_map_seq by exact Hi. reflexivity.
Qed.

Section Mixtures.

Context {FM : FluidModel}.

(** X17: the mixture that [outputFluid] publishes is normalised over the
    bulk and the trace compounds together: when the payload carries every
    bulk and trace compound of the fluid and the sum that the function
    returns is not zero, the published bulk and trace mole fractions sum
    to 1. *)
Theorem X17_output_fluid_normalised (fluid : PolyFluid)
    (s : GunnsFluidDistributedIf) :
  mNumFluidCommon (mOutData s) = nNTypes (mNode s) ->
  mNumTcCommon (mOutData s) = tcCount fluid ->
  ~ fst (outputFluid fluid s) == 0 ->
  sum_first (nNTypes (mNode s))
    (mMoleFractions (mOutData (snd (outputFluid fluid s))))
  + sum_first (tcCount fluid)
      (mTcMoleFractions (mOutData (snd (outputFluid fluid s))))
  == 1.
Proof.
  intros Hbulk Htc.
  unfold outputFluid, setMoleFractions, setTcMoleFractions, tcCount in *.
  fields. rewrite Hbulk, Htc.
  set (n := nNTypes (mNode s)).
  set (molar := convertMassFractionToMoleFraction
                  (map (read (fMassFractions fluid)) (seq 0 n))).
  set (nTc := match fTraceCompounds fluid with
              | Some tc => tcNTypes tc
              | None => O
              end).
  set (tcs := match fTraceCompounds fluid with
              | Some tc => tcMoleFractions tc
              | None => []
              end).
  set (tcSum := fold_left Qplus (map (read tcs) (seq 0 nTc)) 0).
  set (total := fold_left Qplus (map (read molar) (seq 0 n)) tcSum).
  intro Hsum.
  rewrite !sum_first_published.
  rewrite sum_first_normalised.
  rewrite (sum_first_ext nTc _ (map (fun i => read tcs i / total) (seq 0 nTc))).
  2:{ intros i Hi. rewrite read_app_left
        by (rewrite length_map, length_seq; exact Hi). reflexivity. }
  unfold sum_first at 2.
  rewrite (fold_Qplus_map_ext _ (fun i => read tcs i / total)).
  2:{ intros i Hi. apply in_seq in Hi. rewrite read_map_seq by lia.
      reflexivity. }
  rewrite fold_Qplus_map_div. fold tcSum.
  assert (Htotal : total == tcSum + sum_first n molar).
  { unfold total, sum_first. apply fold_Qplus_acc. }
  setoid_replace (sum_first n molar / total + tcSum / total)
    with (total / total) by (rewrite Htotal at 3; unfold Qdiv; ring).
  unfold Qdiv. apply Qmult_inv_r. exact Hsum.
Qed.

(** X18: a call of [inputFluid] that returns has written the fluid it was
    given and no other: the mass is 0, the pressure is the one given, the
    temperature is the inbound energy when enthalpy is not in use, and the
    mass fractions are converted from bulk mole fractions that are
    normalised to sum to 1; the sum that it returns is the sum of the
    inbound bulk fractions, and it is at least [DBL_EPSILON]. *)
Theorem X18_input_fluid_writes (pressure : Q) (fluid : FluidRef)
    (s s' : GunnsFluidDistributedIf) (x : Q) :
  inputFluid pressure fluid s = Ret x s' ->
  x = inBulkFractionSum s
  /\ DBL_EPSILON <= x
  /\ sum_first (nNTypes (mNode s)) (mTempMoleFractions s') == 1
  /\ fMassFractions (deref fluid s')
     = convertMoleFractionToMassFraction (mTempMoleFractions s')
  /\ fMass (deref fluid s') = 0
  /\ fPressure (deref fluid s') = pressure
  /\ (mUseEnthalpy s = false ->
      fTemperature (deref fluid s') = mEnergy (mInData s))
  /\ match fluid with
     | NodeContent => mInternalFluid s' = mInternalFluid s
     | InternalFluid => mNode s' = mNode s
     end.
Proof.
  unfold inputFluid, inBulkFractionSum. fields.
  set (n := nNTypes (mNode s)).
  set (total := sum_first n (getMoleFractions (mInData s))).
  destruct (Qlt_bool_spec total DBL_EPSILON) as [Hlt|Hge]; [discriminate|].
  apply Qnot_lt_le in Hge.
  assert (Hpos : ~ total == 0).
  { intro H. rewrite H in Hge. revert Hge. apply Qlt_not_le. reflexivity. }
  assert (Hnorm : sum_first n
                    (update_first n (fun y => y / total)
                       (getMoleFractions (mInData s))) == 1).
  { rewrite sum_first_normalised. fold total.
    unfold Qdiv. apply Qmult_inv_r. exact Hpos. }
  intro Hret. injection Hret as <- <-.
  split; [reflexivity|]. split; [exact Hge|].
  destruct fluid; fields;
    destruct (mUseEnthalpy s); fields;
    destruct (mTcMoleFractions (mInData s)); fields;
    repeat match goal with
           | |- context [match ?o with Some _ => _ | None => _ end] =>
               destruct o
           end; fields;
    (split; [exact Hnorm|]);
    (split; [reflexivity|]); (split; [reflexivity|]);
    (split; [reflexivity|]); (split; [|reflexivity]);
    intro; try reflexivity; discriminate.
Qed.

End Mixtures.

Lemma X17_output_fluid_normalised_witness :
  sum_first 1
    (mMoleFractions
       (mOutData (snd (@outputFluid oneSpecies tracedAir tracedLink))))
  + sum_first 1
      (mTcMoleFractions
         (mOutData (snd (@outputFluid oneSpecies tracedAir tracedLink))))
  == 1.
Proof.
  apply (@X17_output_fluid_normalised oneSpecies tracedAir tracedLink).
  - reflexivity.
  - reflexivity.
  - vm_compute. discriminate.
Defined.

Lemma X18_input_fluid_writes_witness :
  exists x s',
    @inputFluid oneSpecies 1 InternalFluid (suppliedLink (1 # 2)) = Ret x s'
    /\ DBL_EPSILON <= x
    /\ sum_first 1 (mTempMoleFractions s') == 1.
Proof.
  destruct (@inputFluid oneSpecies 1 InternalFluid (suppliedLink (1 # 2)))
    as [x s'|e st|] eqn:E;
    [|vm_compute in E; discriminate|vm_compute in E; discriminate].
  exists x, s'. split; [reflexivity|].
  destruct (@X18_input_fluid_writes oneSpecies 1 InternalFluid
              (suppliedLink (1 # 2)) s' x E) as (_ & H1 & H2 & _).
  split; [exact H1|exact H2].
Defined.

(** ** The other links, validation and the flows *)

Lemma addOtherIf_cases (this otherIf : nat) (others : list nat) :
  addOtherIf this otherIf others
  = if (otherIf =? this)%nat || existsb (Nat.eqb otherIf) others
    then others else others ++ [otherIf].
Proof.
  unfold addOtherIf.
  assert (H : forall d,
             fold_left
               (fun duplicate other =>
                  if (otherIf =? other)%nat then true else duplicate)
               others d
             = d || existsb (Nat.eqb otherIf) others).
  { induction others as [|o others IH]; intro d; simpl.
    - now rewrite orb_false_r.
    - rewrite IH. destruct (otherIf =? o)%nat, d; reflexivity. }
  rewrite H. destruct (_ || _); reflexivity.
Qed.

Lemma existsb_eqb_In (p : nat) (l : list nat) :
  existsb (Nat.eqb p) l = true <-> In p l.
Proof.
  rewrite existsb_exists. split.
  - intros (x & Hin & Heq). apply Nat.eqb_eq in Heq. now subst.
  - intro H. exists p. split; [exact H|apply Nat.eqb_refl].
Qed.

Lemma addOtherIf_invariant (this otherIf : nat) (others : list nat) :
  NoDup others -> ~ In this others ->
  NoDup (addOtherIf this otherIf others)
  /\ ~ In this (addOtherIf this otherIf others)
  /\ (forall p, In p (addOtherIf this otherIf others)
                <-> In p others \/ (p = otherIf /\ p <> this))
  /\ exists tail, addOtherIf this otherIf others = others ++ tail.
Proof.
  intros Hnd Hself. rewrite addOtherIf_cases.
  destruct (Nat.eqb_spec otherIf this) as [->|Hne]; simpl.
  - split; [exact Hnd|]. split; [exact Hself|]. split.
    + intro p. split; [auto|]. intros [H|[-> H]]; [exact H|congruence].
    + exists []. now rewrite app_nil_r.
  - destruct (existsb (Nat.eqb otherIf) others) eqn:E.
    + apply existsb_eqb_In in E.
      split; [exact Hnd|]. split; [exact Hself|]. split.
      * intro p. split; [auto|]. intros [H|[-> _]]; assumption.
      * exists []. now rewrite app_nil_r.
    + assert (Hnew : ~ In otherIf others).
      { intro H. apply existsb_eqb_In in H. congruence. }
      split; [|split; [|split]].
      * apply NoDup_app; [exact Hnd|repeat constructor; intros []|].
        intros x Hx [<-|[]]. exact (Hnew Hx).
      * rewrite in_app_iff. intros [H|[H|[]]]; [exact (Hself H)|congruence].
      * intro p. rewrite in_app_iff. simpl. split.
        -- intros [H|[<-|[]]]; [left; exact H|right; split; congruence].
        -- intros [H|[-> _]]; [left; exact H|right; left; reflexivity].
      * exists [otherIf]. reflexivity.
Qed.

(** X19: [addOtherIf] keeps the vector of the other interface links free
    of duplicates and of the link itself.  Whatever list of links is given
    to a link, itself and repetitions included, the vector holds afterwards
    what it held before, in the same places, followed by each new link of
    the list once. *)
Theorem X19_add_other_ifs (this : nat) (links others : list nat) :
  NoDup others -> ~ In this others ->
  NoDup (addOtherIfs this links others)
  /\ ~ In this (addOtherIfs this links others)
  /\ (forall p, In p (addOtherIfs this links others)
                <-> In p others \/ (In p links /\ p <> this))
  /\ exists tail, addOtherIfs this links others = others ++ tail.
Proof.
  unfold addOtherIfs. revert others.
  induction links as [|l links IH]; intros others Hnd Hself; simpl.
  - split; [exact Hnd|]. split; [exact Hself|]. split.
    + intro p. split; [auto|]. intros [H|[[] _]]. exact H.
    + exists []. now rewrite app_nil_r.
  - destruct (addOtherIf_invariant this l others Hnd Hself)
      as (A1 & A2 & A3 & (t1 & A4)).
    destruct (IH (addOtherIf this l others) A1 A2)
      as (B1 & B2 & B3 & (t2 & B4)).
    split; [exact B1|]. split; [exact B2|]. split.
    + intro p. rewrite B3, A3. split.
      * intros [[H|[-> H]]|[H1 H2]]; auto.
      * intros [H|[[<-|H1] H2]]; auto.
    + exists (t1 ++ t2). rewrite B4, A4. now rewrite app_assoc.
Qed.

Lemma X19_add_other_ifs_witness :
  (addOtherIfs 7 [3; 7; 5; 3] [] = [3; 5]
   /\ NoDup (addOtherIfs 7 [3; 7; 5; 3] [])
   /\ ~ In 7 (addOtherIfs 7 [3; 7; 5; 3] []))%nat.
Proof.
  split; [reflexivity|].
  destruct (X19_add_other_ifs 7 [3; 7; 5; 3]%nat []
              (NoDup_nil nat) (fun H : In 7%nat [] => H))
    as (H1 & H2 & _).
  split; [exact H1|exact H2].
Defined.

Lemma validate_returns (capacitorLinkIsNull : bool)
    (s : GunnsFluidDistributedIf) :
  validate capacitorLinkIsNull s = None <->
  capacitorLinkIsNull = false
  /\ 1 < mModingCapacitanceRatio s
  /\ (mForceDemandMode s = false \/ mForceSupplyMode s = false).
Proof.
  unfold validate.
  destruct capacitorLinkIsNull.
  { split; [discriminate|]. intros (H & _). discriminate. }
  destruct (Qle_bool (mModingCapacitanceRatio s) 1) eqn:Hr.
  { apply Qle_bool_iff in Hr. split; [discriminate|].
    intros (_ & H & _). exfalso. revert H. now apply Qle_not_lt. }
  apply Qle_bool_false_iff in Hr.
  destruct (mForceDemandMode s), (mForceSupplyMode s); simpl;
    split; try discriminate; intros; auto;
    try (split; [reflexivity|]; split; [exact Hr|]; auto).
  destruct H as (_ & _ & [H|H]); discriminate.
Qed.

(** X20: the capacitance ratio that [validate] demands keeps two sides
    from flipping on each other: when each of two validated links receives
    the capacitance that the other publishes, neither capacitance being
    negative, the test of [flipModesOnCapacitance] fails on at least one of
    them; and a link that [validate] lets through has at most one mode
    force flag set. *)
Theorem X20_validated_ratio_separates (a b : GunnsFluidDistributedIf)
    (nullA nullB : bool) :
  validate nullA a = None ->
  validate nullB b = None ->
  mCapacitance (mInData a) = mCapacitance (mOutData b) ->
  mCapacitance (mInData b) = mCapacitance (mOutData a) ->
  0 <= mCapacitance (mOutData a) ->
  0 <= mCapacitance (mOutData b) ->
  capacitanceFlipDue a && capacitanceFlipDue b = false
  /\ mForceDemandMode a && mForceSupplyMode a = false.
Proof.
  intros Ha Hb Hab Hba Hpa Hpb.
  apply validate_returns in Ha. apply validate_returns in Hb.
  destruct Ha as (_ & Hra & Hfa). destruct Hb as (_ & Hrb & _).
  split.
  - unfold capacitanceFlipDue. rewrite Hab, Hba.
    set (Ca := mCapacitance (mOutData a)) in *.
    set (Cb := mCapacitance (mOutData b)) in *.
    destruct (Qlt_bool_spec (Ca * mModingCapacitanceRatio a) Cb) as [H1|H1];
      [|now rewrite andb_false_r].
    destruct (Qlt_bool_spec (Cb * mModingCapacitanceRatio b) Ca) as [H2|H2];
      [|now rewrite !andb_false_r].
    exfalso.
    assert (Ea : 0 <= Ca * (mModingCapacitanceRatio a - 1))
      by (apply Qmult_le_0_compat; lra).
    assert (Eb : 0 <= Cb * (mModingCapacitanceRatio b - 1))
      by (apply Qmult_le_0_compat; lra).
    lra.
  - destruct Hfa as [-> | ->]; [reflexivity|apply andb_false_r].
Qed.

Lemma X20_validated_ratio_separates_witness :
  capacitanceFlipDue freeSupplyLink = true
  /\ capacitanceFlipDue freeSupplyLink && capacitanceFlipDue freeSupplyPeer
     = false.
Proof.
  split; [vm_compute; reflexivity|].
  apply (X20_validated_ratio_separates freeSupplyLink freeSupplyPeer
           false false).
  - reflexivity.
  - reflexivity.
  - vm_compute. reflexivity.
  - vm_compute. reflexivity.
  - vm_compute. discriminate.
  - vm_compute. discriminate.
Defined.

(** ** Negative fractions and the flows *)

Lemma existsb_negative_false (f : nat -> Q) (n : nat) :
  existsb (fun i => Qlt_bool (f i) 0) (seq 0 n) = false
  <-> forall i, (i < n)%nat -> 0 <= f i.
Proof.
  split.
  - intros H i Hi.
    destruct (Qlt_bool_spec (f i) 0) as [Hneg|Hpos].
    + assert (Hex : existsb (fun i => Qlt_bool (f i) 0) (seq 0 n) = true).
      { apply existsb_exists. exists i. split.
        - apply in_seq. lia.
        - now apply Qlt_bool_iff. }
      congruence.
    + now apply Qnot_lt_le.
  - intro H. destruct (existsb _ _) eqn:E; [|reflexivity].
    apply existsb_exists in E. destruct E as (i & Hin & Hneg).
    apply in_seq in Hin. apply Qlt_bool_iff in Hneg.
    exfalso. apply (Qlt_not_le _ _ Hneg). apply H. lia.
Qed.

Section Fractions.

Context {FM : FluidModel}.

(** X21: [checkNegativeFluidFractions] returns false exactly when no bulk
    mole fraction of the fluid, over the species of the node, and no trace
    compound mole fraction, over the compounds of the fluid, is negative;
    a fraction of zero is not reported. *)
Theorem X21_negative_fractions_check (fluid : PolyFluid)
    (s : GunnsFluidDistributedIf) :
  checkNegativeFluidFractions fluid s = false
  <-> (forall i, (i < nNTypes (mNode s))%nat -> 0 <= getMoleFraction fluid i)
      /\ (forall i, (i < tcCount fluid)%nat -> 0 <= read (tcFractions fluid) i).
Proof.
  unfold checkNegativeFluidFractions, tcCount, tcFractions.
  rewrite orb_false_iff, existsb_negative_false.
  destruct (fTraceCompounds fluid) as [tc|].
  - rewrite existsb_negative_false. reflexivity.
  - split; [|tauto]. intros (H & _). split; [exact H|]. intros i Hi. lia.
Qed.

Lemma outputFluid_energy (fluid : PolyFluid) (s : GunnsFluidDistributedIf) :
  mEnergy (mOutData (snd (outputFluid fluid s)))
  = (if mUseEnthalpy s then getSpecificEnthalpy fluid
     else fTemperature fluid).
Proof. reflexivity. Qed.

Lemma outputCapacitance_fluids (s : GunnsFluidDistributedIf) :
  mUseEnthalpy (outputCapacitance s) = mUseEnthalpy s.
Proof. reflexivity. Qed.

(** X22: the temperature that a Demand side publishes is that of the flow
    into its node only when this temperature is positive and the mixture
    of the flow has no negative fraction; otherwise it is the temperature
    of the node content. *)
Theorem X22_demand_publishes_inflow (s : GunnsFluidDistributedIf) :
  mUseEnthalpy s = false ->
  mEnergy (mOutData (processOutputsDemand s))
  = (if Qlt_bool 0 (fTemperature (nInflow (mNode s)))
        && negb (checkNegativeFluidFractions (nInflow (mNode s)) s)
     then fTemperature (nInflow (mNode s))
     else fTemperature (nContent (mNode s))).
Proof.
  intro Henth. unfold processOutputsDemand.
  destruct (outputCapacitance_frame s)
    as (_ & _ & _ & _ & _ & _ & _ & _ & _ & Hnode).
  cbv zeta in Hnode.
  assert (Hcheck : forall f,
             checkNegativeFluidFractions f (outputCapacitance s)
             = checkNegativeFluidFractions f s).
  { intro f. unfold checkNegativeFluidFractions. rewrite Hnode.
    reflexivity. }
  rewrite Hnode, Hcheck.
  match goal with
  | |- context [outputFluid ?f ?x] =>
      pose proof (outputFluid_energy f x) as E;
      destruct (outputFluid f x) as [sum x']
  end.
  fields_in E. fields. rewrite E, outputCapacitance_fluids, Henth.
  destruct (Qlt_bool 0 (fTemperature (nInflow (mNode s))));
    [|reflexivity].
  destruct (checkNegativeFluidFractions (nInflow (mNode s)) s); reflexivity.
Qed.

End Fractions.

Lemma X22_demand_publishes_inflow_witness :
  mEnergy (mOutData (@processOutputsDemand oneSpecies demandLink8)) = 300.
Proof.
  rewrite (@X22_demand_publishes_inflow oneSpecies demandLink8);
    [|reflexivity].
  vm_compute. reflexivity.
Defined.

Section FlowCalls.

Variable computeFlux : Q -> GunnsFluidDistributedIf -> Q.
Variable m100EpsilonLimit : Q.
Variable getMWeight : PolyFluid -> Q.

(** X23: [computeFlows] marks the port as a source, and schedules an
    outflux from the node, only on a Demand side whose flux is below
    [- DBL_EPSILON]; the amount scheduled is the flux negated, above
    [DBL_EPSILON].  A Supply side is a sink for a flux of either sign and
    makes no call on the node, and a flux within [DBL_EPSILON] of zero
    gives no direction and no call. *)
Theorem X23_compute_flows (potentialVector : Q)
    (s : GunnsFluidDistributedIf) (w : Flows) :
  let w' := computeFlows computeFlux potentialVector s w in
  let flux := computeFlux (- potentialVector) s in
  flowsFlux w' = flux
  /\ mPotentialDrop w' = - potentialVector
  /\ (mPortDirections w' = NONE <-> Qabs flux <= DBL_EPSILON)
  /\ (mPortDirections w' = SOURCE
      <-> mDemandMode (mOutData s) = true /\ flux < - DBL_EPSILON)
  /\ (mPortDirections w' = SOURCE ->
      nodeCalls w' = nodeCalls w ++ [scheduleOutflux (- flux)]
      /\ DBL_EPSILON < - flux)
  /\ (mPortDirections w' <> SOURCE -> nodeCalls w' = nodeCalls w).
Proof.
  cbv zeta. unfold computeFlows.
  set (flux := computeFlux (- potentialVector) s).
  assert (He : 0 < DBL_EPSILON) by reflexivity.
  destruct (Qlt_bool_spec DBL_EPSILON flux) as [Hpos|Hpos]; simpl.
  - split; [reflexivity|]. split; [reflexivity|]. split.
    { split; [discriminate|]. intro H. exfalso.
      revert H. apply Qlt_not_le. apply Qabs_case; intros; lra. }
    split.
    { split; [discriminate|]. intros (_ & H). lra. }
    split; [discriminate|reflexivity].
  - destruct (Qlt_bool_spec flux (- DBL_EPSILON)) as [Hneg|Hneg]; simpl.
    + destruct (mDemandMode (mOutData s)); simpl.
      * split; [reflexivity|]. split; [reflexivity|]. split.
        { split; [discriminate|]. intro H. exfalso.
          revert H. apply Qlt_not_le. apply Qabs_case; intros; lra. }
        split; [tauto|]. split.
        { intros _. split; [reflexivity|lra]. }
        intro H. congruence.
      * split; [reflexivity|]. split; [reflexivity|]. split.
        { split; [discriminate|]. intro H. exfalso.
          revert H. apply Qlt_not_le. apply Qabs_case; intros; lra. }
        split.
        { split; [discriminate|]. intros (H & _). discriminate. }
        split; [discriminate|reflexivity].
    + split; [reflexivity|]. split; [reflexivity|]. split.
      { split; [|reflexivity]. intros _. apply Qabs_case; intros; lra. }
      split.
      { split; [discriminate|]. intros (_ & H). lra. }
      split; [discriminate|reflexivity].
Qed.

(** X24: [transportFlows] makes at most one call on the node.  A Demand
    side moves its node content: in for a mass flow rate above
    [m100EpsilonLimit], out for one below the negated limit, with the rate
    negated as the amount.  A Supply side never collects an outflux: for a
    rate beyond the limit in either direction it collects an influx of the
    internal fluid, at a negative rate when the flow leaves the node. *)
Theorem X24_transport_flows (s : GunnsFluidDistributedIf) (w : Flows) :
  let w' := transportFlows m100EpsilonLimit getMWeight s w in
  let rate := mFlowRate w' in
  rate = flowsFlux w
         * getMWeight (if mDemandMode (mOutData s) then nContent (mNode s)
                       else mInternalFluid s)
  /\ ((nodeCalls w' = nodeCalls w /\ Qabs rate <= m100EpsilonLimit)
      \/ (nodeCalls w'
          = nodeCalls w
            ++ [collectInflux rate
                  (if mDemandMode (mOutData s) then NodeContent
                   else InternalFluid)]
          /\ m100EpsilonLimit < Qabs rate
          /\ (mDemandMode (mOutData s) = true -> m100EpsilonLimit < rate))
      \/ (nodeCalls w' = nodeCalls w ++ [collectOutflux (- rate)]
          /\ mDemandMode (mOutData s) = true
          /\ m100EpsilonLimit < - rate)).
Proof.
  cbv zeta. unfold transportFlows. simpl.
  destruct (mDemandMode (mOutData s)).
  - set (rate := flowsFlux w * getMWeight (nContent (mNode s))).
    split; [reflexivity|].
    destruct (Qlt_bool_spec m100EpsilonLimit rate) as [Hin|Hin].
    + right. left. split; [reflexivity|]. split; [|auto].
      apply Qabs_case; intros; lra.
    + destruct (Qlt_bool_spec rate (- m100EpsilonLimit)) as [Hout|Hout].
      * right. right. split; [reflexivity|]. split; [reflexivity|]. lra.
      * left. split; [reflexivity|]. apply Qabs_case; intros; lra.
  - set (rate := flowsFlux w * getMWeight (mInternalFluid s)).
    split; [reflexivity|].
    destruct (Qlt_bool_spec m100EpsilonLimit (Qabs rate)) as [Hin|Hin].
    + right. left. split; [reflexivity|]. split; [exact Hin|discriminate].
    + left. split; [reflexivity|]. now apply Qnot_lt_le.
Qed.

End FlowCalls.

(** ** A Demand side takes in the state of the Supply side *)

Section DemandIngest.

Context {FM : FluidModel}.

Lemma inputFluid_node_content (pressure : Q) (s s' : GunnsFluidDistributedIf)
    (x : Q) :
  inputFluid pressure NodeContent s = Ret x s' ->
  fPressure (nContent (mNode s')) = pressure
  /\ fMass (nContent (mNode s')) = 0
  /\ mInternalFluid s' = mInternalFluid s
  /\ mSourcePressure s' = mSourcePressure s
  /\ mInData s' = mInData s
  /\ mOutData s' = mOutData s
  /\ mDemandFlux s' = mDemandFlux s
  /\ mForceSupplyMode s' = mForceSupplyMode s.
Proof.
  unfold inputFluid. fields.
  destruct (Qlt_bool _ DBL_EPSILON); [discriminate|].
  intro Hret. injection Hret as _ <-.
  destruct (mUseEnthalpy s); fields;
    destruct (mTcMoleFractions (mInData s)); fields;
    repeat match goal with
           | |- context [match ?o with Some _ => _ | None => _ end] =>
               destruct o
           end; fields; repeat split.
Qed.

Lemma flipModesOnInput_keeps_demand (s : GunnsFluidDistributedIf) :
  mDemandMode (mOutData s) = true ->
  mForceSupplyMode s = false ->
  hasValidData (mInData s) = Some true ->
  mDemandMode (mInData s) = false ->
  flipModesOnInput s = Ret tt (set_mInDataLastDemandMode false s).
Proof.
  intros Hout Hfs Hvalid Hin.
  unfold flipModesOnInput, bind, defined, run.
  rewrite Hout, Hfs, Hvalid, Hin.
  destruct (mForceDemandMode s); simpl; rewrite Hin; reflexivity.
Qed.

Lemma processInputsDemand_ingest (s s2 : GunnsFluidDistributedIf) :
  mDemandMode (mOutData s) = true ->
  hasValidData (mInData s) = Some true ->
  mDemandMode (mInData s) = false ->
  processInputsDemand s = Ret tt s2 ->
  mSourcePressure s2 = mSource (mInData s) * KILO_PER_UNIT
  /\ fPressure (nContent (mNode s2)) = mSource (mInData s) * KILO_PER_UNIT
  /\ fMass (nContent (mNode s2)) = 0
  /\ mFluidState s2 = nContent (mNode s2)
  /\ mInternalFluid s2 = mInternalFluid s
  /\ mInData s2 = mInData s
  /\ mOutData s2 = mOutData s
  /\ mForceSupplyMode s2 = mForceSupplyMode s.
Proof.
  intros Hout Hvalid Hin.
  unfold processInputsDemand, bind, defined, run.
  rewrite Hout, Hvalid, Hin. fields.
  pose proof (inputFluid_node_content
                (mSource (mInData s) * KILO_PER_UNIT)
                (set_mSourcePressure (mSource (mInData s) * KILO_PER_UNIT) s))
    as Hfluid.
  destruct (inputFluid _ NodeContent _) as [x s1|e st|];
    [|discriminate|discriminate].
  specialize (Hfluid s1 x eq_refl). fields_in Hfluid.
  destruct Hfluid as (F1 & F2 & F3 & F4 & F5 & F6 & F7 & F8).
  intro Hret. injection Hret as <-. fields.
  repeat split; assumption.
Qed.

Lemma processInputsSupply_in_demand (s : GunnsFluidDistributedIf) :
  mDemandMode (mOutData s) = true ->
  processInputsSupply s = Ret tt (set_mDemandFlux 0 s).
Proof.
  intro Hout. unfold processInputsSupply. fields. rewrite Hout. reflexivity.
Qed.

Lemma updateFrameCounters_fluids (s : GunnsFluidDistributedIf) :
  mFluidState (updateFrameCounters s) = mFluidState s
  /\ mInternalFluid (updateFrameCounters s) = mInternalFluid s.
Proof. split; reflexivity. Qed.

(** X25: a Demand side that receives a valid payload in Supply mode, and
    is not forced to Supply mode, stays in Demand mode when [processInputs]
    returns and has taken the pressure of the Supply side as its source
    pressure, converted from Pa to kPa; the node content is at that
    pressure with a mass of 0, the fluid state of the link is the node
    content, the internal fluid is left alone and the demand flux is 0, so
    that [step] stamps the source pressure times the admittance as the
    source vector. *)
Theorem X25_demand_takes_supply_state (s s' : GunnsFluidDistributedIf)
    (dt : Q) :
  mDemandMode (mOutData s) = true ->
  mForceSupplyMode s = false ->
  hasValidData (mInData s) = Some true ->
  mDemandMode (mInData s) = false ->
  processInputs s = Ret tt s' ->
  mDemandMode (mOutData s') = true
  /\ mSourcePressure s' = mSource (mInData s) * KILO_PER_UNIT
  /\ fPressure (nContent (mNode s')) = mSource (mInData s) * KILO_PER_UNIT
  /\ fMass (nContent (mNode s')) = 0
  /\ mFluidState s' = nContent (mNode s')
  /\ mInternalFluid s' = mInternalFluid s
  /\ mDemandFlux s' = 0
  /\ mSourceVector (step dt s')
     == mSource (mInData s) * KILO_PER_UNIT * mAdmittanceMatrix (step dt s').
Proof.
  intros Hout Hfs Hvalid Hin.
  unfold processInputs, bind.
  rewrite (flipModesOnInput_keeps_demand s Hout Hfs Hvalid Hin).
  pose proof (processInputsDemand_ingest
                (set_mInDataLastDemandMode false s)) as Hdem.
  destruct (processInputsDemand (set_mInDataLastDemandMode false s))
    as [[] s2|e st|]; [|discriminate|discriminate].
  specialize (Hdem s2 Hout Hvalid Hin eq_refl). fields_in Hdem.
  destruct Hdem as (D1 & D2 & D3 & D4 & D5 & D6 & D7 & D8).
  assert (Hout2 : mDemandMode (mOutData s2) = true) by congruence.
  rewrite (processInputsSupply_in_demand s2 Hout2).
  unfold run. intro Hret. injection Hret as <-.
  destruct (updateFrameCounters_frame (set_mDemandFlux 0 s2))
    as (_ & _ & _ & U1 & _ & U2 & (_ & _ & U3 & U4)).
  destruct (updateFrameCounters_fluids (set_mDemandFlux 0 s2)) as (U5 & U6).
  fields_in U1. fields_in U2. fields_in U3. fields_in U4.
  fields_in U5. fields_in U6.
  assert (Hp : mSourcePressure (updateFrameCounters (set_mDemandFlux 0 s2))
               = mSource (mInData s) * KILO_PER_UNIT) by congruence.
  assert (Hd : mDemandFlux (updateFrameCounters (set_mDemandFlux 0 s2)) = 0)
    by exact U4.
  split; [congruence|]. split; [exact Hp|].
  split; [rewrite U2; exact D2|]. split; [rewrite U2; exact D3|].
  split; [rewrite U2, U5; exact D4|]. split; [congruence|].
  split; [exact Hd|].
  destruct (step_stamp dt (updateFrameCounters (set_mDemandFlux 0 s2)))
    as (_ & _ & _ & _ & _ & Hv).
  rewrite Hp, Hd in Hv. revert Hv.
  generalize (mSourceVector
                (step dt (updateFrameCounters (set_mDemandFlux 0 s2))))
             (mAdmittanceMatrix
                (step dt (updateFrameCounters (set_mDemandFlux 0 s2)))).
  intros v A ->. ring.
Qed.

End DemandIngest.

Lemma X25_demand_takes_supply_state_witness :
  exists s',
    @processInputs oneSpecies demandLink8 = Ret tt s'
    /\ mSourcePressure s' == 100
    /\ fPressure (nContent (mNode s')) == 100.
Proof.
  destruct (@processInputs oneSpecies demandLink8) as [[] s'|e st|] eqn:E;
    [|vm_compute in E; discriminate|vm_compute in E; discriminate].
  exists s'. split; [reflexivity|].
  destruct (@X25_demand_takes_supply_state oneSpecies demandLink8 s' 1)
    as (_ & H1 & H2 & _).
  - reflexivity.
  - reflexivity.
  - vm_compute. reflexivity.
  - reflexivity.
  - exact E.
  - rewrite H1, H2. split; vm_compute; reflexivity.
Defined.

(** ** The statements above on the links of the one-species network *)

Lemma X14_output_capacitance_bounds_witness :
  mCapacitance (mOutData (outputCapacitance link0))
  = std_max 0 (nNetworkCapacitance (mNode link0) - mSuppliedCapacitance link0).
Proof.
  apply (X14_output_capacitance_bounds link0). reflexivity.
Defined.

Lemma X21_negative_fractions_check_witness :
  @checkNegativeFluidFractions oneSpecies tracedAir link0 = false.
Proof.
  apply (@X21_negative_fractions_check oneSpecies tracedAir link0).
  split; intros i Hi.
  - assert (i = O) as -> by (vm_compute in Hi; lia).
    vm_compute. discriminate.
  - assert (i = O) as -> by (vm_compute in Hi; lia).
    vm_compute. discriminate.
Defined.

Lemma X23_compute_flows_witness :
  nodeCalls (computeFlows (fun drop _ => drop) 1 demandLink8 outwardFlows)
  = nodeCalls outwardFlows ++ [scheduleOutflux (- - (1))].
Proof.
  destruct (X23_compute_flows (fun drop _ => drop) 1 demandLink8
              outwardFlows) as (_ & _ & _ & Hsource & Hcall & _).
  apply Hcall. apply Hsource. split; reflexivity.
Defined.

Lemma X24_transport_flows_witness :
  mFlowRate (transportFlows (1 # 10 ^ 13) (fun _ => 28) link0 outwardFlows)
  = - (1) * 28.
Proof.
  apply (X24_transport_flows (1 # 10 ^ 13) (fun _ => 28) link0
           outwardFlows).
Defined.
